(** * Field classification, upload fallback, CAPTCHA handling and history
      store of the job-application agent

    Shallow embedding of
      - [src/test_application_flow.py] (class [SmartApplicationAgent]) and
      - [src/anti_bot_handler.py]      (class [AntiBotHandler]).

    Conventions of the embedding.
      - Python [str] is [string], a character being a code point below
        256 (Latin-1); [str.lower] and [str.strip] act as Python does on
        that range.
      - Scalars of the YAML profile and of a scanned field are [PyVal]:
        [None], booleans, integers and strings.  Floats, sequences and
        mappings in scalar position are outside the model.
      - A Python [dict] with string keys is a [gmap string _]; [d[k]] raises
        [KeyError] on an absent key and [d.get(k, v)] falls back to [v].
      - Raising code lives in the error monad [Exc]; only subclasses of
        [Exception] are modelled (no asynchronous interrupts).
      - Calls to the logger do not influence control flow and are left out,
        except for the warning that reports the missing required fields. *)

From Stdlib Require Import ZArith Lia Ascii String List DecimalString DecimalPos.
From stdpp Require Import base option gmap strings list.

Local Open Scope string_scope.
Local Open Scope Z_scope.

(** ** Python strings *)

Module PyStr.

(** Upper-case code points below 256: A-Z and the Latin-1 capitals
    U+00C0-U+00DE without the multiplication sign U+00D7. *)
Definition is_upper (n : nat) : bool :=
  ((Nat.leb 65 n && Nat.leb n 90)
   || (Nat.leb 192 n && Nat.leb n 222 && negb (Nat.eqb n 215)))%bool.

Definition lower_char (c : ascii) : ascii :=
  let n := nat_of_ascii c in
  if is_upper n then ascii_of_nat (n + 32)%nat else c.

(** [s.lower()] *)
Fixpoint lower (s : string) : string :=
  match s with
  | EmptyString => EmptyString
  | String c s' => String (lower_char c) (lower s')
  end.

(** [s.startswith(p)] *)
Fixpoint startswith (p s : string) : bool :=
  match p, s with
  | EmptyString, _ => true
  | String a p', String b s' => if Ascii.eqb a b then startswith p' s' else false
  | String _ _, EmptyString => false
  end.

(** [sub in s] *)
Fixpoint contains (sub s : string) : bool :=
  if startswith sub s then true
  else match s with
       | EmptyString => false
       | String _ s' => contains sub s'
       end.

Fixpoint drop (n : nat) (s : string) : string :=
  match n, s with
  | O, _ => s
  | S n', String _ s' => drop n' s'
  | S _, EmptyString => EmptyString
  end.

(** [s.partition(sep)] when [sep] occurs: the text before and the text
    after the first occurrence. *)
Fixpoint cut (sep s : string) : option (string * string) :=
  if startswith sep s then Some (EmptyString, drop (String.length sep) s)
  else match s with
       | EmptyString => None
       | String c s' =>
           match cut sep s' with
           | Some (a, b) => Some (String c a, b)
           | None => None
           end
       end.

(** [s.split(sep)[0]] *)
Definition split_0 (sep s : string) : string :=
  match cut sep s with
  | Some (a, _) => a
  | None => s
  end.

(** [s.split(sep)[1]]; [IndexError] (here [None]) when [sep] does not
    occur in [s]. *)
Definition split_1 (sep s : string) : option string :=
  match cut sep s with
  | Some (_, b) => Some (split_0 sep b)
  | None => None
  end.

(** Characters removed by [str.strip()]: space, \t, \n, \v, \f, \r, the
    separators \x1c-\x1f, next-line \x85 and no-break space \xa0. *)
Definition is_space (c : ascii) : bool :=
  let n := nat_of_ascii c in
  (Nat.eqb n 32 || (Nat.leb 9 n && Nat.leb n 13) || (Nat.leb 28 n && Nat.leb n 31)
   || Nat.eqb n 133 || Nat.eqb n 160)%bool.

Fixpoint lstrip (s : string) : string :=
  match s with
  | String c s' => if is_space c then lstrip s' else s
  | EmptyString => EmptyString
  end.

Fixpoint rstrip (s : string) : string :=
  match s with
  | EmptyString => EmptyString
  | String c s' =>
      match rstrip s' with
      | EmptyString => if is_space c then EmptyString else String c EmptyString
      | t => String c t
      end
  end.

(** [s.strip()] *)
Definition strip (s : string) : string := rstrip (lstrip s).

(** [sep.join(l)] *)
Fixpoint join (sep : string) (l : list string) : string :=
  match l with
  | nil => EmptyString
  | x :: nil => x
  | x :: l' => x ++ sep ++ join sep l'
  end.

Definition nl : string := String "010"%char EmptyString.

Definition snoc (s : string) (c : ascii) : string := s ++ String c EmptyString.

(** [s.split()]: the maximal runs of non-space characters; [cur] is the
    run being read. *)
Fixpoint words_from (cur : option string) (s : string) : list string :=
  match s with
  | EmptyString =>
      match cur with
      | Some w => w :: nil
      | None => nil
      end
  | String c s' =>
      if is_space c then
        match cur with
        | Some w => w :: words_from None s'
        | None => words_from None s'
        end
      else words_from (Some (snoc (default EmptyString cur) c)) s'
  end.

Definition words (s : string) : list string := words_from None s.

End PyStr.

(** ** Python scalars and exceptions *)

Inductive PyVal : Type :=
  | VNone
  | VBool (b : bool)
  | VInt (z : Z)
  | VStr (s : string).

#[global] Instance PyVal_eq_dec : EqDecision PyVal.
Proof. solve_decision. Defined.

(** Truth value of a scalar in [if v:]. *)
Definition truthy (v : PyVal) : bool :=
  match v with
  | VNone => false
  | VBool b => b
  | VInt z => negb (Z.eqb z 0)
  | VStr s => negb (String.eqb s EmptyString)
  end.

(** [str(v)], as used by f-string interpolation. *)
Definition py_str (v : PyVal) : string :=
  match v with
  | VNone => "None"
  | VBool true => "True"
  | VBool false => "False"
  | VInt z => NilEmpty.string_of_int (Z.to_int z)
  | VStr s => s
  end.

Inductive PyExc : Type :=
  | KeyError (key : string)
  | IndexError
  | AttributeError
  | TypeError
  | NameError (name : string)
  | UnboundLocalError (name : string)
  | EnvError (msg : string).   (* raised by the browser, the console or the file system *)

Definition is_KeyError (e : PyExc) : bool :=
  match e with KeyError _ => true | _ => false end.

Definition Exc (A : Type) : Type := PyExc + A.

Definition ok {A} (a : A) : Exc A := inr a.
Definition raise {A} (e : PyExc) : Exc A := inl e.

Definition ebind {A B} (m : Exc A) (k : A -> Exc B) : Exc B :=
  match m with
  | inl e => inl e
  | inr a => k a
  end.

Declare Scope exc_scope.
Delimit Scope exc_scope with exc.
Notation "'let!' x ':=' m 'in' k" := (ebind m (fun x => k))
  (at level 10, x name, m at level 100, k at level 200) : exc_scope.
Local Open Scope exc_scope.

(** [try: body  except Exception: handler] *)
Definition try_except {A} (body : Exc A) (handler : PyExc -> Exc A) : Exc A :=
  match body with
  | inl e => handler e
  | inr a => inr a
  end.

(** [d[k]] on a dict. *)
Definition getitem {V} (d : gmap string V) (k : string) : Exc V :=
  match d !! k with
  | Some v => ok v
  | None => raise (KeyError k)
  end.

(** [d.get(k, dflt)] on a dict. *)
Definition dict_get {V} (d : gmap string V) (k : string) (dflt : V) : V :=
  default dflt (d !! k).

(** [l[0]] on a list. *)
Definition first_item {A} (l : list A) : Exc A :=
  match l with
  | x :: _ => ok x
  | nil => raise IndexError
  end.

(** [v.lower()]: only strings have the method. *)
Definition py_lower (v : PyVal) : Exc string :=
  match v with
  | VStr s => ok (PyStr.lower s)
  | _ => raise AttributeError
  end.

(** A value passed where the callee needs a string. *)
Definition as_str (v : PyVal) : Exc string :=
  match v with
  | VStr s => ok s
  | _ => raise TypeError
  end.

(** Items of a list handed to [str.join] must all be strings. *)
Fixpoint as_strings (l : list PyVal) : Exc (list string) :=
  match l with
  | nil => ok nil
  | VStr s :: l' => let! r := as_strings l' in ok (s :: r)
  | _ :: _ => raise TypeError
  end.

(** [a == b] on scalars ([True == 1] and [False == 0] hold in Python). *)
Definition py_eq (a b : PyVal) : bool :=
  match a, b with
  | VNone, VNone => true
  | VStr s, VStr t => String.eqb s t
  | VInt x, VInt y => Z.eqb x y
  | VBool x, VBool y => Bool.eqb x y
  | VBool x, VInt y | VInt y, VBool x => Z.eqb (if x then 1 else 0) y
  | _, _ => false
  end.

(** ** The outside world

    The browser page, the console and the file system are reached through
    calls whose outcome the program does not control.  [Env] gives their
    behaviour on a world state [W]; every call may change the world and may
    raise.  Each call and its outcome is recorded in a trace, which is what
    the statements about the order of interactions speak about. *)

(** What the program reads of a form control: an attribute, or the tag
    name. *)
Inductive Read : Type :=
  | ReadAttribute (name : string)
  | ReadTagName.

(** A form control of the page: its attributes and its tag name.  Reading
    them goes through the browser and may fail: [read_error] gives the
    exception a read raises, if it raises one. *)
Record Element : Type := {
  attributes : gmap string string;
  tag_name : string;
  read_error : Read -> option PyExc;
}.

(** Objects a module-level name can be bound to. *)
Inductive PyObj : Type :=
  | ObjList (items : list PyVal)
  | ObjOpaque.   (* a module, class, function or the logger *)

Inductive Call : Type :=
  | LaunchBrowser
  | NewContext
  | NewPage
  | Goto (url : string)
  | WaitForLoadState (state : string)
  | HumanBehavior
  | QuerySelectorAll (selector : string)
  | Locate (selector : string)
  | SetInputFiles (selector path : string)
  | WaitForTimeout (ms : Z)
  | Screenshot (path : string)
  | Input (prompt : string)
  | SelectOption (selector value : string)
  | CheckBox (selector : string)
  | Fill (selector value : string)
  | CloseBrowser
  | LogWarning (msg : string) (missing_fields : PyObj)
  | Now
  | FileExists (path : string)
  | JsonLoad (path : string)
  | JsonDump (path : string).

Inductive Outcome : Type :=
  | Raised (e : PyExc)
  | Returned
  | Counted (n : nat)
  | Entered (line : string).

Definition Event : Type := Call * Outcome.

(** One attempt kept in [application_history.json]. *)
Record ApplicationRecord : Type := {
  job_details : gmap string PyVal;
  analysis : gmap string PyVal;
  cover_letter : string;
  timestamp : string;
  status : string;
}.

(** What [json.load] can give back: an array of records, or something else. *)
Inductive JsonDoc : Type :=
  | JRecords (records : list ApplicationRecord)
  | JOther.

Class Env (W : Type) : Type := {
  (** calls that return nothing *)
  env_do : Call -> W -> W * Exc unit;
  (** [page.locator(selector).count()] *)
  env_count : string -> W -> W * Exc nat;
  (** [input(prompt)]: blocks until the operator presses Enter *)
  env_input : string -> W -> W * Exc string;
  (** [page.query_selector_all(selector)] *)
  env_elements : string -> W -> W * Exc (list Element);
  (** [datetime.now().isoformat()] *)
  env_now : W -> W * Exc string;
  (** [path.exists()] *)
  env_exists : string -> W -> W * Exc bool;
  (** [json.load] of the file at [path] *)
  env_load : string -> W -> W * Exc JsonDoc;
  (** [json.dump] into the file at [path] *)
  env_dump : string -> list ApplicationRecord -> W -> W * Exc unit;
}.

Record St (W : Type) : Type := {
  world : W;
  trace : list Event;
  globals : gmap string PyObj;
}.
Arguments world {W} _.
Arguments trace {W} _.
Arguments globals {W} _.

Definition M (W A : Type) : Type := St W -> St W * Exc A.

Definition mreturn {W A} (a : A) : M W A := fun st => (st, ok a).
Definition mraise {W A} (e : PyExc) : M W A := fun st => (st, raise e).
Definition lift {W A} (r : Exc A) : M W A := fun st => (st, r).

Definition mthen {W A B} (m : M W A) (k : A -> M W B) : M W B :=
  fun st =>
    match m st with
    | (st', inl e) => (st', inl e)
    | (st', inr a) => k a st'
    end.

Declare Scope flow_scope.
Delimit Scope flow_scope with flow.
Notation "'do!' x '<-' m ';' k" := (mthen m (fun x => k))
  (at level 10, x name, m at level 100, k at level 200) : flow_scope.
Notation "'run!' m ';' k" := (mthen m (fun _ => k))
  (at level 10, m at level 100, k at level 200) : flow_scope.

(** [try: body  except Exception as e: handler e] *)
Definition mtry {W A} (body : M W A) (handler : PyExc -> M W A) : M W A :=
  fun st =>
    match body st with
    | (st', inl e) => handler e st'
    | (st', inr a) => (st', inr a)
    end.

(** [try: body  finally: final] *)
Definition mfinally {W A} (body : M W A) (final : M W unit) : M W A :=
  fun st =>
    match body st with
    | (st', r) =>
        match final st' with
        | (st'', inl e) => (st'', inl e)
        | (st'', inr _) => (st'', r)
        end
    end.

Definition log_event {W} (c : Call) (o : Outcome) (w : W) (st : St W) : St W :=
  {| world := w; trace := trace st ++ (c, o) :: nil; globals := globals st |}.

Section Calls.
Context {W : Type} {env : Env W}.

Definition do_call (c : Call) : M W unit :=
  fun st =>
    match env_do c (world st) with
    | (w, inl e) => (log_event c (Raised e) w st, inl e)
    | (w, inr _) => (log_event c Returned w st, inr tt)
    end.

Definition locator_count (selector : string) : M W nat :=
  fun st =>
    match env_count selector (world st) with
    | (w, inl e) => (log_event (Locate selector) (Raised e) w st, inl e)
    | (w, inr n) => (log_event (Locate selector) (Counted n) w st, inr n)
    end.

Definition input (prompt : string) : M W string :=
  fun st =>
    match env_input prompt (world st) with
    | (w, inl e) => (log_event (Input prompt) (Raised e) w st, inl e)
    | (w, inr l) => (log_event (Input prompt) (Entered l) w st, inr l)
    end.

Definition query_selector_all (selector : string) : M W (list Element) :=
  fun st =>
    match env_elements selector (world st) with
    | (w, inl e) => (log_event (QuerySelectorAll selector) (Raised e) w st, inl e)
    | (w, inr l) => (log_event (QuerySelectorAll selector) (Counted (length l)) w st, inr l)
    end.

Definition now_isoformat : M W string :=
  fun st =>
    match env_now (world st) with
    | (w, inl e) => (log_event Now (Raised e) w st, inl e)
    | (w, inr t) => (log_event Now (Entered t) w st, inr t)
    end.

Definition path_exists (path : string) : M W bool :=
  fun st =>
    match env_exists path (world st) with
    | (w, inl e) => (log_event (FileExists path) (Raised e) w st, inl e)
    | (w, inr b) => (log_event (FileExists path) Returned w st, inr b)
    end.

Definition json_load (path : string) : M W JsonDoc :=
  fun st =>
    match env_load path (world st) with
    | (w, inl e) => (log_event (JsonLoad path) (Raised e) w st, inl e)
    | (w, inr d) => (log_event (JsonLoad path) Returned w st, inr d)
    end.

Definition json_dump (path : string) (l : list ApplicationRecord) : M W unit :=
  fun st =>
    match env_dump path l (world st) with
    | (w, inl e) => (log_event (JsonDump path) (Raised e) w st, inl e)
    | (w, inr _) => (log_event (JsonDump path) Returned w st, inr tt)
    end.

(** [logger.warning(msg, extra={'structured_data': {'missing_fields': l}})] *)
Definition log_warning (msg : string) (l : PyObj) : M W unit :=
  fun st => (log_event (LogWarning msg l) Returned (world st) st, inr tt).

(** Evaluation of a module-level name. *)
Definition global_name (name : string) : M W PyObj :=
  fun st =>
    match globals st !! name with
    | Some o => (st, ok o)
    | None => (st, raise (NameError name))
    end.

(** [name.append(x)] for a module-level [name]. *)
Definition global_append (name : string) (x : PyVal) : M W unit :=
  fun st =>
    match globals st !! name with
    | Some (ObjList l) =>
        ({| world := world st; trace := trace st;
            globals := <[name := ObjList (l ++ x :: nil)]> (globals st) |}, ok tt)
    | Some ObjOpaque => (st, raise AttributeError)
    | None => (st, raise (NameError name))
    end.

End Calls.

(** ** [anti_bot_handler.py] *)

Module AntiBotHandler.
Section WithEnv.
Context {W : Type} {env : Env W}.
Local Open Scope flow_scope.

(** Mouse movement, scrolling and the random delay are one opaque call;
    the [try]/[except] of the source swallows its failure. *)
Definition add_human_behavior : M W unit :=
  mtry (do_call HumanBehavior) (fun _ => mreturn tt).

Definition captcha_selectors : list (string * list string) :=
  ("hcaptcha",
    "iframe[title*='checkbox']" :: "#h-captcha" :: ".h-captcha"
    :: "iframe[src*='hcaptcha']" :: nil)
  :: ("recaptcha",
    "iframe[src*='recaptcha']" :: ".g-recaptcha" :: "#recaptcha" :: nil)
  :: nil.

Definition MANUAL_PROMPT : string :=
  "Please solve the CAPTCHA manually and press Enter to continue...".

Definition GENERIC_MARKER : string := "iframe[src*='captcha']".

Definition _handle_manual_captcha : M W bool :=
  mtry
    (run! do_call (Screenshot "captcha.png");
     do! _line <- input MANUAL_PROMPT;
     run! do_call (WaitForTimeout 2000);
     do! n <- locator_count GENERIC_MARKER;
     if (0 <? n)%nat then mreturn false else mreturn true)
    (fun _ => mreturn false).

(** [for selector in selectors: if page.locator(selector).count() > 0:
    return self._handle_manual_captcha(page)]; [next] is the rest of the
    outer loop. *)
Fixpoint scan_selectors (selectors : list string) (next : M W bool) : M W bool :=
  match selectors with
  | nil => next
  | selector :: rest =>
      do! n <- locator_count selector;
      if (0 <? n)%nat then _handle_manual_captcha
      else scan_selectors rest next
  end.

(** [for captcha_type, selectors in captcha_selectors.items(): ...]
    followed by [return False]. *)
Fixpoint scan_types (table : list (string * list string)) : M W bool :=
  match table with
  | nil => mreturn false
  | (_captcha_type, selectors) :: rest => scan_selectors selectors (scan_types rest)
  end.

Definition handle_captcha : M W bool :=
  mtry (scan_types captcha_selectors) (fun _ => mreturn false).

End WithEnv.
End AntiBotHandler.
(** ** The applicant profile ([plain_text_resume.yaml]) *)

(** One entry of [experience_details]; [None] is an absent key. *)
Record Experience : Type := {
  position : option PyVal;
  company : option PyVal;
  key_responsibilities : option (list PyVal);
}.

Record Config : Type := {
  personal_information : option (gmap string PyVal);
  experience_details : option (list Experience);
  skills : option (gmap string (list PyVal));
}.

(** [d[k]] where the key [k] of a typed mapping is the record field [o]. *)
Definition item {V} (k : string) (o : option V) : Exc V :=
  match o with
  | Some v => ok v
  | None => raise (KeyError k)
  end.

Definition empty_experience : Experience :=
  {| position := None; company := None; key_responsibilities := None |}.

Module SmartApplicationAgent.

Record Agent : Type := {
  project_root : string;
  config : Config;
}.

Import PyStr.

Definition resume_path (self : Agent) : string :=
  project_root self ++ "/assets/documents/resume/resume.pdf".

Definition cover_letter_path (self : Agent) : string :=
  project_root self ++ "/assets/documents/cover_letters/cover_letter.pdf".

Definition history_file (self : Agent) : string :=
  project_root self ++ "/data_folder/application_history.json".

(** The names bound at module level of [test_application_flow.py]: its
    imports, its classes and functions, and [logger]. *)
Definition module_globals : gmap string PyObj :=
  list_to_map (map (fun n => (n, ObjOpaque))
    ("sync_playwright" :: "OllamaLLM" :: "Tool" :: "ConversationBufferMemory"
     :: "PromptTemplate" :: "StrOutputParser" :: "yaml" :: "Path" :: "logging"
     :: "os" :: "requests" :: "json" :: "Dict" :: "Any" :: "AntiBotHandler"
     :: "LeverJobAnalyzer" :: "LeverNavigator" :: "StructuredFormatter"
     :: "setup_logging" :: "logger" :: "check_requirements"
     :: "SmartApplicationAgent" :: nil)).

(** The state in which a method of the agent starts. *)
Definition module_state {W} (w : W) (tr : list Event) : St W :=
  {| world := w; trace := tr; globals := module_globals |}.

(** [self.config['personal_information'][k]] *)
Definition personal (self : Agent) (k : string) : Exc PyVal :=
  let! pi := item "personal_information" (personal_information (config self)) in
  getitem pi k.

(** [self.config['skills'][k]] *)
Definition skill (self : Agent) (k : string) : Exc (list PyVal) :=
  let! sk := item "skills" (skills (config self)) in
  getitem sk k.

Definition _generate_cover_letter (self : Agent) : Exc string :=
  let! experience :=
    first_item (default (empty_experience :: nil) (experience_details (config self))) in
  let pos := default (VStr "") (position experience) in
  let comp := default (VStr "") (company experience) in
  let! langs := skill self "programming_languages" in
  let! langs3 := as_strings (firstn 3 langs) in
  let! resp := first_item (default (VStr "" :: nil) (key_responsibilities experience)) in
  let! ai_ml := skill self "ai_ml" in
  let! ai_ml0 := first_item ai_ml in
  let! cloud := skill self "cloud_services" in
  let! cloud0 := first_item cloud in
  let! name := personal self "name" in
  let! surname := personal self "surname" in
  ok ("Dear Hiring Manager," ++ nl
      ++ nl
      ++ "I am writing to express my interest in the position. As a "
      ++ py_str pos ++ " at " ++ py_str comp ++ ", " ++ nl
      ++ "I have extensive experience in " ++ join ", " langs3 ++ "." ++ nl
      ++ nl
      ++ "Key achievements:" ++ nl
      ++ py_str resp ++ nl
      ++ nl
      ++ "I am particularly drawn to this opportunity because of my background in "
      ++ py_str ai_ml0 ++ " " ++ nl
      ++ "and " ++ py_str cloud0 ++ "." ++ nl
      ++ nl
      ++ "Best regards," ++ nl
      ++ py_str name ++ " " ++ py_str surname ++ nl).

(** The body of the [try] block of [_get_field_value_from_config]. *)
Definition _get_field_value_body (self : Agent) (field_name field_type : PyVal)
  : Exc PyVal :=
  let! field_name := py_lower field_name in
  if contains "name" field_name then
    let! n := personal self "name" in
    let! s := personal self "surname" in
    ok (VStr (py_str n ++ " " ++ py_str s))
  else if contains "email" field_name then personal self "email"
  else if contains "phone" field_name then personal self "phone"
  else if contains "location" field_name then
    let! c := personal self "city" in
    let! k := personal self "country" in
    ok (VStr (py_str c ++ ", " ++ py_str k))
  else if (contains "company" field_name || contains "org" field_name)%bool then
    let! exps := item "experience_details" (experience_details (config self)) in
    let! e0 := first_item exps in
    item "company" (company e0)
  else if contains "linkedin" field_name then personal self "linkedin"
  else if contains "github" field_name then personal self "github"
  else if (contains "portfolio" field_name || contains "website" field_name)%bool then
    personal self "website"
  else if (contains "comments" field_name || contains "cover" field_name)%bool then
    let! letter := _generate_cover_letter self in
    ok (VStr letter)
  else ok VNone.

(** [except KeyError: return None] then [except Exception: return None]. *)
Definition _get_field_value_from_config (self : Agent) (field_name field_type : PyVal)
  : Exc PyVal :=
  try_except (_get_field_value_body self field_name field_type)
    (fun e => if is_KeyError e then ok VNone else ok VNone).

Definition HIDDEN_SKIP : string := "ACTION: SKIP" ++ nl ++ "REASON: Hidden field".
Definition RESUME_UPLOAD : string :=
  "ACTION: UPLOAD" ++ nl ++ "VALUE: resume.pdf" ++ nl ++ "REASON: Resume upload field".
Definition UNKNOWN_FILE_SKIP : string := "ACTION: SKIP" ++ nl ++ "REASON: Unknown file upload".
Definition REQUIRED_FILL (value : PyVal) : string :=
  "ACTION: FILL" ++ nl ++ "VALUE: " ++ py_str value ++ nl ++ "REASON: Required field".
Definition REQUIRED_ALERT : string :=
  "ACTION: ALERT" ++ nl ++ "REASON: Required field needs value".
Definition OPTIONAL_FILL (value : PyVal) : string :=
  "ACTION: FILL" ++ nl ++ "VALUE: " ++ py_str value ++ nl
  ++ "REASON: Optional field with data".
Definition OPTIONAL_SKIP : string :=
  "ACTION: SKIP" ++ nl ++ "REASON: Optional field without data".
Definition ERROR_SKIP : string := "ACTION: SKIP" ++ nl ++ "REASON: Error in analysis".

(** The body of the [try] block of [_analyze_field]. *)
Definition _analyze_field_body (self : Agent) (field_info : gmap string PyVal)
  : Exc string :=
  let field_name := dict_get field_info "name" (VStr "") in
  let field_type := dict_get field_info "type" (VStr "") in
  let required := dict_get field_info "required" (VBool false) in
  if py_eq field_type (VStr "hidden") then ok HIDDEN_SKIP
  else if py_eq field_type (VStr "file") then
    let! l1 := py_lower field_name in
    if contains "resume" l1 then ok RESUME_UPLOAD
    else
      let! l2 := py_lower field_name in
      if contains "cv" l2 then ok RESUME_UPLOAD else ok UNKNOWN_FILE_SKIP
  else
    let! value := _get_field_value_from_config self field_name field_type in
    if truthy required then
      if truthy value then ok (REQUIRED_FILL value) else ok REQUIRED_ALERT
    else if truthy value then ok (OPTIONAL_FILL value)
    else ok OPTIONAL_SKIP.

Definition _analyze_field (self : Agent) (field_info : gmap string PyVal) : Exc string :=
  try_except (_analyze_field_body self field_info) (fun _ => ok ERROR_SKIP).

(** *** Reading a decision back

    The analysis is a text; its consumers take it apart again:
    [log_field_analysis] extracts the action and the reason, [_fill_field]
    the value. *)

(** [analysis.split('ACTION:')[1].split('\n')[0].strip() if 'ACTION:' in analysis else None] *)
Definition analysis_action (analysis : string) : option string :=
  if contains "ACTION:" analysis then
    match split_1 "ACTION:" analysis with
    | Some rest => Some (strip (split_0 nl rest))
    | None => None
    end
  else None.

(** [analysis.split('REASON:')[1].strip() if 'REASON:' in analysis else None] *)
Definition analysis_reason (analysis : string) : option string :=
  if contains "REASON:" analysis then
    match split_1 "REASON:" analysis with
    | Some rest => Some (strip rest)
    | None => None
    end
  else None.

(** [analysis.split("VALUE:")[1].split("\n")[0].strip()], guarded by
    ["VALUE:" in analysis]. *)
Definition analysis_value (analysis : string) : option string :=
  if contains "VALUE:" analysis then
    match split_1 "VALUE:" analysis with
    | Some rest => Some (strip (split_0 nl rest))
    | None => None
    end
  else None.

(** The action vocabulary of a decision. *)
Inductive Action : Type := FILL | SKIP | UPLOAD | ALERT.

Definition action_of_name (a : string) : option Action :=
  if String.eqb a "FILL" then Some FILL
  else if String.eqb a "SKIP" then Some SKIP
  else if String.eqb a "UPLOAD" then Some UPLOAD
  else if String.eqb a "ALERT" then Some ALERT
  else None.

Definition decision_action (analysis : string) : option Action :=
  match analysis_action analysis with
  | Some a => action_of_name a
  | None => None
  end.

(** *** Scanning the form *)

(** The value of an attribute of a control: its text, or [None] when the
    control has no such attribute. *)
Definition attribute_value (element : Element) (a : string) : PyVal :=
  match attributes element !! a with
  | Some s => VStr s
  | None => VNone
  end.

(** [element.get_attribute(a)] *)
Definition get_attribute (element : Element) (a : string) : Exc PyVal :=
  match read_error element (ReadAttribute a) with
  | Some e => raise e
  | None => ok (attribute_value element a)
  end.

(** [element.evaluate("el => el.tagName")] *)
Definition evaluate_tag_name (element : Element) : Exc string :=
  match read_error element ReadTagName with
  | Some e => raise e
  | None => ok (tag_name element)
  end.

(** The body of the [try] block of [_generate_selector]. *)
Definition _generate_selector_body (element : Element) : Exc string :=
  let! id := get_attribute element "id" in
  let! name := get_attribute element "name" in
  let! class := get_attribute element "class" in
  let! type := get_attribute element "type" in
  let fallback : Exc string :=
    let! tag := evaluate_tag_name element in
    let tag_name := lower tag in
    if truthy type then ok (tag_name ++ "[type='" ++ py_str type ++ "']")
    else ok tag_name in
  if truthy id then ok ("#" ++ py_str id)
  else if truthy name then ok ("[name='" ++ py_str name ++ "']")
  else if truthy class then
    match words (py_str class) with
    | nil => fallback
    | classes => ok ("." ++ join "." classes)
    end
  else fallback.

(** [except Exception: return "input"] *)
Definition _generate_selector (element : Element) : string :=
  match _generate_selector_body element with
  | inr selector => selector
  | inl _ => "input"
  end.

(** The dictionary built for one control in [_get_form_fields]. *)
Definition field_info_of (element : Element) : Exc (gmap string PyVal) :=
  let! name := get_attribute element "name" in
  let! type := get_attribute element "type" in
  let! required := get_attribute element "required" in
  let! placeholder := get_attribute element "placeholder" in
  let selector := _generate_selector element in
  ok ({[ "name" := name;
         "type" := type;
         "required" := VBool (negb (py_eq required VNone));
         "placeholder" := placeholder;
         "selector" := VStr selector ]} : gmap string PyVal).

(** [for input_element in input_elements:]; a control whose reading
    raises is left out ([except Exception: continue]). *)
Fixpoint scan_controls (input_elements : list Element) : list (gmap string PyVal) :=
  match input_elements with
  | nil => nil
  | input_element :: rest =>
      match field_info_of input_element with
      | inr field_info => field_info :: scan_controls rest
      | inl _ => scan_controls rest
      end
  end.

(** [(field.get('name') or '')] *)
Definition name_or_empty (field : gmap string PyVal) : PyVal :=
  let n := dict_get field "name" VNone in
  if truthy n then n else VStr "".

Fixpoint _should_upload_resume (form_fields : list (gmap string PyVal)) : Exc bool :=
  match form_fields with
  | nil => ok false
  | field :: rest =>
      let! hit :=
        if py_eq (dict_get field "type" VNone) (VStr "file") then
          let! l1 := py_lower (name_or_empty field) in
          if contains "resume" l1 then ok true
          else let! l2 := py_lower (name_or_empty field) in ok (contains "cv" l2)
        else ok false in
      if hit then ok true else _should_upload_resume rest
  end.

Section WithEnv.
Context {W : Type} {env : Env W}.
Local Open Scope flow_scope.

Definition _get_form_fields : M W (list (gmap string PyVal)) :=
  mtry
    (do! input_elements <- query_selector_all "input, select, textarea";
     mreturn (scan_controls input_elements))
    (fun _ => mreturn nil).

(** *** Executing a decision *)

(** One round of the loop of [_try_upload_file]: [true] when the round
    returned [True], [false] when the loop goes on. *)
Definition upload_attempt (file_path selector : string) : M W bool :=
  mtry
    (do! n <- locator_count selector;
     if (0 <? n)%nat then
       run! do_call (SetInputFiles selector file_path);
       run! do_call (WaitForTimeout 1000);
       mreturn true
     else mreturn false)
    (fun _ => mreturn false).

Fixpoint _try_upload_file (file_path : string) (selectors : list string)
    (file_type : string) : M W bool :=
  match selectors with
  | nil => mreturn false
  | selector :: rest =>
      do! uploaded <- upload_attempt file_path selector;
      if uploaded then mreturn true else _try_upload_file file_path rest file_type
  end.

Definition resume_selectors : list string :=
  "input[name='resume']"
  :: "input[type='file'][name*='resume' i]"
  :: "input[type='file'][accept='.pdf']"
  :: "input[type='file'][name*='cv' i]"
  :: "input[type='file']" :: nil.

Definition _upload_resume (self : Agent) : M W bool :=
  _try_upload_file (resume_path self) resume_selectors "resume".

Definition cover_letter_selectors : list string :=
  "input[name='cover_letter']"
  :: "input[type='file'][name*='cover' i]"
  :: "input[type='file'][name*='letter' i]"
  :: "input[type='file']:not([name*='resume' i])" :: nil.

Definition _upload_cover_letter (self : Agent) : M W bool :=
  _try_upload_file (cover_letter_path self) cover_letter_selectors "cover letter".

Definition _upload_documents (self : Agent) : M W bool :=
  do! resume_uploaded <- _upload_resume self;
  do! cover_letter_uploaded <- _upload_cover_letter self;
  mreturn (resume_uploaded || cover_letter_uploaded)%bool.

(** A page call on the selector of the field, which has to be a text. *)
Definition on_selector (selector : PyVal) (call : string -> Call) : M W unit :=
  do! selector <- lift (as_str selector);
  do_call (call selector).

(** The f-strings of the log calls of [_fill_field] evaluate
    [field['name']], which raises when the key is absent. *)
Definition _fill_field (field : gmap string PyVal) (analysis : string) : M W bool :=
  mtry
    (if negb (contains "VALUE:" analysis) then
       do! _n <- lift (getitem field "name");
       mreturn false
     else
       do! value <- lift (match analysis_value analysis with
                          | Some v => ok v
                          | None => raise IndexError
                          end);
       do! selector <- lift (getitem field "selector");
       do! field_type <- lift (py_lower (dict_get field "type" (VStr "")));
       run! (if String.eqb field_type "select" then
               on_selector selector (fun s => SelectOption s value)
             else if String.eqb field_type "checkbox" then
               if existsb (String.eqb (lower value)) ("true" :: "yes" :: "1" :: nil)
               then on_selector selector CheckBox else mreturn tt
             else if String.eqb field_type "radio" then on_selector selector CheckBox
             else on_selector selector (fun s => Fill s value));
       do! _n <- lift (getitem field "name");
       mreturn true)
    (fun _ =>
       do! _n <- lift (getitem field "name");
       mreturn false).

(** *** The application flow *)

(** Evaluation of the local variable [analysis] of
    [test_application_flow]; it is unbound until its first assignment. *)
Definition local_analysis (analysis : option string) : Exc string :=
  match analysis with
  | Some a => ok a
  | None => raise (UnboundLocalError "analysis")
  end.

(** [required_fields.append(field['name'])] *)
Definition append_missing (field : gmap string PyVal) : M W unit :=
  do! _o <- global_name "required_fields";
  do! n <- lift (getitem field "name");
  global_append "required_fields" n.

(** The body of [for field in form_fields:]; the result is the value
    [analysis] is bound to afterwards. *)
Definition field_step (self : Agent) (field : gmap string PyVal)
    (analysis : option string) : M W string :=
  run! AntiBotHandler.add_human_behavior;
  do! previous <- lift (local_analysis analysis);
  run! (if (contains "ACTION: FILL" previous || contains "ACTION: UPLOAD" previous)%bool
        then do! _solved <- AntiBotHandler.handle_captcha; mreturn tt
        else mreturn tt);
  do! analysis <- lift (_analyze_field self field);
  do! _n <- lift (getitem field "name");
  run! (if contains "ACTION: FILL" analysis then
          do! filled <- _fill_field field analysis;
          if negb filled then
            if truthy (dict_get field "required" VNone) then append_missing field
            else mreturn tt
          else mreturn tt
        else if contains "ACTION: UPLOAD" analysis then
          do! uploaded <- _upload_resume self;
          if negb uploaded then
            if truthy (dict_get field "required" VNone) then append_missing field
            else mreturn tt
          else mreturn tt
        else if contains "ACTION: ALERT" analysis then append_missing field
        else mreturn tt);
  mreturn analysis.

Fixpoint field_loop (self : Agent) (form_fields : list (gmap string PyVal))
    (analysis : option string) : M W unit :=
  match form_fields with
  | nil => mreturn tt
  | field :: rest =>
      do! analysis <- field_step self field analysis;
      field_loop self rest (Some analysis)
  end.

Definition obj_truthy (o : PyObj) : bool :=
  match o with
  | ObjList nil => false
  | _ => true
  end.

(** The [try] block of [test_application_flow]. *)
Definition flow_body (self : Agent) (job_url : string) : M W unit :=
  run! do_call (Goto job_url);
  run! do_call (WaitForLoadState "networkidle");
  run! AntiBotHandler.add_human_behavior;
  do! _solved <- AntiBotHandler.handle_captcha;
  do! form_fields <- _get_form_fields;
  run! field_loop self form_fields None;
  do! required_fields <- global_name "required_fields";
  run! (if obj_truthy required_fields then
          do! required_fields <- global_name "required_fields";
          log_warning "Missing required fields" required_fields
        else mreturn tt);
  run! do_call (Screenshot "application_test.png");
  do! _line <- input "Press Enter to close the browser (will not submit)...";
  mreturn tt.

Definition test_application_flow (self : Agent) (job_url : string) : M W unit :=
  run! do_call LaunchBrowser;
  run! do_call NewContext;
  run! do_call NewPage;
  mfinally
    (mtry (flow_body self job_url)
       (fun e => run! do_call (Screenshot "error_screenshot.png"); mraise e))
    (do_call CloseBrowser).

(** *** The history store *)

Definition _save_application_details (self : Agent)
    (job_details analysis : gmap string PyVal) (cover_letter : string) : M W unit :=
  mtry
    (do! datetime <- global_name "datetime";
     do! timestamp <- match datetime with
                      | ObjOpaque => now_isoformat
                      | ObjList _ => mraise AttributeError
                      end;
     let application_record :=
       {| job_details := job_details;
          analysis := analysis;
          cover_letter := cover_letter;
          timestamp := timestamp;
          status := "attempted" |} in
     do! present <- path_exists (history_file self);
     do! existing_history <-
       (if present then json_load (history_file self) else mreturn (JRecords nil));
     do! existing_history <-
       match existing_history with
       | JRecords l => mreturn (l ++ application_record :: nil)%list
       | JOther => mraise AttributeError
       end;
     run! json_dump (history_file self) existing_history;
     mreturn tt)
    (fun _ => mreturn tt).

End WithEnv.

End SmartApplicationAgent.

(** ** Specification vocabulary *)

Module Spec.
Import PyStr SmartApplicationAgent.

(** *** Classification *)

Definition field_name (field : gmap string PyVal) : PyVal :=
  dict_get field "name" (VStr "").
Definition field_type (field : gmap string PyVal) : PyVal :=
  dict_get field "type" (VStr "").
Definition is_required (field : gmap string PyVal) : bool :=
  truthy (dict_get field "required" (VBool false)).

(** The value direct lookup finds in the profile for a field. *)
Definition profile_value (self : Agent) (field : gmap string PyVal) : PyVal :=
  match _get_field_value_from_config self (field_name field) (field_type field) with
  | inr v => v
  | inl _ => VNone
  end.

(** A profile value is resolvable when lookup gives a value that counts
    as present. *)
Definition resolvable (self : Agent) (field : gmap string PyVal) : bool :=
  truthy (profile_value self field).




(** Comparison of characters and texts up to letter case. *)
Definition same_letter (a b : ascii) : bool := Ascii.eqb (lower_char a) (lower_char b).

Fixpoint startswith_ci (p s : string) : bool :=
  match p, s with
  | EmptyString, _ => true
  | String a p', String b s' => if same_letter a b then startswith_ci p' s' else false
  | String _ _, EmptyString => false
  end.

(** [s] has a part that reads [sub] when letter case is ignored. *)
Fixpoint contains_ci (sub s : string) : bool :=
  if startswith_ci sub s then true
  else match s with
       | EmptyString => false
       | String _ s' => contains_ci sub s'
       end.

(** The name of the field is a text that contains "resume" or "cv",
    case-insensitively. *)
Definition names_resume (field : gmap string PyVal) : bool :=
  match field_name field with
  | VStr s => (contains_ci "resume" s || contains_ci "cv" s)%bool
  | _ => false
  end.

(** The rule for file fields as the specification words it; the reason is
    compared up to letter case. *)
Definition file_rule (self : Agent) (field : gmap string PyVal) : Prop :=
  field_type field = VStr "file" ->
  exists analysis,
    _analyze_field self field = ok analysis /\
    if names_resume field then
      decision_action analysis = Some UPLOAD /\
      analysis_value analysis = Some "resume.pdf"
    else
      decision_action analysis = Some SKIP /\
      option_map lower (analysis_reason analysis) = Some "unknown file upload".

(** *** Direct profile lookup as a priority table *)

Definition full_name (self : Agent) : Exc PyVal :=
  let! n := personal self "name" in
  let! s := personal self "surname" in
  ok (VStr (py_str n ++ " " ++ py_str s)).

Definition city_country (self : Agent) : Exc PyVal :=
  let! c := personal self "city" in
  let! k := personal self "country" in
  ok (VStr (py_str c ++ ", " ++ py_str k)).

Definition recent_employer (self : Agent) : Exc PyVal :=
  let! exps := item "experience_details" (experience_details (config self)) in
  let! e0 := first_item exps in
  item "company" (company e0).

Definition cover_letter_text (self : Agent) : Exc PyVal :=
  let! letter := _generate_cover_letter self in
  ok (VStr letter).

(** Each row: the keys looked for in the lower-cased field name, and where
    the value comes from. *)
Definition priority_table : list (list string * (Agent -> Exc PyVal)) :=
  ("name" :: nil, full_name)
  :: ("email" :: nil, fun self => personal self "email")
  :: ("phone" :: nil, fun self => personal self "phone")
  :: ("location" :: nil, city_country)
  :: ("company" :: "org" :: nil, recent_employer)
  :: ("linkedin" :: nil, fun self => personal self "linkedin")
  :: ("github" :: nil, fun self => personal self "github")
  :: ("portfolio" :: "website" :: nil, fun self => personal self "website")
  :: ("comments" :: "cover" :: nil, cover_letter_text)
  :: nil.

Definition row_matches (ln : string) (row : list string * (Agent -> Exc PyVal)) : bool :=
  existsb (fun k => contains k ln) (fst row).

(** The first row of the table with a key that occurs in [ln]. *)
Definition first_match (ln : string) (table : list (list string * (Agent -> Exc PyVal)))
  : option (list string * (Agent -> Exc PyVal)) :=
  List.find (row_matches ln) table.

(** Lookup by the table: the first matching row decides; a failing lookup
    and a name without matching row give no value. *)
Definition lookup_by_table (self : Agent) (field_name : PyVal) : PyVal :=
  match py_lower field_name with
  | inl _ => VNone
  | inr ln =>
      match first_match ln priority_table with
      | Some (_, source) =>
          match source self with
          | inr v => v
          | inl _ => VNone
          end
      | None => VNone
      end
  end.

(** *** Traces of interactions *)

(** The events of one round of the upload loop on [selector] that did not
    upload: the selector did not resolve, or attaching the file failed. *)
Inductive failed_attempt (file_path selector : string) : list Event -> Prop :=
  | locate_raised e :
      failed_attempt file_path selector ((Locate selector, Raised e) :: nil)
  | not_found :
      failed_attempt file_path selector ((Locate selector, Counted 0) :: nil)
  | attach_raised n e :
      failed_attempt file_path selector
        ((Locate selector, Counted (S n))
         :: (SetInputFiles selector file_path, Raised e) :: nil)
  | settle_raised n e :
      failed_attempt file_path selector
        ((Locate selector, Counted (S n))
         :: (SetInputFiles selector file_path, Returned)
         :: (WaitForTimeout 1000, Raised e) :: nil).

(** The events of a round that uploaded through [selector]. *)
Definition successful_attempt (file_path selector : string) (evs : list Event) : Prop :=
  exists n,
    evs = (Locate selector, Counted (S n))
          :: (SetInputFiles selector file_path, Returned)
          :: (WaitForTimeout 1000, Returned) :: nil.


(** The calls of the manual resolution of a challenge, in their order. *)
Definition resolution_protocol : list Call :=
  Screenshot "captcha.png"
  :: Input AntiBotHandler.MANUAL_PROMPT
  :: WaitForTimeout 2000
  :: Locate AntiBotHandler.GENERIC_MARKER :: nil.

(** A run of the manual resolution from the world [w]: its events, its
    result and the world it leaves.  Every call is made on the world the
    call before it left and is recorded with the outcome the world gave;
    a call that raises ends the run with failure; otherwise the run goes
    through the screenshot, the wait for the operator, the settle wait
    and the re-scan, and succeeds when the re-scan counts no marker. *)
Inductive resolution_run {W} {env : Env W} (w : W) : list Event -> bool -> W -> Prop :=
  | screenshot_fails w1 e :
      env_do (Screenshot "captcha.png") w = (w1, raise e) ->
      resolution_run w ((Screenshot "captcha.png", Raised e) :: nil) false w1
  | operator_fails w1 w2 e :
      env_do (Screenshot "captcha.png") w = (w1, ok tt) ->
      env_input AntiBotHandler.MANUAL_PROMPT w1 = (w2, raise e) ->
      resolution_run w
        ((Screenshot "captcha.png", Returned)
         :: (Input AntiBotHandler.MANUAL_PROMPT, Raised e) :: nil) false w2
  | settle_fails w1 w2 w3 line e :
      env_do (Screenshot "captcha.png") w = (w1, ok tt) ->
      env_input AntiBotHandler.MANUAL_PROMPT w1 = (w2, ok line) ->
      env_do (WaitForTimeout 2000) w2 = (w3, raise e) ->
      resolution_run w
        ((Screenshot "captcha.png", Returned)
         :: (Input AntiBotHandler.MANUAL_PROMPT, Entered line)
         :: (WaitForTimeout 2000, Raised e) :: nil) false w3
  | rescan_fails w1 w2 w3 w4 line e :
      env_do (Screenshot "captcha.png") w = (w1, ok tt) ->
      env_input AntiBotHandler.MANUAL_PROMPT w1 = (w2, ok line) ->
      env_do (WaitForTimeout 2000) w2 = (w3, ok tt) ->
      env_count AntiBotHandler.GENERIC_MARKER w3 = (w4, raise e) ->
      resolution_run w
        ((Screenshot "captcha.png", Returned)
         :: (Input AntiBotHandler.MANUAL_PROMPT, Entered line)
         :: (WaitForTimeout 2000, Returned)
         :: (Locate AntiBotHandler.GENERIC_MARKER, Raised e) :: nil) false w4
  | rescan_counts w1 w2 w3 w4 line n :
      env_do (Screenshot "captcha.png") w = (w1, ok tt) ->
      env_input AntiBotHandler.MANUAL_PROMPT w1 = (w2, ok line) ->
      env_do (WaitForTimeout 2000) w2 = (w3, ok tt) ->
      env_count AntiBotHandler.GENERIC_MARKER w3 = (w4, ok n) ->
      resolution_run w
        ((Screenshot "captcha.png", Returned)
         :: (Input AntiBotHandler.MANUAL_PROMPT, Entered line)
         :: (WaitForTimeout 2000, Returned)
         :: (Locate AntiBotHandler.GENERIC_MARKER, Counted n) :: nil)
        (Nat.eqb n 0) w4.

(** Every selector of the challenge-marker table. *)
Definition marker_selectors : list string :=
  concat (map snd AntiBotHandler.captcha_selectors).

(** On the worlds of [page] no selector of the marker table resolves to
    an element, and looking a selector up leads to a world of [page]
    again. *)
Definition no_marker_resolves {W} {env : Env W} (page : W -> Prop) : Prop :=
  forall selector w w' r,
    page w ->
    env_count selector w = (w', r) ->
    page w' /\
    (forall n, In selector marker_selectors -> r = ok n -> n = 0%nat).

Definition is_locate (ev : Event) : bool :=
  match fst ev with
  | Locate _ => true
  | _ => false
  end.

Definition is_warning (ev : Event) : bool :=
  match fst ev with
  | LogWarning _ _ => true
  | _ => false
  end.

(** The warnings of a trace. *)
Definition warnings (evs : list Event) : list Event := List.filter is_warning evs.

(** A computation is quiet when it binds no module-level name and logs
    no warning. *)
Definition quiet {W A} (m : M W A) : Prop :=
  forall st,
    globals (fst (m st)) = globals st /\
    warnings (trace (fst (m st))) = warnings (trace st).

(** A computation is doomed when, started where [required_fields] is
    unbound, it raises, and is quiet up to there. *)
Definition doomed {W A} (m : M W A) : Prop :=
  forall st,
    globals st !! "required_fields" = None ->
    (exists e, snd (m st) = raise e) /\
    globals (fst (m st)) = globals st /\
    warnings (trace (fst (m st))) = warnings (trace st).

End Spec.

(** ** A simulated world

    A page whose selectors resolve to fixed counts, an operator who presses
    Enter at once, and a history file; no call raises. *)

Module Sim.

Record World : Type := {
  counts : list (string * nat);
  elements : list Element;
  history : option JsonDoc;
}.

Fixpoint count_of (selector : string) (l : list (string * nat)) : nat :=
  match l with
  | nil => 0
  | (s, n) :: l' => if String.eqb s selector then n else count_of selector l'
  end.

#[global] Instance sim_env : Env World := {|
  env_do := fun _ w => (w, ok tt);
  env_count := fun selector w => (w, ok (count_of selector (counts w)));
  env_input := fun _ w => (w, ok EmptyString);
  env_elements := fun _ w => (w, ok (elements w));
  env_now := fun w => (w, ok "2024-01-01T00:00:00");
  env_exists := fun _ w => (w, ok (bool_decide (is_Some (history w))));
  env_load := fun _ w => (w, match history w with
                             | Some d => ok d
                             | None => raise (EnvError "FileNotFoundError")
                             end);
  env_dump := fun _ l w =>
    ({| counts := counts w; elements := elements w; history := Some (JRecords l) |},
     ok tt);
|}.

Definition page (cs : list (string * nat)) (els : list Element) : World :=
  {| counts := cs; elements := els; history := None |}.

Definition start (w : World) : St World :=
  SmartApplicationAgent.module_state w nil.

(** The state [st] with the module-level name [name] bound to [obj]. *)
Definition with_global (name : string) (obj : PyObj) (st : St World) : St World :=
  {| world := world st; trace := trace st;
     globals := <[name := obj]> (globals st) |}.

(** A profile with a name only. *)
Definition ada : SmartApplicationAgent.Agent :=
  {| SmartApplicationAgent.project_root := "/app";
     SmartApplicationAgent.config :=
       {| personal_information :=
            Some {[ "name" := VStr "Ada"; "surname" := VStr "Lovelace" ]};
          experience_details := None;
          skills := None |} |}.

Definition field (name type : PyVal) (required : bool) : gmap string PyVal :=
  {[ "name" := name; "type" := type; "required" := VBool required;
     "placeholder" := VNone; "selector" := VStr "input" ]}.

End Sim.

(** ** Conditions and event patterns of the further properties *)

Module Conditions.
Import PyStr SmartApplicationAgent Spec.

(** The lower-cased field name [ln] reaches the last row of the
    conditional chain of [_get_field_value_from_config]: it contains
    "comments" or "cover" and none of the keys tested before. *)
Definition cover_letter_field (ln : string) : bool :=
  (negb (contains "name" ln) && negb (contains "email" ln)
   && negb (contains "phone" ln) && negb (contains "location" ln)
   && negb (contains "company" ln) && negb (contains "org" ln)
   && negb (contains "linkedin" ln) && negb (contains "github" ln)
   && negb (contains "portfolio" ln) && negb (contains "website" ln)
   && (contains "comments" ln || contains "cover" ln))%bool.

Definition is_text (v : PyVal) : bool :=
  match v with
  | VStr _ => true
  | _ => false
  end.

Definition has_items {A} (o : option (list A)) : bool :=
  match o with
  | Some (_ :: _) => true
  | _ => false
  end.

(** What the profile has to hold for [_generate_cover_letter] to return:
    [experience_details] is absent or has an entry, whose
    [key_responsibilities] are absent or have an entry; [skills] has
    [programming_languages], the first three of which are texts, and
    non-empty [ai_ml] and [cloud_services]; [personal_information] has
    [name] and [surname]. *)
Definition letter_ready (self : Agent) : bool :=
  match experience_details (config self) with
  | Some nil => false
  | Some (experience :: _) =>
      match key_responsibilities experience with
      | Some nil => false
      | _ => true
      end
  | None => true
  end
  && match skills (config self) with
     | Some sk =>
         match sk !! "programming_languages" with
         | Some langs => forallb is_text (firstn 3 langs)
         | None => false
         end
         && has_items (sk !! "ai_ml") && has_items (sk !! "cloud_services")
     | None => false
     end
  && match personal_information (config self) with
     | Some pi => bool_decide (is_Some (pi !! "name"))
                  && bool_decide (is_Some (pi !! "surname"))
     | None => false
     end.

(** A field as [_get_form_fields] builds it: name, type and placeholder
    are an attribute text or [None], [required] is a boolean and the
    selector is a text. *)
Definition text_or_none (o : option PyVal) : Prop :=
  o = Some VNone \/ exists s, o = Some (VStr s).

Definition scanned_field (field : gmap string PyVal) : Prop :=
  text_or_none (field !! "name") /\
  text_or_none (field !! "type") /\
  text_or_none (field !! "placeholder") /\
  (exists b, field !! "required" = Some (VBool b)) /\
  (exists s, field !! "selector" = Some (VStr s)).

(** None of the reads of the attributes [names] raises on the control. *)
Definition reads (element : Element) (names : list string) : bool :=
  forallb (fun a => match read_error element (ReadAttribute a) with
                    | None => true
                    | Some _ => false
                    end) names.

(** The attributes [_get_form_fields] reads of a control itself, and the
    attributes [_generate_selector] reads. *)
Definition scanned_attributes : list string :=
  "name" :: "type" :: "required" :: "placeholder" :: nil.
Definition selector_attributes : list string :=
  "id" :: "name" :: "class" :: "type" :: nil.

(** The scan can read the control. *)
Definition readable (element : Element) : bool := reads element scanned_attributes.

(** The field of a control as its attributes describe it. *)
Definition snapshot (element : Element) : gmap string PyVal :=
  {[ "name" := attribute_value element "name";
     "type" := attribute_value element "type";
     "required" := VBool (negb (py_eq (attribute_value element "required") VNone));
     "placeholder" := attribute_value element "placeholder";
     "selector" := VStr (_generate_selector element) ]}.

(** The character occurs in the text. *)
Fixpoint occurs (c : ascii) (s : string) : bool :=
  match s with
  | EmptyString => false
  | String a s' => (Ascii.eqb a c || occurs c s')%bool
  end.

(** The text has no white space in it. *)
Fixpoint no_space (s : string) : bool :=
  match s with
  | EmptyString => true
  | String c s' => (negb (is_space c) && no_space s')%bool
  end.

(** The text is white space only. *)
Fixpoint blank (s : string) : bool :=
  match s with
  | EmptyString => true
  | String c s' => (is_space c && blank s')%bool
  end.

(** The classifier answers the field by the upload of the resume. *)
Definition classified_upload (self : Agent) (field : gmap string PyVal) : bool :=
  match _analyze_field self field with
  | inr analysis => String.eqb analysis RESUME_UPLOAD
  | inl _ => false
  end.

(** An action that calls the page at most once: it does nothing, or makes
    one call that returns, or makes one call that raises. *)
Definition single_call {W} (act : M W unit) : Prop :=
  forall st,
    act st = (st, ok tt) \/
    exists call w,
      act st = (log_event call Returned w st, ok tt) \/
      exists e, act st = (log_event call (Raised e) w st, raise e).

(** Lookups of selectors that found nothing. *)
Definition unresolved (selectors : list string) : list Event :=
  map (fun selector => (Locate selector, Counted 0)) selectors.

(** The events of a manual resolution that went through and found no
    marker left. *)
Definition resolved_by_operator (line : string) : list Event :=
  (Screenshot "captcha.png", Returned)
  :: (Input AntiBotHandler.MANUAL_PROMPT, Entered line)
  :: (WaitForTimeout 2000, Returned)
  :: (Locate AntiBotHandler.GENERIC_MARKER, Counted 0) :: nil.

End Conditions.

(** ** Sample profiles and controls *)

Module Samples.
Import SmartApplicationAgent.

(** A profile that holds everything the cover letter needs. *)
Definition grace : Agent :=
  {| project_root := "/app";
     config :=
       {| personal_information :=
            Some {[ "name" := VStr "Grace"; "surname" := VStr "Hopper";
                    "email" := VStr "grace@example.org" ]};
          experience_details :=
            Some ({| position := Some (VStr "Engineer");
                     company := Some (VStr "Navy");
                     key_responsibilities := Some (VStr "Compilers" :: nil) |}
                  :: nil);
          skills :=
            Some {[ "programming_languages" := VStr "COBOL" :: VStr "Fortran" :: nil;
                    "ai_ml" := VStr "search" :: nil;
                    "cloud_services" := VStr "mainframes" :: nil ]} |} |}.

(** A control with the attributes [attrs]. *)
Definition control (tag : string) (attrs : list (string * string)) : Element :=
  {| attributes := list_to_map attrs; tag_name := tag; read_error := fun _ => None |}.

(** A control whose tag name cannot be read. *)
Definition detached (tag : string) (attrs : list (string * string)) : Element :=
  {| attributes := list_to_map attrs; tag_name := tag;
     read_error := fun r => match r with
                            | ReadTagName => Some (EnvError "detached")
                            | ReadAttribute _ => None
                            end |}.

(** A control whose [placeholder] cannot be read. *)
Definition unreadable (tag : string) (attrs : list (string * string)) : Element :=
  {| attributes := list_to_map attrs; tag_name := tag;
     read_error := fun r => match r with
                            | ReadAttribute "placeholder" => Some (EnvError "detached")
                            | _ => None
                            end |}.

End Samples.

(** ** [job_portals/lever_navigator.py] *)

Module LeverNavigator.
Import PyStr.

(** A node of the parsed page: its text as [get_text(strip=True)] gives
    it, its attributes, and the nodes it answers a CSS selector with. *)
Unset Elimination Schemes.
Inductive Node : Type :=
  | mk_node (text : string) (attrs : gmap string string) (select : string -> list Node).
Set Elimination Schemes.

Definition node_text (n : Node) : string :=
  match n with mk_node text _ _ => text end.
Definition node_attrs (n : Node) : gmap string string :=
  match n with mk_node _ attrs _ => attrs end.
Definition node_select (n : Node) (selector : string) : list Node :=
  match n with mk_node _ _ select => select selector end.

(** [node.select_one(selector)] *)
Definition select_one (n : Node) (selector : string) : option Node :=
  head (node_select n selector).

(** [s.endswith(suffix)] *)
Fixpoint endswith (suffix s : string) : bool :=
  if String.eqb suffix s then true
  else match s with
       | EmptyString => false
       | String _ s' => endswith suffix s'
       end.

Definition _get_text (soup : Node) (selector : string) : string :=
  match select_one soup selector with
  | Some element => node_text element
  | None => EmptyString
  end.

(** The body of [for section in requirement_sections:]. *)
Definition section_requirements (section : Node) : list string :=
  let req_items := node_select section "li" in
  (map node_text req_items
   ++ match req_items with
      | nil => map node_text (node_select section "p")
      | _ => nil
      end)%list.

Definition _extract_requirements (soup : Node) : list string :=
  concat (map section_requirements
            (node_select soup
               ".requirements, .content-requirements, .posting-requirements")).

Definition dq : string := String "034"%char EmptyString.

Definition APPLY_BUTTON : string :=
  "a.posting-btn-submit, a[href*=" ++ dq ++ "apply" ++ dq ++ "]".

(** What [get_job_details] returns. *)
Record JobDetails : Type := {
  title : string;
  company : string;
  location : string;
  description : string;
  requirements : list string;
  apply_url : string;
  department : string;
  commitment : string;
  workplaceType : string;
}.

(** The argument of an HTTP request: the text of a URL, or the dictionary
    [apply_to_lever_job] hands to [analyze_job] in its place. *)
Inductive Target : Type :=
  | TargetUrl (url : string)
  | TargetDetails (details : JobDetails).

Section WithUrljoin.
(** [urllib.parse.urljoin] *)
Variable urljoin : string -> string -> string.

Definition _get_apply_url (job_url : string) (soup : Node) : string :=
  let attempt : Exc string :=
    let apply_button := select_one soup APPLY_BUTTON in
    match apply_button with
    | Some button =>
        match node_attrs button !! "href" with
        | Some (String c href) => ok (urljoin job_url (String c href))
        | _ =>
            if negb (endswith "/apply" job_url) then ok (job_url ++ "/apply")
            else ok job_url
        end
    | None =>
        if negb (endswith "/apply" job_url) then ok (job_url ++ "/apply")
        else ok job_url
    end in
  match attempt with
  | inr url => url
  | inl _ => job_url ++ "/apply"
  end.

(** The dictionary built in [get_job_details] from the parsed page. *)
Definition job_details_of (job_url : string) (soup : Node) : JobDetails :=
  {| title := _get_text soup ".posting-headline h2";
     company := _get_text soup ".posting-headline h3";
     location := _get_text soup ".location";
     description := _get_text soup ".description";
     requirements := _extract_requirements soup;
     apply_url := _get_apply_url job_url soup;
     department := _get_text soup ".department";
     commitment := _get_text soup ".commitment";
     workplaceType := _get_text soup ".workplaceTypes" |}.

End WithUrljoin.

End LeverNavigator.

(** The network: an HTTP GET whose answer is parsed by BeautifulSoup. *)
Class Web (W : Type) : Type := {
  web_get : LeverNavigator.Target -> W -> W * Exc LeverNavigator.Node;
}.

(** [BeautifulSoup(requests.get(target).text, 'html.parser')]; the request
    is not a call of the page and leaves the trace as it is. *)
Definition fetch {W} {web : Web W} (target : LeverNavigator.Target)
  : M W LeverNavigator.Node :=
  fun st =>
    match web_get target (world st) with
    | (w, r) => ({| world := w; trace := trace st; globals := globals st |}, r)
    end.

(** [LeverNavigator.get_job_details]: the exception of a failed request is
    logged and raised again. *)
Definition get_job_details {W} {web : Web W} (urljoin : string -> string -> string)
    (job_url : string) : M W LeverNavigator.JobDetails :=
  mtry
    (mthen (fetch (LeverNavigator.TargetUrl job_url))
       (fun soup => mreturn (LeverNavigator.job_details_of urljoin job_url soup)))
    (fun e => mraise e).

(** ** [job_analyzers/lever_analyzer.py] *)

Module LeverJobAnalyzer.
Import PyStr.

(** A value of [resume['skills']]: a list, or something else. *)
Inductive SkillGroup : Type :=
  | SkillList (items : list PyVal)
  | SkillOther.

(** An entry of [resume['experience']]: its text entries, and its
    [relevance], an integer when present. *)
Record Entry : Type := {
  entry : gmap string PyVal;
  relevance : option Z;
}.

(** [resume.json]; the skill groups are kept in the order of the file. *)
Record Resume : Type := {
  resume_skills : option (list (string * SkillGroup));
  resume_experience : option (list Entry);
  resume_personal_information : option (gmap string PyVal);
}.

(** The match score [(matching / total) * 100], a float that is kept as
    the two counts it is computed from, or the integer [0]. *)
Inductive Score : Type :=
  | ScoreZero
  | ScorePercent (matching total : nat).

Record Analysis : Type := {
  matching_skills : list string;
  relevant_experience : list Entry;
  match_score : Score;
  missing_requirements : list PyVal;
}.

(** The dictionary [job_info]; [analysis] is the key added last. *)
Record JobInfo : Type := {
  title : PyVal;
  company : PyVal;
  location : PyVal;
  description : PyVal;
  requirements : list PyVal;
  apply_url : PyVal;
  department : PyVal;
  commitment : PyVal;
  analysis : option Analysis;
}.

(** The attributes an analyzer has: the methods of its class and the
    [resume] set by [__init__]. *)
Definition attribute_names : list string :=
  "__init__" :: "analyze_job" :: "generate_cover_letter" :: "_load_resume"
  :: "_analyze_job_match" :: "_find_matching_skills" :: "_get_relevant_experience"
  :: "_generate_experience_paragraph" :: "_generate_skills_paragraph"
  :: "_generate_closing_paragraph" :: "resume" :: nil.

(** The names bound at module level of [lever_analyzer.py]. *)
Definition module_names : list string :=
  "logging" :: "BeautifulSoup" :: "requests" :: "json" :: "Path" :: "Dict"
  :: "Any" :: "logger" :: "LeverJobAnalyzer" :: nil.

(** [self.<name>], where [bound] is what the attribute would be bound
    to. *)
Definition self_attribute {A} (name : string) (bound : A) : Exc A :=
  if existsb (String.eqb name) attribute_names then ok bound else raise AttributeError.

(** A name that is not local, where [bound] is what it would be bound
    to. *)
Definition global_variable {A} (name : string) (bound : A) : Exc A :=
  if existsb (String.eqb name) module_names then ok bound else raise (NameError name).

(** [[skill.lower() for skill in skill_type]] *)
Fixpoint lower_all (l : list PyVal) : Exc (list string) :=
  match l with
  | nil => ok nil
  | v :: l' =>
      let! s := py_lower v in
      let! r := lower_all l' in
      ok (s :: r)
  end.

(** The first loop of [_find_matching_skills]; [acc] is the set
    [resume_skills]. *)
Fixpoint collect_skills (groups : list (string * SkillGroup)) (acc : gset string)
  : Exc (gset string) :=
  match groups with
  | nil => ok acc
  | (_, SkillList items) :: rest =>
      let! lowered := lower_all items in
      collect_skills rest (acc ∪ list_to_set lowered)
  | (_, SkillOther) :: rest => collect_skills rest acc
  end.

(** The second loop: for every requirement, the skills that occur in its
    lower-cased text, the set being gone through in some order. *)
Fixpoint match_requirements (skills : gset string) (reqs : list PyVal)
  : Exc (list string) :=
  match reqs with
  | nil => ok nil
  | req :: rest =>
      let! req_lower := py_lower req in
      let! more := match_requirements skills rest in
      ok (List.filter (fun skill => contains skill req_lower) (elements skills) ++ more)%list
  end.

(** [list(set(matching))]: the order of the result is that of a set. *)
Definition _find_matching_skills (resume : Resume) (job_info : JobInfo)
  : Exc (list string) :=
  let! resume_skills := collect_skills (default nil (resume_skills resume)) ∅ in
  let! matching := match_requirements resume_skills (requirements job_info) in
  ok (elements (list_to_set matching : gset string)).

(** [job_info['analysis']['matching_skills']] *)
Definition analysis_skills (job_info : JobInfo) : Exc (list string) :=
  let! a := item "analysis" (analysis job_info) in
  ok (matching_skills a).

Definition _generate_skills_paragraph (job_info : JobInfo) : Exc string :=
  let! matching_skills := analysis_skills job_info in
  match matching_skills with
  | nil => ok EmptyString
  | _ =>
      let! additional :=
        if (3 <? length matching_skills)%nat
        then match matching_skills !! 3%nat with
             | Some s => ok s
             | None => raise IndexError
             end
        else first_item matching_skills in
      ok ("I bring strong technical skills in " ++ join ", " (firstn 3 matching_skills)
          ++ ", which align perfectly with your requirements. Additionally, my experience with "
          ++ additional
          ++ " would allow me to make immediate contributions to your team.")
  end.

(** Stable sorting by descending relevance:
    [sorted(l, key=lambda x: x.get('relevance', 0), reverse=True)]. *)
Definition sort_key (x : Entry) : Z := default 0 (relevance x).

Fixpoint insert_by_relevance (x : Entry) (sorted : list Entry) : list Entry :=
  match sorted with
  | nil => x :: nil
  | y :: rest =>
      if (sort_key y <? sort_key x) then x :: y :: rest
      else y :: insert_by_relevance x rest
  end.

Definition sorted_by_relevance (l : list Entry) : list Entry :=
  fold_left (fun acc x => insert_by_relevance x acc) l nil.

Section Undefined.
(** What the attributes and the name the code uses without their being
    defined anywhere would be bound to, were they defined. *)
Variable _get_text : LeverNavigator.Node -> string -> Exc PyVal.
Variable _extract_requirements : LeverNavigator.Node -> Exc (list PyVal).
Variable _get_apply_url : LeverNavigator.Target -> Exc PyVal.
Variable _extract_keywords : PyVal -> Exc (list string).
Variable _find_missing_requirements : JobInfo -> Exc (list PyVal).
Variable _extract_company_focus : JobInfo -> Exc PyVal.
Variable global_job_info : JobInfo.

(** The loop of [_get_relevant_experience]. *)
Fixpoint relevant_entries (job_keywords : gset string) (entries : list Entry)
  : Exc (list Entry) :=
  match entries with
  | nil => ok nil
  | exp :: rest =>
      let! extract := self_attribute "_extract_keywords" _extract_keywords in
      let! words := extract (dict_get (entry exp) "description" (VStr "")) in
      let exp_keywords : gset string := list_to_set words in
      let! more := relevant_entries job_keywords rest in
      if bool_decide (job_keywords ∩ exp_keywords ≠ ∅) then ok (exp :: more)
      else ok more
  end.

Definition _get_relevant_experience (resume : Resume) (job_info : JobInfo)
  : Exc (list Entry) :=
  let! extract := self_attribute "_extract_keywords" _extract_keywords in
  let! words := extract (description job_info) in
  let job_keywords : gset string := list_to_set words in
  let! relevant :=
    relevant_entries job_keywords (default nil (resume_experience resume)) in
  ok (sorted_by_relevance relevant).

Definition _generate_experience_paragraph (relevant_experience : list Entry)
  : Exc string :=
  match relevant_experience with
  | nil => ok EmptyString
  | exp :: _ =>
      let! title := getitem (entry exp) "title" in
      let! company_name := getitem (entry exp) "company" in
      let! key_achievement := getitem (entry exp) "key_achievement" in
      let! job_info := global_variable "job_info" global_job_info in
      ok ("In my role as " ++ py_str title ++ " at " ++ py_str company_name
          ++ ", I have demonstrated expertise in " ++ py_str key_achievement
          ++ ". This experience has prepared me well for the challenges and opportunities at "
          ++ py_str (company job_info) ++ ".")
  end.

Definition _generate_closing_paragraph (job_info : JobInfo) : Exc string :=
  let company_name := company job_info in
  let! focus_of := self_attribute "_extract_company_focus" _extract_company_focus in
  let! focus := focus_of job_info in
  ok ("I am particularly drawn to " ++ py_str company_name
      ++ " because of your focus on " ++ py_str focus
      ++ ". I am excited about the possibility of contributing to your team and would welcome the opportunity to discuss how my skills and experience align with your needs.").

(** [try: ... except Exception as e: logger.error(...); raise] *)
Definition reraising {A} (body : Exc A) : Exc A :=
  try_except body (fun e => raise e).

Definition generate_cover_letter (resume : Resume) (job_info : JobInfo) : Exc string :=
  reraising
    (let! relevant_experience := _get_relevant_experience resume job_info in
     let! matching_skills := analysis_skills job_info in
     let! experience_paragraph := _generate_experience_paragraph relevant_experience in
     let! skills_paragraph := _generate_skills_paragraph job_info in
     let! closing_paragraph := _generate_closing_paragraph job_info in
     let! personal := item "personal_information" (resume_personal_information resume) in
     let! name := getitem personal "name" in
     ok ("Dear Hiring Manager," ++ nl
         ++ nl
         ++ "I am writing to express my strong interest in the " ++ py_str (title job_info)
         ++ " position at " ++ py_str (company job_info)
         ++ ". With my background in " ++ join ", " (firstn 3 matching_skills)
         ++ ", I am confident in my ability to contribute effectively to your team." ++ nl
         ++ nl
         ++ experience_paragraph ++ nl
         ++ nl
         ++ skills_paragraph ++ nl
         ++ nl
         ++ closing_paragraph ++ nl
         ++ nl
         ++ "Best regards," ++ nl
         ++ py_str name)).

Definition _analyze_job_match (resume : Resume) (job_info : JobInfo) : Exc Analysis :=
  let! matching := _find_matching_skills resume job_info in
  let! relevant := _get_relevant_experience resume job_info in
  let total_reqs := length (requirements job_info) in
  let matching_reqs := length matching in
  let score := if (0 <? total_reqs)%nat then ScorePercent matching_reqs total_reqs
               else ScoreZero in
  let! find_missing :=
    self_attribute "_find_missing_requirements" _find_missing_requirements in
  let! missing := find_missing job_info in
  ok {| matching_skills := matching;
        relevant_experience := relevant;
        match_score := score;
        missing_requirements := missing |}.

(** The part of [analyze_job] that follows the request. *)
Definition job_info_of (resume : Resume) (job_url : LeverNavigator.Target)
    (soup : LeverNavigator.Node) : Exc JobInfo :=
  let! get_text := self_attribute "_get_text" _get_text in
  let! title := get_text soup ".posting-headline h2" in
  let! get_text := self_attribute "_get_text" _get_text in
  let! company := get_text soup ".posting-headline h3" in
  let! get_text := self_attribute "_get_text" _get_text in
  let! location := get_text soup ".location" in
  let! get_text := self_attribute "_get_text" _get_text in
  let! description := get_text soup ".description" in
  let! extract := self_attribute "_extract_requirements" _extract_requirements in
  let! requirements := extract soup in
  let! get_apply_url := self_attribute "_get_apply_url" _get_apply_url in
  let! apply_url := get_apply_url job_url in
  let! get_text := self_attribute "_get_text" _get_text in
  let! department := get_text soup ".department" in
  let! get_text := self_attribute "_get_text" _get_text in
  let! commitment := get_text soup ".commitment" in
  let job_info :=
    {| title := title; company := company; location := location;
       description := description; requirements := requirements;
       apply_url := apply_url; department := department;
       commitment := commitment; analysis := None |} in
  let! job_analysis := _analyze_job_match resume job_info in
  ok {| title := title; company := company; location := location;
        description := description; requirements := requirements;
        apply_url := apply_url; department := department;
        commitment := commitment; analysis := Some job_analysis |}.

Definition analyze_job {W} {web : Web W} (resume : Resume)
    (job_url : LeverNavigator.Target) : M W JobInfo :=
  mtry
    (mthen (fetch job_url) (fun soup => lift (job_info_of resume job_url soup)))
    (fun e => mraise e).

End Undefined.

End LeverJobAnalyzer.

(** ** [SmartApplicationAgent.apply_to_lever_job] *)

Module LeverApplication.
Import SmartApplicationAgent.

(** The payload of a history record holds scalars: the list of
    requirements is kept as its items, one per line. *)
Definition details_payload (d : LeverNavigator.JobDetails) : gmap string PyVal :=
  {[ "title" := VStr (LeverNavigator.title d);
     "company" := VStr (LeverNavigator.company d);
     "location" := VStr (LeverNavigator.location d);
     "description" := VStr (LeverNavigator.description d);
     "requirements" := VStr (PyStr.join PyStr.nl (LeverNavigator.requirements d));
     "apply_url" := VStr (LeverNavigator.apply_url d);
     "department" := VStr (LeverNavigator.department d);
     "commitment" := VStr (LeverNavigator.commitment d);
     "workplaceType" := VStr (LeverNavigator.workplaceType d) ]}.

Definition info_payload (i : LeverJobAnalyzer.JobInfo) : gmap string PyVal :=
  {[ "title" := LeverJobAnalyzer.title i;
     "company" := LeverJobAnalyzer.company i;
     "location" := LeverJobAnalyzer.location i;
     "description" := LeverJobAnalyzer.description i;
     "requirements" := VStr (PyStr.join PyStr.nl
                               (map py_str (LeverJobAnalyzer.requirements i)));
     "apply_url" := LeverJobAnalyzer.apply_url i;
     "department" := LeverJobAnalyzer.department i;
     "commitment" := LeverJobAnalyzer.commitment i ]}.

Section WithWorld.
Context {W : Type} {env : Env W} {web : Web W}.
Variable urljoin : string -> string -> string.
Variable _get_text : LeverNavigator.Node -> string -> Exc PyVal.
Variable _extract_requirements : LeverNavigator.Node -> Exc (list PyVal).
Variable _get_apply_url : LeverNavigator.Target -> Exc PyVal.
Variable _extract_keywords : PyVal -> Exc (list string).
Variable _find_missing_requirements : LeverJobAnalyzer.JobInfo -> Exc (list PyVal).
Variable _extract_company_focus : LeverJobAnalyzer.JobInfo -> Exc PyVal.
Variable global_job_info : LeverJobAnalyzer.JobInfo.
Local Open Scope flow_scope.

Definition apply_to_lever_job (self : Agent) (resume : LeverJobAnalyzer.Resume)
    (job_url : string) : M W unit :=
  mtry
    (do! job_details <- get_job_details urljoin job_url;
     do! job_analysis <-
       LeverJobAnalyzer.analyze_job _get_text _extract_requirements _get_apply_url
         _extract_keywords _find_missing_requirements resume
         (LeverNavigator.TargetDetails job_details);
     do! cover_letter <-
       lift (LeverJobAnalyzer.generate_cover_letter _extract_keywords
               _extract_company_focus global_job_info resume job_analysis);
     run! _save_application_details self (details_payload job_details)
            (info_payload job_analysis) cover_letter;
     let apply_url := LeverNavigator.apply_url job_details in
     test_application_flow self apply_url)
    (fun e => mraise e).

End WithWorld.

End LeverApplication.

(** ** Conditions on the Lever modules *)

Module LeverConditions.
Import PyStr.

(** The page offers an apply link: the first node the selector of the
    button gives has a non-empty [href]. *)
Definition has_apply_link (soup : LeverNavigator.Node) : bool :=
  match LeverNavigator.select_one soup LeverNavigator.APPLY_BUTTON with
  | Some button =>
      match LeverNavigator.node_attrs button !! "href" with
      | Some (String _ _) => true
      | _ => false
      end
  | None => false
  end.

(** The skills of the list-valued groups of a resume, as written. *)
Definition group_items (g : string * LeverJobAnalyzer.SkillGroup) : list PyVal :=
  match snd g with
  | LeverJobAnalyzer.SkillList items => items
  | LeverJobAnalyzer.SkillOther => nil
  end.

Definition listed_skills (resume : LeverJobAnalyzer.Resume) : list PyVal :=
  concat (map group_items (default nil (LeverJobAnalyzer.resume_skills resume))).

(** [skill] is the lower-cased text of a listed skill. *)
Definition resume_skill (resume : LeverJobAnalyzer.Resume) (skill : string) : Prop :=
  exists s, VStr s ∈ listed_skills resume /\ skill = lower s.

(** [skill] occurs in the lower-cased text of a requirement. *)
Definition required_skill (job_info : LeverJobAnalyzer.JobInfo) (skill : string) : Prop :=
  exists r, VStr r ∈ LeverJobAnalyzer.requirements job_info
            /\ contains skill (lower r) = true.

(** The keys [_generate_experience_paragraph] reads of the first entry,
    in the order of the text. *)
Definition paragraph_keys : list string :=
  "title" :: "company" :: "key_achievement" :: nil.

(** The first of [keys] the dictionary lacks. *)
Definition first_missing (d : gmap string PyVal) (keys : list string) : option string :=
  List.find (fun key => match d !! key with None => true | Some _ => false end) keys.

Definition text_value (v : PyVal) : Prop :=
  match v with VStr _ => True | _ => False end.

(** A run that made no call of the page, the console or the file system
    and bound no global. *)
Definition silent {W} (st st' : St W) : Prop :=
  trace st' = trace st /\ globals st' = globals st.

End LeverConditions.

Module LeverSamples.

(** A page in which no selector finds anything. *)
Definition bare_page : LeverNavigator.Node :=
  LeverNavigator.mk_node "" ∅ (fun _ => nil).

Definition resume : LeverJobAnalyzer.Resume :=
  {| LeverJobAnalyzer.resume_skills :=
       Some (("languages", LeverJobAnalyzer.SkillList (VStr "Python" :: VStr "Rust" :: nil))
             :: ("level", LeverJobAnalyzer.SkillOther) :: nil);
     LeverJobAnalyzer.resume_experience := None;
     LeverJobAnalyzer.resume_personal_information := None |}.

Definition posting (analysis : option LeverJobAnalyzer.Analysis)
  : LeverJobAnalyzer.JobInfo :=
  {| LeverJobAnalyzer.title := VStr "Engineer";
     LeverJobAnalyzer.company := VStr "Acme";
     LeverJobAnalyzer.location := VStr "";
     LeverJobAnalyzer.description := VStr "";
     LeverJobAnalyzer.requirements := VStr "Experience with Python" :: nil;
     LeverJobAnalyzer.apply_url := VStr "";
     LeverJobAnalyzer.department := VStr "";
     LeverJobAnalyzer.commitment := VStr "";
     LeverJobAnalyzer.analysis := analysis |}.

Definition one_skill : LeverJobAnalyzer.Analysis :=
  {| LeverJobAnalyzer.matching_skills := "python" :: nil;
     LeverJobAnalyzer.relevant_experience := nil;
     LeverJobAnalyzer.match_score := LeverJobAnalyzer.ScorePercent 1 1;
     LeverJobAnalyzer.missing_requirements := nil |}.

End LeverSamples.

(** * Verification *)

Import PyStr SmartApplicationAgent Spec.

(** ** Scalars and texts *)

Lemma py_eq_str v s : py_eq v (VStr s) = true <-> v = VStr s.
Proof.
  destruct v; simpl; split; try discriminate.
  - intros H. apply String.eqb_eq in H. now subst.
  - intros [= ->]. apply String.eqb_refl.
Qed.

Lemma py_eq_str_false v s : v <> VStr s -> py_eq v (VStr s) = false.
Proof.
  intros H. destruct (py_eq v (VStr s)) eqn:E; [|reflexivity].
  apply py_eq_str in E. contradiction.
Qed.


Lemma startswith_ci_lower p s : startswith_ci p s = startswith (lower p) (lower s).
Proof.
  revert s. induction p as [|a p IH]; intros [|b s]; simpl; try reflexivity.
  unfold same_letter. destruct (Ascii.eqb _ _); auto.
Qed.

(** Looking for [sub] in the lower-cased text is looking for it up to
    letter case. *)
Lemma contains_ci_lower sub s : contains_ci sub s = contains (lower sub) (lower s).
Proof.
  induction s as [|c s IH].
  - simpl. rewrite startswith_ci_lower. reflexivity.
  - cbn [contains_ci contains lower]. rewrite startswith_ci_lower. cbn [lower].
    destruct (startswith _ _); auto.
Qed.
(** ** Reading decisions back *)

Lemma app_cons c s t : String c s ++ t = String c (s ++ t).
Proof. reflexivity. Qed.

Lemma app_nil t : "" ++ t = t.
Proof. reflexivity. Qed.

(** Whatever follows the first line, a text that starts with
    [ACTION: FILL] reads back as the action FILL. *)
Lemma fill_action t : decision_action ("ACTION: FILL" ++ nl ++ t) = Some FILL.
Proof.
  unfold nl. rewrite !app_cons, !app_nil.
  unfold decision_action, analysis_action, split_1, split_0.
  cbn.
  destruct (cut "ACTION:" t) as [[a b]|]; reflexivity.
Qed.

Lemma required_fill_action v : decision_action (REQUIRED_FILL v) = Some FILL.
Proof. apply fill_action. Qed.

Lemma optional_fill_action v : decision_action (OPTIONAL_FILL v) = Some FILL.
Proof. apply fill_action. Qed.

(** *** The value a FILL decision carries *)

Lemma split_0_cons sep c s :
  split_0 sep (String c s)
  = if startswith sep (String c s) then EmptyString else String c (split_0 sep s).
Proof.
  unfold split_0. cbn [cut].
  destruct (startswith sep (String c s)); [reflexivity|].
  destruct (cut sep s) as [[a b]|]; reflexivity.
Qed.

Lemma startswith_nl c s : startswith nl (String c s) = Ascii.eqb "010" c.
Proof. unfold nl. cbn [startswith]. destruct (Ascii.eqb "010" c); reflexivity. Qed.

Lemma contains_cons_false sub c s :
  contains sub (String c s) = false ->
  startswith sub (String c s) = false /\ contains sub s = false.
Proof.
  cbn [contains]. destruct (startswith sub (String c s)); [discriminate | auto].
Qed.

(** A separator without line break that starts a text starts its first
    line. *)
Lemma startswith_first_line sep s :
  contains nl sep = false ->
  startswith sep s = true ->
  startswith sep (split_0 nl s) = true.
Proof.
  revert s. induction sep as [|a sep IH]; intros s Hnl Hs; [reflexivity|].
  destruct s as [|b s]; [discriminate|].
  apply contains_cons_false in Hnl. destruct Hnl as [Ha Hnl].
  rewrite startswith_nl in Ha.
  cbn [startswith] in Hs. destruct (Ascii.eqb a b) eqn:Hab; [|discriminate].
  apply Ascii.eqb_eq in Hab. subst b.
  rewrite split_0_cons, startswith_nl, Ha. cbn [startswith].
  rewrite Ascii.eqb_refl. apply IH; assumption.
Qed.

Lemma first_line_app s t : split_0 nl (s ++ nl ++ t) = split_0 nl s.
Proof.
  induction s as [|c s IH].
  - reflexivity.
  - change (String c s ++ nl ++ t) with (String c (s ++ nl ++ t)).
    rewrite !split_0_cons, !startswith_nl, IH. reflexivity.
Qed.









(** ** Direct profile lookup *)

Lemma lookup_total self n t :
  exists v, _get_field_value_from_config self n t = ok v.
Proof.
  unfold _get_field_value_from_config, try_except.
  destruct (_get_field_value_body self n t) as [e|v]; [|eauto].
  destruct (is_KeyError e); eauto.
Qed.

Lemma lookup_profile_value self field :
  _get_field_value_from_config self (field_name field) (field_type field)
  = ok (profile_value self field).
Proof.
  unfold profile_value.
  destruct (lookup_total self (field_name field) (field_type field)) as [v ->].
  reflexivity.
Qed.

(** ** Classification *)

(** The classifier on a field that is neither hidden nor a file. *)
Lemma analyze_plain_field self field :
  field_type field <> VStr "hidden" ->
  field_type field <> VStr "file" ->
  _analyze_field self field =
    ok (if is_required field then
          if resolvable self field then REQUIRED_FILL (profile_value self field)
          else REQUIRED_ALERT
        else if resolvable self field then OPTIONAL_FILL (profile_value self field)
        else OPTIONAL_SKIP).
Proof.
  intros Hh Hf.
  unfold _analyze_field, _analyze_field_body.
  fold (field_name field) (field_type field).
  rewrite (py_eq_str_false _ _ Hh), (py_eq_str_false _ _ Hf).
  rewrite lookup_profile_value.
  fold (is_required field). unfold resolvable, try_except, ebind, ok.
  destruct (is_required field), (truthy (profile_value self field)); reflexivity.
Qed.

(** The classifier on a file field. *)
Lemma analyze_file_field self field :
  field_type field = VStr "file" ->
  _analyze_field self field =
    ok (match field_name field with
        | VStr s =>
            if (contains "resume" (lower s) || contains "cv" (lower s))%bool
            then RESUME_UPLOAD else UNKNOWN_FILE_SKIP
        | _ => ERROR_SKIP
        end).
Proof.
  intros Hf.
  unfold _analyze_field, _analyze_field_body.
  fold (field_name field) (field_type field).
  rewrite Hf. cbn [py_eq String.eqb Ascii.eqb Bool.eqb].
  replace (String.eqb "file" "hidden") with false by reflexivity.
  replace (String.eqb "file" "file") with true by reflexivity.
  destruct (field_name field) as [| b | z | s]; try reflexivity.
  cbn [py_lower ebind ok].
  destruct (contains "resume" (lower s)); [reflexivity|].
  destruct (contains "cv" (lower s)); reflexivity.
Qed.

Lemma analyze_hidden_field self field :
  field_type field = VStr "hidden" ->
  _analyze_field self field = ok HIDDEN_SKIP.
Proof.
  intros Hh.
  unfold _analyze_field, _analyze_field_body.
  fold (field_type field). rewrite Hh. reflexivity.
Qed.




(** The rule for file fields on the fields whose name is a text: when the
    name contains "resume" or "cv", case-insensitively, the decision is
    UPLOAD with the resume document [resume.pdf] as value, otherwise SKIP
    with reason "Unknown file upload". *)
Lemma file_field_rule self field name :
  field_type field = VStr "file" ->
  field_name field = VStr name ->
  exists analysis,
    _analyze_field self field = ok analysis /\
    if (contains_ci "resume" name || contains_ci "cv" name)%bool then
      decision_action analysis = Some UPLOAD /\
      analysis_value analysis = Some "resume.pdf"
    else
      decision_action analysis = Some SKIP /\
      analysis_reason analysis = Some "Unknown file upload".
Proof.
  intros Hf Hn. rewrite (analyze_file_field _ _ Hf), Hn.
  rewrite !contains_ci_lower.
  change (lower "resume") with "resume". change (lower "cv") with "cv".
  destruct (contains "resume" (lower name) || contains "cv" (lower name))%bool.
  - exists RESUME_UPLOAD. repeat split; reflexivity.
  - exists UNKNOWN_FILE_SKIP. repeat split; reflexivity.
Qed.

(** The field of scenario 1. *)
Lemma file_field_rule_on_resume :
  exists analysis,
    _analyze_field Sim.ada (Sim.field (VStr "resume") (VStr "file") true) = ok analysis /\
    decision_action analysis = Some UPLOAD /\
    analysis_value analysis = Some "resume.pdf".
Proof.
  destruct (file_field_rule Sim.ada (Sim.field (VStr "resume") (VStr "file") true)
              "resume") as (s & H1 & H2); [reflexivity | reflexivity |].
  exists s. split; [exact H1 | exact H2].
Defined.

(** C5 (code bug).  The rule for file fields fails on a file input without
    name attribute, whose name the scan records as [None]: the field does
    not name a resume, yet the decision is not SKIP
    with reason "unknown file upload" but the SKIP of the catch-all handler
    with reason "Error in analysis", because [None.lower()] raises.  The
    sibling [_should_upload_resume] guards the same access and answers the
    same field without an error. *)
Theorem unnamed_file_field_reports_error :
  names_resume (Sim.field VNone (VStr "file") false) = false
  /\ _analyze_field_body Sim.ada (Sim.field VNone (VStr "file") false) = raise AttributeError
  /\ _analyze_field Sim.ada (Sim.field VNone (VStr "file") false) = ok ERROR_SKIP
  /\ decision_action ERROR_SKIP = Some SKIP
  /\ analysis_reason ERROR_SKIP = Some "Error in analysis"
  /\ ~ file_rule Sim.ada (Sim.field VNone (VStr "file") false)
  /\ _should_upload_resume (Sim.field VNone (VStr "file") false :: nil) = ok false.
Proof.
  repeat split; try reflexivity.
  intros H. destruct H as (s & H1 & H2); [reflexivity|].
  vm_compute in H1. injection H1 as <-.
  vm_compute in H2. destruct H2 as [_ H2]. discriminate.
Qed.

(** C6.  A hidden field is skipped whatever its required flag, its name and
    the profile are: the decision is the same constant for every profile. *)
Theorem hidden_field_always_skipped self field :
  field_type field = VStr "hidden" ->
  _analyze_field self field = ok HIDDEN_SKIP /\
  decision_action HIDDEN_SKIP = Some SKIP /\
  analysis_reason HIDDEN_SKIP = Some "Hidden field" /\
  analysis_value HIDDEN_SKIP = None /\
  (forall other_profile, _analyze_field other_profile field = _analyze_field self field).
Proof.
  intros Hh. rewrite (analyze_hidden_field _ _ Hh).
  repeat split. intros other. apply (analyze_hidden_field _ _ Hh).
Qed.

(** Witness of C6: a required hidden field. *)
Lemma hidden_field_always_skipped_witness :
  _analyze_field Sim.ada (Sim.field (VStr "csrf_token") (VStr "hidden") true)
  = ok HIDDEN_SKIP.
Proof.
  apply (hidden_field_always_skipped Sim.ada
           (Sim.field (VStr "csrf_token") (VStr "hidden") true)).
  reflexivity.
Defined.

(** C10.  Field analysis never raises: it always returns a decision; an
    exception of the analysis is answered by SKIP with reason "Error in
    analysis"; this is what happens for a file field without name, required
    or not. *)
Theorem analysis_never_raises self field :
  (exists analysis, _analyze_field self field = ok analysis) /\
  (forall e, _analyze_field_body self field = raise e ->
             _analyze_field self field = ok ERROR_SKIP) /\
  (field_type field = VStr "file" ->
   field_name field = VNone ->
   _analyze_field_body self field = raise AttributeError /\
   _analyze_field self field = ok ERROR_SKIP /\
   decision_action ERROR_SKIP = Some SKIP /\
   analysis_reason ERROR_SKIP = Some "Error in analysis").
Proof.
  split; [|split].
  - unfold _analyze_field, try_except.
    destruct (_analyze_field_body self field); eauto.
  - intros e He. unfold _analyze_field. rewrite He. reflexivity.
  - intros Hf Hn.
    assert (Hb : _analyze_field_body self field = raise AttributeError).
    { unfold _analyze_field_body. fold (field_name field) (field_type field).
      rewrite Hf, Hn. reflexivity. }
    split; [exact Hb|]. unfold _analyze_field. rewrite Hb. repeat split.
Qed.

(** Witness of C10: a required file input without name attribute. *)
Lemma analysis_never_raises_witness :
  _analyze_field_body Sim.ada (Sim.field VNone (VStr "file") true) = raise AttributeError /\
  _analyze_field Sim.ada (Sim.field VNone (VStr "file") true) = ok ERROR_SKIP.
Proof.
  destruct (analysis_never_raises Sim.ada (Sim.field VNone (VStr "file") true))
    as (_ & H2 & H3).
  destruct H3 as (Hb & Hr & _); [reflexivity | reflexivity |].
  split; [exact Hb | exact (H2 _ Hb)].
Defined.

(** An absent key of [personal_information] makes the lookup raise
    [KeyError]. *)
Lemma personal_absent self pi k :
  personal_information (config self) = Some pi ->
  pi !! k = None ->
  personal self k = raise (KeyError k).
Proof.
  intros Hpi Hk. unfold personal, getitem. rewrite Hpi. cbn. rewrite Hk. reflexivity.
Qed.

(** The conditional chain of the source and the priority table agree. *)
Lemma lookup_body_by_table self ln :
  match first_match ln priority_table with
  | Some (_, source) => source self
  | None => ok VNone
  end
  = (if contains "name" ln then full_name self
     else if contains "email" ln then personal self "email"
     else if contains "phone" ln then personal self "phone"
     else if contains "location" ln then city_country self
     else if (contains "company" ln || contains "org" ln)%bool then recent_employer self
     else if contains "linkedin" ln then personal self "linkedin"
     else if contains "github" ln then personal self "github"
     else if (contains "portfolio" ln || contains "website" ln)%bool
          then personal self "website"
     else if (contains "comments" ln || contains "cover" ln)%bool
          then cover_letter_text self
     else ok VNone).
Proof.
  unfold first_match, priority_table, row_matches.
  cbn [List.find existsb fst]. rewrite !orb_false_r.
  repeat match goal with
         | |- context [if ?c then _ else _] => destruct c; try reflexivity
         end.
Qed.

(** C7.  Direct profile lookup is lookup by the priority table name, email,
    phone, location, company/org, linkedin, github, portfolio/website,
    comments/cover on the lower-cased field name, the first matching row
    deciding the value; it never raises, and when the lookup of the deciding
    row fails, as it does with [KeyError] on an absent profile key, the
    answer is [None]: no value found. *)
Theorem direct_lookup_follows_priority_table self name type :
  _get_field_value_from_config self name type
  = ok (lookup_by_table self name)
  /\
  (forall ln keys source e,
     py_lower name = ok ln ->
     first_match ln priority_table = Some (keys, source) ->
     source self = raise e ->
     _get_field_value_from_config self name type = ok VNone)
  /\
  (forall pi k,
     personal_information (config self) = Some pi ->
     pi !! k = None ->
     personal self k = raise (KeyError k)).
Proof.
  assert (Heq : _get_field_value_from_config self name type
                = ok (lookup_by_table self name)).
  { unfold _get_field_value_from_config, _get_field_value_body, lookup_by_table.
    destruct (py_lower name) as [e|ln].
    { cbn [ebind try_except]. destruct (is_KeyError e); reflexivity. }
    cbn [ebind].
    change (let! n := personal self "name" in
            let! s := personal self "surname" in
            ok (VStr (py_str n ++ " " ++ py_str s))) with (full_name self).
    change (let! c := personal self "city" in
            let! k := personal self "country" in
            ok (VStr (py_str c ++ ", " ++ py_str k))) with (city_country self).
    change (let! exps := item "experience_details" (experience_details (config self)) in
            let! e0 := first_item exps in
            item "company" (company e0)) with (recent_employer self).
    change (let! letter := _generate_cover_letter self in ok (VStr letter))
      with (cover_letter_text self).
    rewrite <- (lookup_body_by_table self ln).
    destruct (first_match _ _) as [[keys source]|]; [|reflexivity].
    unfold try_except. destruct (source self) as [e|v]; [|reflexivity].
    destruct (is_KeyError e); reflexivity. }
  split; [exact Heq|]. split.
  - intros ln keys source e Hl Hm Hs. rewrite Heq. unfold lookup_by_table.
    rewrite Hl. unfold ok. rewrite Hm, Hs. reflexivity.
  - intros pi k. apply personal_absent.
Qed.

(** Witness of C7: the profile has no email, so a field named
    "contact_email" finds no value; the field of scenario 2 is answered by
    the full name. *)
Lemma direct_lookup_follows_priority_table_witness :
  _get_field_value_from_config Sim.ada (VStr "contact_email") (VStr "text") = ok VNone
  /\ personal Sim.ada "email" = raise (KeyError "email")
  /\ _get_field_value_from_config Sim.ada (VStr "full_name") (VStr "text")
     = ok (VStr "Ada Lovelace").
Proof.
  destruct (direct_lookup_follows_priority_table Sim.ada (VStr "contact_email") (VStr "text"))
    as (_ & H2 & H3).
  destruct (direct_lookup_follows_priority_table Sim.ada (VStr "full_name") (VStr "text"))
    as (H1 & _ & _).
  split; [|split].
  - apply (H2 "contact_email" ("email" :: nil) (fun self => personal self "email")
              (KeyError "email")); reflexivity.
  - apply (H3 {[ "name" := VStr "Ada"; "surname" := VStr "Lovelace" ]}); reflexivity.
  - rewrite H1. reflexivity.
Defined.

(** ** Interactions with the outside world *)

Section Interactions.
Context {W : Type} {env : Env W}.
Local Open Scope flow_scope.

Ltac step := cbv beta iota delta [ok raise mreturn mraise fst snd].

Lemma trace_log_event c o (w : W) st :
  trace (log_event c o w st) = (trace st ++ (c, o) :: nil)%list.
Proof. reflexivity. Qed.

Lemma globals_log_event c o (w : W) st :
  globals (log_event c o w st) = globals st.
Proof. reflexivity. Qed.

(** What a call without result leaves behind. *)
Lemma do_call_outcome c (st : St W) :
  exists w,
    (exists e, do_call c st = (log_event c (Raised e) w st, raise e))
    \/ do_call c st = (log_event c Returned w st, ok tt).
Proof.
  unfold do_call. destruct (env_do c (world st)) as [w [e|[]]]; eauto.
Qed.

Lemma locator_count_outcome s (st : St W) :
  exists w,
    (exists e, env_count s (world st) = (w, raise e) /\
               locator_count s st = (log_event (Locate s) (Raised e) w st, raise e))
    \/ (exists n, env_count s (world st) = (w, ok n) /\
                  locator_count s st = (log_event (Locate s) (Counted n) w st, ok n)).
Proof.
  unfold locator_count. destruct (env_count s (world st)) as [w [e|n]]; eauto.
Qed.

Lemma input_outcome p (st : St W) :
  exists w,
    (exists e, input p st = (log_event (Input p) (Raised e) w st, raise e))
    \/ (exists l, input p st = (log_event (Input p) (Entered l) w st, ok l)).
Proof.
  unfold input. destruct (env_input p (world st)) as [w [e|l]]; eauto.
Qed.

(** *** One round of the upload loop *)

Lemma upload_attempt_outcome file_path selector (st : St W) :
  exists evs,
    trace (fst (upload_attempt file_path selector st)) = (trace st ++ evs)%list /\
    globals (fst (upload_attempt file_path selector st)) = globals st /\
    ((snd (upload_attempt file_path selector st) = ok true /\
      successful_attempt file_path selector evs)
     \/
     (snd (upload_attempt file_path selector st) = ok false /\
      failed_attempt file_path selector evs)).
Proof.
  unfold upload_attempt, mtry, mthen.
  destruct (locator_count_outcome selector st) as [w [[e [_ ->]] | [n [_ ->]]]]; step.
  { eexists. split; [apply trace_log_event|]. split; [reflexivity|].
    right. split; [reflexivity | constructor]. }
  destruct n as [|n]; cbn [Nat.ltb Nat.leb]; step.
  { eexists. split; [apply trace_log_event|]. split; [reflexivity|].
    right. split; [reflexivity | constructor]. }
  set (st1 := log_event (Locate selector) (Counted (S n)) w st).
  destruct (do_call_outcome (SetInputFiles selector file_path) st1)
    as [w1 [[e ->] | ->]]; step.
  { eexists. split.
    - rewrite trace_log_event. subst st1. rewrite trace_log_event.
      rewrite <- app_assoc. reflexivity.
    - split; [reflexivity|]. right. split; [reflexivity | constructor]. }
  set (st2 := log_event (SetInputFiles selector file_path) Returned w1 st1).
  destruct (do_call_outcome (WaitForTimeout 1000) st2) as [w2 [[e ->] | ->]]; step.
  { eexists. split.
    - rewrite trace_log_event. subst st2. rewrite trace_log_event.
      subst st1. rewrite trace_log_event. rewrite <- !app_assoc. reflexivity.
    - split; [reflexivity|]. right. split; [reflexivity | constructor]. }
  eexists. split.
  - rewrite trace_log_event. subst st2. rewrite trace_log_event.
    subst st1. rewrite trace_log_event. rewrite <- !app_assoc. reflexivity.
  - split; [reflexivity|]. left. split; [reflexivity | exists n; reflexivity].
Qed.


(** *** CAPTCHA handling *)

(** C8.  Manual resolution never raises and leaves the module-level names
    as they are.  It is a run of the resolution protocol on the page: the
    screenshot, then the blocking wait for the operator, then the settle
    wait of two seconds, then the re-scan for the generic marker; each
    call is made where the call before it returned, and only a call that
    raises ends the run early, with failure.  It reports success exactly
    when all four calls went through and the re-scan found no marker; a
    marker that remains makes it report failure. *)
Theorem manual_resolution_protocol (st : St W) :
  exists new solved,
    snd (AntiBotHandler._handle_manual_captcha st) = ok solved /\
    trace (fst (AntiBotHandler._handle_manual_captcha st)) = (trace st ++ new)%list /\
    map fst new `prefix_of` resolution_protocol /\
    (solved = true <->
     exists line,
       new = (Screenshot "captcha.png", Returned)
             :: (Input AntiBotHandler.MANUAL_PROMPT, Entered line)
             :: (WaitForTimeout 2000, Returned)
             :: (Locate AntiBotHandler.GENERIC_MARKER, Counted 0) :: nil) /\
    (forall n, In (Locate AntiBotHandler.GENERIC_MARKER, Counted (S n)) new ->
               solved = false) /\
    resolution_run (world st) new solved
      (world (fst (AntiBotHandler._handle_manual_captcha st))) /\
    globals (fst (AntiBotHandler._handle_manual_captcha st)) = globals st.
Proof.
  unfold AntiBotHandler._handle_manual_captcha, mtry, mthen, do_call, input,
    locator_count, mreturn.
  destruct (env_do (Screenshot "captcha.png") (world st)) as [w1 [e|[]]] eqn:E1;
    cbn [world log_event fst snd].
  { eexists _, false. split; [reflexivity|]. split; [reflexivity|].
    split; [eexists; reflexivity|]. split.
    { split; [discriminate | intros [l Hl]; discriminate]. }
    split; [reflexivity|]. split; [|reflexivity].
    apply screenshot_fails. exact E1. }
  destruct (env_input AntiBotHandler.MANUAL_PROMPT w1) as [w2 [e|line]] eqn:E2;
    cbn [world log_event fst snd].
  { eexists _, false. split; [reflexivity|].
    split; [unfold log_event; cbn [trace]; rewrite <- app_assoc; reflexivity|].
    split; [eexists; reflexivity|]. split.
    { split; [discriminate | intros [l Hl]; discriminate]. }
    split; [reflexivity|]. split; [|reflexivity].
    eapply operator_fails; eassumption. }
  destruct (env_do (WaitForTimeout 2000) w2) as [w3 [e|[]]] eqn:E3;
    cbn [world log_event fst snd].
  { eexists _, false. split; [reflexivity|].
    split; [unfold log_event; cbn [trace]; rewrite <- !app_assoc; reflexivity|].
    split; [eexists; reflexivity|]. split.
    { split; [discriminate | intros [l Hl]; discriminate]. }
    split; [reflexivity|]. split; [|reflexivity].
    eapply settle_fails; eassumption. }
  destruct (env_count AntiBotHandler.GENERIC_MARKER w3) as [w4 [e|n]] eqn:E4;
    cbn [world log_event fst snd].
  { eexists _, false. split; [reflexivity|].
    split; [unfold log_event; cbn [trace]; rewrite <- !app_assoc; reflexivity|].
    split; [exists nil; reflexivity|]. split.
    { split; [discriminate | intros [l Hl]; discriminate]. }
    split; [reflexivity|]. split; [|reflexivity].
    eapply rescan_fails; eassumption. }
  pose proof (rescan_counts (world st) w1 w2 w3 w4 line n E1 E2 E3 E4) as Hrun.
  destruct n as [|n]; cbn [Nat.ltb Nat.leb Nat.eqb] in *; cbn [world log_event fst snd].
  - eexists _, true. split; [reflexivity|].
    split; [unfold log_event; cbn [trace]; rewrite <- !app_assoc; reflexivity|].
    split; [exists nil; reflexivity|]. split.
    { split; [intros _; exists line; reflexivity | reflexivity]. }
    split; [|split; [exact Hrun | reflexivity]].
    intros m Hin. cbn in Hin.
    repeat (destruct Hin as [Hin | Hin]; [discriminate|]). contradiction.
  - eexists _, false. split; [reflexivity|].
    split; [unfold log_event; cbn [trace]; rewrite <- !app_assoc; reflexivity|].
    split; [exists nil; reflexivity|]. split.
    { split; [discriminate | intros [l Hl]; discriminate]. }
    split; [reflexivity|]. split; [exact Hrun | reflexivity].
Qed.

(** Scanning selectors none of which resolves only locates: it either
    reaches the end of the list or stops at a call that raised. *)
Lemma scan_selectors_unresolved (page : W -> Prop) selectors next (st : St W) :
  (forall selector w w' r,
      page w -> env_count selector w = (w', r) ->
      page w' /\ (forall n, In selector selectors -> r = ok n -> n = 0%nat)) ->
  page (world st) ->
  exists st1 new,
    page (world st1) /\
    trace st1 = (trace st ++ new)%list /\
    Forall (fun ev => is_locate ev = true) new /\
    (AntiBotHandler.scan_selectors selectors next st = next st1
     \/ exists e, AntiBotHandler.scan_selectors selectors next st = (st1, raise e)).
Proof.
  revert st. induction selectors as [|selector rest IH]; intros st Hzero Hpage.
  - exists st, nil. rewrite app_nil_r.
    repeat split; [exact Hpage | constructor | left; reflexivity].
  - cbn [AntiBotHandler.scan_selectors]. unfold mthen.
    destruct (locator_count_outcome selector st) as [w [[e [Hn ->]] | [n [Hn ->]]]];
      step; destruct (Hzero _ _ _ _ Hpage Hn) as [Hpage' H0].
    + exists (log_event (Locate selector) (Raised e) w st),
             ((Locate selector, Raised e) :: nil).
      split; [exact Hpage'|]. split; [apply trace_log_event|].
      split; [repeat constructor | right; exists e; reflexivity].
    + rewrite (H0 n (or_introl eq_refl) eq_refl). cbn [Nat.ltb Nat.leb].
      destruct (IH (log_event (Locate selector) (Counted 0) w st))
        as (st1 & new & Hp1 & Htr & Hloc & Hrun).
      { intros s w0 w' r Hp Hc. destruct (Hzero _ _ _ _ Hp Hc) as [Hp' Hz].
        split; [exact Hp'|]. intros m Hin. apply Hz. right. exact Hin. }
      { exact Hpage'. }
      exists st1, ((Locate selector, Counted 0%nat) :: new).
      split; [exact Hp1|].
      split; [rewrite Htr, trace_log_event, <- app_assoc; reflexivity|].
      split; [constructor; [reflexivity | exact Hloc] | exact Hrun].
Qed.

Lemma scan_types_unresolved (page : W -> Prop) table (st : St W) :
  (forall selector w w' r,
      page w -> env_count selector w = (w', r) ->
      page w' /\
      (forall n, In selector (concat (map snd table)) -> r = ok n -> n = 0%nat)) ->
  page (world st) ->
  exists st1 new,
    trace st1 = (trace st ++ new)%list /\
    Forall (fun ev => is_locate ev = true) new /\
    (AntiBotHandler.scan_types table st = (st1, ok false)
     \/ exists e, AntiBotHandler.scan_types table st = (st1, raise e)).
Proof.
  revert st. induction table as [|[kind selectors] rest IH]; intros st Hzero Hpage.
  - exists st, nil. rewrite app_nil_r. repeat split; [constructor | left; reflexivity].
  - cbn [AntiBotHandler.scan_types].
    destruct (scan_selectors_unresolved page selectors
                (AntiBotHandler.scan_types rest) st)
      as (st1 & new & Hp1 & Htr & Hloc & [Hrun | [e Hrun]]).
    { intros s w w' r Hp Hc. destruct (Hzero _ _ _ _ Hp Hc) as [Hp' Hz].
      split; [exact Hp'|]. intros n Hin. apply Hz. cbn. apply in_or_app. left.
      exact Hin. }
    { exact Hpage. }
    + destruct (IH st1) as (st2 & new' & Htr' & Hloc' & Hrun').
      { intros s w w' r Hp Hc. destruct (Hzero _ _ _ _ Hp Hc) as [Hp' Hz].
        split; [exact Hp'|]. intros n Hin. apply Hz. cbn. apply in_or_app. right.
        exact Hin. }
      { exact Hp1. }
      exists st2, (new ++ new')%list.
      split; [rewrite Htr', Htr, <- app_assoc; reflexivity|].
      split; [apply Forall_app; split; assumption|].
      rewrite Hrun. exact Hrun'.
    + exists st1, new. repeat split; [exact Htr | exact Hloc | right; eauto].
Qed.

(** C9.  On a page on which no selector of the marker table resolves,
    [handle_captcha] answers "no challenge" ([False]) and has done nothing
    but look the selectors up: no screenshot is taken and the operator is
    not waited for. *)
Theorem no_marker_no_manual_resolution (page : W -> Prop) (st : St W) :
  no_marker_resolves page ->
  page (world st) ->
  exists new,
    snd (AntiBotHandler.handle_captcha st) = ok false /\
    trace (fst (AntiBotHandler.handle_captcha st)) = (trace st ++ new)%list /\
    Forall (fun ev => is_locate ev = true) new /\
    (forall ev, In ev new ->
                fst ev <> Screenshot "captcha.png" /\
                fst ev <> Input AntiBotHandler.MANUAL_PROMPT).
Proof.
  intros Hzero Hpage.
  destruct (scan_types_unresolved page AntiBotHandler.captcha_selectors st)
    as (st1 & new & Htr & Hloc & Hrun); [exact Hzero | exact Hpage |].
  exists new. unfold AntiBotHandler.handle_captcha, mtry.
  assert (Hno : forall ev, In ev new ->
                  fst ev <> Screenshot "captcha.png" /\
                  fst ev <> Input AntiBotHandler.MANUAL_PROMPT).
  { intros ev Hin. rewrite Forall_forall in Hloc. specialize (Hloc ev).
    unfold is_locate in Hloc.
    split; intros Heq; rewrite Heq in Hloc;
      (assert (false = true) by (apply Hloc; apply list_elem_of_In; exact Hin));
      discriminate. }
  destruct Hrun as [-> | [e ->]]; step; auto.
Qed.

(** *** The application flow *)

Lemma warnings_log_event c o (w : W) st :
  is_warning (c, o) = false ->
  warnings (trace (log_event c o w st)) = warnings (trace st).
Proof.
  intros H. rewrite trace_log_event. unfold warnings.
  rewrite List.filter_app. cbn [List.filter]. rewrite H. apply app_nil_r.
Qed.

Lemma quiet_mreturn {A} (a : A) : quiet (@mreturn W A a).
Proof. intros st. split; reflexivity. Qed.

Lemma quiet_mraise {A} e : quiet (@mraise W A e).
Proof. intros st. split; reflexivity. Qed.

Lemma quiet_lift {A} (r : Exc A) : quiet (@lift W A r).
Proof. intros st. split; reflexivity. Qed.

Lemma quiet_mthen {A B} (m : M W A) (k : A -> M W B) :
  quiet m -> (forall a, quiet (k a)) -> quiet (mthen m k).
Proof.
  intros Hm Hk st. unfold mthen. specialize (Hm st).
  destruct (m st) as [st1 [e|a]]; cbn [fst] in *; [exact Hm|].
  destruct (Hk a st1) as [Hg Hw]. destruct Hm as [Hg' Hw'].
  split; congruence.
Qed.

Lemma quiet_mtry {A} (m : M W A) (h : PyExc -> M W A) :
  quiet m -> (forall e, quiet (h e)) -> quiet (mtry m h).
Proof.
  intros Hm Hh st. unfold mtry. specialize (Hm st).
  destruct (m st) as [st1 [e|a]]; cbn [fst] in *; [|exact Hm].
  destruct (Hh e st1) as [Hg Hw]. destruct Hm as [Hg' Hw'].
  split; congruence.
Qed.

Lemma quiet_do_call c :
  (forall msg l, c <> LogWarning msg l) -> quiet (do_call c).
Proof.
  intros Hc st.
  assert (Hw : forall o, is_warning (c, o) = false).
  { intros o. unfold is_warning. cbn [fst]. destruct c; try reflexivity.
    exfalso. eapply Hc. reflexivity. }
  destruct (do_call_outcome c st) as [w [[e ->] | ->]]; cbn [fst];
    split; auto using warnings_log_event.
Qed.

Lemma quiet_locator_count s : quiet (locator_count s).
Proof.
  intros st.
  destruct (locator_count_outcome s st) as [w [[e [_ ->]] | [n [_ ->]]]]; cbn [fst];
    split; auto using warnings_log_event.
Qed.

Lemma quiet_input p : quiet (input p).
Proof.
  intros st.
  destruct (input_outcome p st) as [w [[e ->] | [l ->]]]; cbn [fst];
    split; auto using warnings_log_event.
Qed.

Lemma quiet_query_selector_all s : quiet (query_selector_all s).
Proof.
  intros st. unfold query_selector_all.
  destruct (env_elements s (world st)) as [w [e|l]]; cbn [fst];
    split; auto using warnings_log_event.
Qed.

Lemma quiet_add_human_behavior : quiet AntiBotHandler.add_human_behavior.
Proof.
  apply quiet_mtry; [apply quiet_do_call; discriminate | intros; apply quiet_mreturn].
Qed.

Lemma quiet_handle_manual_captcha : quiet AntiBotHandler._handle_manual_captcha.
Proof.
  apply quiet_mtry; [|intros; apply quiet_mreturn].
  apply quiet_mthen; [apply quiet_do_call; discriminate | intros _].
  apply quiet_mthen; [apply quiet_input | intros _].
  apply quiet_mthen; [apply quiet_do_call; discriminate | intros _].
  apply quiet_mthen; [apply quiet_locator_count | intros n].
  destruct (0 <? n)%nat; apply quiet_mreturn.
Qed.

Lemma quiet_scan_selectors selectors next :
  quiet next -> quiet (AntiBotHandler.scan_selectors selectors next).
Proof.
  intros Hnext. induction selectors as [|s rest IH]; [exact Hnext|].
  cbn [AntiBotHandler.scan_selectors].
  apply quiet_mthen; [apply quiet_locator_count | intros n].
  destruct (0 <? n)%nat; [apply quiet_handle_manual_captcha | exact IH].
Qed.

Lemma quiet_scan_types table : quiet (AntiBotHandler.scan_types table).
Proof.
  induction table as [|[kind selectors] rest IH]; [apply quiet_mreturn|].
  cbn [AntiBotHandler.scan_types]. apply quiet_scan_selectors. exact IH.
Qed.

Lemma quiet_handle_captcha : quiet AntiBotHandler.handle_captcha.
Proof.
  apply quiet_mtry; [apply quiet_scan_types | intros; apply quiet_mreturn].
Qed.

Lemma quiet_get_form_fields : quiet _get_form_fields.
Proof.
  apply quiet_mtry; [|intros; apply quiet_mreturn].
  apply quiet_mthen; [apply quiet_query_selector_all | intros; apply quiet_mreturn].
Qed.

Lemma doomed_mraise {A} e : doomed (@mraise W A e).
Proof. intros st _. repeat split. exists e. reflexivity. Qed.

Lemma doomed_mthen_l {A B} (m : M W A) (k : A -> M W B) :
  doomed m -> doomed (mthen m k).
Proof.
  intros Hm st Hu. unfold mthen. specialize (Hm st Hu).
  destruct (m st) as [st1 [e|a]]; cbn [fst snd] in *.
  - split; [exists e; reflexivity | apply Hm].
  - destruct Hm as [[e He] _]. discriminate.
Qed.

Lemma doomed_mthen_r {A B} (m : M W A) (k : A -> M W B) :
  quiet m -> (forall a, doomed (k a)) -> doomed (mthen m k).
Proof.
  intros Hm Hk st Hu. unfold mthen. specialize (Hm st).
  destruct (m st) as [st1 [e|a]]; cbn [fst snd] in *.
  - split; [exists e; reflexivity | exact Hm].
  - destruct Hm as [Hg Hw]. destruct (Hk a st1) as (He & Hg' & Hw').
    { rewrite Hg. exact Hu. }
    split; [exact He|]. split; congruence.
Qed.

Lemma doomed_mtry {A} (m : M W A) (h : PyExc -> M W A) :
  doomed m -> (forall e, doomed (h e)) -> doomed (mtry m h).
Proof.
  intros Hm Hh st Hu. unfold mtry. specialize (Hm st Hu).
  destruct (m st) as [st1 [e|a]]; cbn [fst snd] in *.
  - destruct Hm as (_ & Hg & Hw). destruct (Hh e st1) as (He & Hg' & Hw').
    { rewrite Hg. exact Hu. }
    split; [exact He|]. split; congruence.
  - destruct Hm as [[e He] _]. discriminate.
Qed.

Lemma doomed_mfinally {A} (m : M W A) (final : M W unit) :
  doomed m -> quiet final -> doomed (mfinally m final).
Proof.
  intros Hm Hf st Hu. unfold mfinally. specialize (Hm st Hu).
  destruct (m st) as [st1 r]; cbn [fst snd] in *.
  destruct Hm as ([e ->] & Hg & Hw). specialize (Hf st1).
  destruct (final st1) as [st2 [e'|u]]; cbn [fst snd] in *;
    (split; [eauto | destruct Hf; split; congruence]).
Qed.

Lemma doomed_global_name : doomed (@global_name W "required_fields").
Proof.
  intros st Hu. unfold global_name. rewrite Hu. repeat split.
  exists (NameError "required_fields"). reflexivity.
Qed.

(** The first round of the loop over the fields stops at the test of
    [analysis], which is not bound yet: no field is classified. *)
Lemma field_loop_unbound_analysis self field rest (st : St W) :
  snd (field_loop self (field :: rest) None st) = raise (UnboundLocalError "analysis").
Proof.
  cbn [field_loop]. unfold field_step, mthen.
  destruct (AntiBotHandler.add_human_behavior st) as [st1 [e|[]]] eqn:Hh.
  - exfalso. unfold AntiBotHandler.add_human_behavior, mtry in Hh.
    destruct (do_call HumanBehavior st) as [st0 [e0|[]]]; discriminate.
  - reflexivity.
Qed.

Lemma doomed_field_loop self field rest : doomed (field_loop self (field :: rest) None).
Proof.
  cbn [field_loop]. apply doomed_mthen_l. unfold field_step.
  apply doomed_mthen_r; [apply quiet_add_human_behavior | intros _].
  apply doomed_mthen_l. cbn [local_analysis]. intros st _. repeat split.
  eexists. reflexivity.
Qed.

Lemma doomed_flow_body self job_url : doomed (flow_body self job_url).
Proof.
  unfold flow_body.
  apply doomed_mthen_r; [apply quiet_do_call; discriminate | intros _].
  apply doomed_mthen_r; [apply quiet_do_call; discriminate | intros _].
  apply doomed_mthen_r; [apply quiet_add_human_behavior | intros _].
  apply doomed_mthen_r; [apply quiet_handle_captcha | intros _].
  apply doomed_mthen_r; [apply quiet_get_form_fields | intros form_fields].
  destruct form_fields as [|field rest].
  - apply doomed_mthen_r; [apply quiet_mreturn | intros _].
    apply doomed_mthen_l. apply doomed_global_name.
  - apply doomed_mthen_l. apply doomed_field_loop.
Qed.

Lemma doomed_test_application_flow self job_url :
  doomed (test_application_flow self job_url).
Proof.
  unfold test_application_flow.
  apply doomed_mthen_r; [apply quiet_do_call; discriminate | intros _].
  apply doomed_mthen_r; [apply quiet_do_call; discriminate | intros _].
  apply doomed_mthen_r; [apply quiet_do_call; discriminate | intros _].
  apply doomed_mfinally; [|apply quiet_do_call; discriminate].
  apply doomed_mtry; [apply doomed_flow_body | intros e].
  apply doomed_mthen_r; [apply quiet_do_call; discriminate | intros _].
  apply doomed_mraise.
Qed.

Lemma required_fields_unbound : module_globals !! "required_fields" = None.
Proof. vm_compute. reflexivity. Qed.

Lemma datetime_unbound : module_globals !! "datetime" = None.
Proof. vm_compute. reflexivity. Qed.

(** C2 (the code departs from the claim).  Every run of the application
    flow ends in an exception and logs no warning: with at least one field
    the loop stops in its first round at the unbound [analysis], before any
    field is classified; without fields the report stops at the name
    [required_fields], which nothing binds.  No accumulator exists, and no
    missing field is ever reported. *)
Theorem application_flow_never_reports self job_url (w : W) tr :
  (exists e, snd (test_application_flow self job_url (module_state w tr)) = raise e) /\
  warnings (trace (fst (test_application_flow self job_url (module_state w tr))))
  = warnings tr /\
  (forall field rest (st : St W),
      snd (field_loop self (field :: rest) None st)
      = raise (UnboundLocalError "analysis")) /\
  (forall (w' : W) tr',
      snd (global_name "required_fields" (module_state w' tr'))
      = raise (NameError "required_fields")).
Proof.
  destruct (doomed_test_application_flow self job_url (module_state w tr))
    as (He & _ & Hw); [apply required_fields_unbound|].
  split; [exact He|]. split; [exact Hw|]. split.
  - intros field rest st. apply field_loop_unbound_analysis.
  - intros w' tr'. unfold global_name. cbn [globals module_state].
    rewrite required_fields_unbound. reflexivity.
Qed.

(** C3 (the code departs from the claim).  Saving an attempt stops at the
    name [datetime], which the module never imports; the exception is
    swallowed, no file is read or written, and the world is left as it
    was.  So after saving [A] and then [B] the store reads back as before,
    without [A] and [B]. *)
Theorem save_application_details_stores_nothing self
    job_a analysis_a letter_a job_b analysis_b letter_b (w : W) tr :
  _save_application_details self job_a analysis_a letter_a (module_state w tr)
  = (module_state w tr, ok tt)
  /\
  (run! _save_application_details self job_a analysis_a letter_a;
   _save_application_details self job_b analysis_b letter_b) (module_state w tr)
  = (module_state w tr, ok tt).
Proof.
  assert (H : forall j a l,
             _save_application_details self j a l (module_state w tr)
             = (module_state w tr, ok tt)).
  { intros j a l. unfold _save_application_details, mtry, mthen, global_name.
    cbn [globals module_state]. rewrite datetime_unbound. reflexivity. }
  split; [apply H|]. unfold mthen. rewrite H. apply H.
Qed.

End Interactions.

(** ** The statements on the simulated world *)

(** Witness of C8: on a page without marker the operator's signal is
    followed by success; on a page where the generic marker stays, by
    failure. *)
Lemma manual_resolution_protocol_witness :
  snd (AntiBotHandler._handle_manual_captcha (Sim.start (Sim.page nil nil))) = ok true
  /\
  snd (AntiBotHandler._handle_manual_captcha
         (Sim.start (Sim.page ((AntiBotHandler.GENERIC_MARKER, 1%nat) :: nil) nil)))
  = ok false.
Proof.
  split.
  - destruct (manual_resolution_protocol (Sim.start (Sim.page nil nil)))
      as (new & solved & H1 & H2 & _ & H4 & _).
    rewrite H1. f_equal. apply H4. exists EmptyString.
    vm_compute in H2. symmetry. exact H2.
  - destruct (manual_resolution_protocol
                (Sim.start (Sim.page ((AntiBotHandler.GENERIC_MARKER, 1%nat) :: nil) nil)))
      as (new & solved & H1 & H2 & _ & _ & H5 & _).
    rewrite H1. f_equal. apply (H5 0%nat).
    vm_compute in H2. rewrite <- H2. do 3 right. left. reflexivity.
Defined.

(** Witness of C9: a page on which nothing resolves. *)
Lemma no_marker_no_manual_resolution_witness :
  snd (AntiBotHandler.handle_captcha (Sim.start (Sim.page nil nil))) = ok false.
Proof.
  destruct (no_marker_no_manual_resolution
              (fun w => Sim.counts w = nil) (Sim.start (Sim.page nil nil)))
    as (new & H & _).
  - intros selector w w' r Hw Hc. cbn in Hc. injection Hc as <- <-.
    split; [exact Hw|]. intros n _ Hn. rewrite Hw in Hn. injection Hn as <-.
    reflexivity.
  - reflexivity.
  - exact H.
Defined.

(** Scenario 5: of the selectors A, B, C only C resolves; A and B are
    tried and fail, C takes the file, the call succeeds. *)
Example upload_third_selector :
  let run := _try_upload_file "resume.pdf" ("A" :: "B" :: "C" :: nil) "resume"
               (Sim.start (Sim.page (("C", 1%nat) :: nil) nil)) in
  snd run = ok true /\
  trace (fst run)
  = (Locate "A", Counted 0) :: (Locate "B", Counted 0) :: (Locate "C", Counted 1)
    :: (SetInputFiles "C" "resume.pdf", Returned)
    :: (WaitForTimeout 1000, Returned) :: nil.
Proof. vm_compute. split; reflexivity. Qed.

(** With a first selector that resolves, the later ones are not looked up. *)
Example upload_first_selector :
  trace (fst (_upload_resume Sim.ada
                (Sim.start (Sim.page (("input[name='resume']", 1%nat)
                                      :: ("input[type='file']", 1%nat) :: nil) nil))))
  = (Locate "input[name='resume']", Counted 1)
    :: (SetInputFiles "input[name='resume']" "/app/assets/documents/resume/resume.pdf",
        Returned)
    :: (WaitForTimeout 1000, Returned) :: nil.
Proof. vm_compute. reflexivity. Qed.

(** Scenarios 3 and 4: no profile key matches the name of the field. *)
Example optional_field_without_data :
  _analyze_field Sim.ada (Sim.field (VStr "referral_source") (VStr "text") false)
  = ok OPTIONAL_SKIP.
Proof. vm_compute. reflexivity. Qed.

Example required_field_without_data :
  _analyze_field Sim.ada (Sim.field (VStr "emergency_contact") (VStr "text") true)
  = ok REQUIRED_ALERT.
Proof. vm_compute. reflexivity. Qed.

(** A profile value of white space only is filled in, and [_fill_field]
    reads it back stripped. *)
Example blank_value_is_filled :
  let self := {| project_root := "/app";
                 config := {| personal_information := Some {[ "email" := VStr " " ]};
                              experience_details := None;
                              skills := None |} |} in
  _analyze_field self (Sim.field (VStr "email") (VStr "text") true)
  = ok (REQUIRED_FILL (VStr " "))
  /\ analysis_value (REQUIRED_FILL (VStr " ")) = Some EmptyString.
Proof. vm_compute. split; reflexivity. Qed.

(** A form with one required input the profile has no value for: the flow
    raises in the first round of the loop and reports nothing. *)
Example flow_on_required_field :
  let input_element :=
    {| attributes := {[ "name" := "emergency_contact"; "type" := "text";
                        "required" := EmptyString ]};
       tag_name := "INPUT";
       read_error := fun _ => None |} in
  let run := test_application_flow Sim.ada "https://jobs.example/apply"
               (Sim.start (Sim.page nil (input_element :: nil))) in
  snd run = raise (UnboundLocalError "analysis") /\
  warnings (trace (fst run)) = nil /\
  globals (fst run) !! "required_fields" = None.
Proof. vm_compute. repeat split; reflexivity. Qed.

(** A form without inputs: the flow raises where it asks for the
    accumulator. *)
Example flow_on_empty_form :
  snd (test_application_flow Sim.ada "https://jobs.example/apply"
         (Sim.start (Sim.page nil nil)))
  = raise (NameError "required_fields").
Proof. vm_compute. reflexivity. Qed.

(** Two attempts are saved into a store that holds no record: the store
    still holds none. *)
Example save_two_attempts :
  let store := {| Sim.counts := nil; Sim.elements := nil;
                  Sim.history := Some (JRecords nil) |} in
  let run := (mthen (_save_application_details Sim.ada {[ "title" := VStr "A" ]} ∅ "a")
                (fun _ => _save_application_details Sim.ada {[ "title" := VStr "B" ]} ∅ "b"))
               (Sim.start store) in
  Sim.history (world (fst run)) = Some (JRecords nil) /\ trace (fst run) = nil.
Proof. vm_compute. split; reflexivity. Qed.

(** Were [analysis] and [required_fields] bound when a round of the loop
    starts, the round would add the name of a required field without
    profile value to the list, and leave the list alone for an optional
    one. *)
Example round_with_bound_names :
  let st := Sim.with_global "required_fields" (ObjList nil)
              (Sim.start (Sim.page nil nil)) in
  globals (fst (field_step Sim.ada
                  (Sim.field (VStr "emergency_contact") (VStr "text") true)
                  (Some EmptyString) st)) !! "required_fields"
  = Some (ObjList (VStr "emergency_contact" :: nil))
  /\
  globals (fst (field_step Sim.ada
                  (Sim.field (VStr "referral_source") (VStr "text") false)
                  (Some EmptyString) st)) !! "required_fields"
  = Some (ObjList nil).
Proof. vm_compute. split; reflexivity. Qed.

(** Were [datetime] bound, saving [A] and then [B] would leave the store
    with the records it held followed by [A] and [B]. *)
Example save_with_datetime_bound :
  let store := {| Sim.counts := nil; Sim.elements := nil;
                  Sim.history := Some (JRecords nil) |} in
  let run := (mthen (_save_application_details Sim.ada {[ "title" := VStr "A" ]} ∅ "a")
                (fun _ => _save_application_details Sim.ada {[ "title" := VStr "B" ]} ∅ "b"))
               (Sim.with_global "datetime" ObjOpaque (Sim.start store)) in
  option_map (fun d => match d with
                       | JRecords l => map cover_letter l
                       | JOther => nil
                       end) (Sim.history (world (fst run)))
  = Some ("a" :: "b" :: nil).
Proof. vm_compute. reflexivity. Qed.

(** * Further properties of the embedded code *)

Import Conditions.

(** ** Values read back from a decision *)

(** Cutting a text at a separator that does not occur in its first line
    leaves the first line as it is. *)
Lemma first_line_before_sep sep s :
  contains nl sep = false ->
  contains sep (split_0 nl s) = false ->
  split_0 nl (split_0 sep s) = split_0 nl s.
Proof.
  intros Hnl. induction s as [|c s IH]; intros Hc.
  - unfold split_0. cbn. destruct (startswith sep ""); reflexivity.
  - rewrite (split_0_cons nl), startswith_nl in *.
    destruct (Ascii.eqb "010" c) eqn:Hcn.
    + rewrite split_0_cons. destruct (startswith sep (String c s)); [reflexivity|].
      rewrite split_0_cons, startswith_nl, Hcn. reflexivity.
    + apply contains_cons_false in Hc. destruct Hc as [Hst Hc].
      rewrite split_0_cons.
      destruct (startswith sep (String c s)) eqn:Hs.
      * apply (startswith_first_line _ _ Hnl) in Hs.
        rewrite split_0_cons, startswith_nl, Hcn in Hs. congruence.
      * rewrite split_0_cons, startswith_nl, Hcn. f_equal. apply IH. exact Hc.
Qed.

Lemma value_after_marker s t :
  contains "VALUE:" (split_0 nl s) = false ->
  analysis_value ("ACTION: FILL" ++ nl ++ "VALUE: " ++ s ++ nl ++ t)
  = Some (strip (split_0 nl s)).
Proof.
  intros H.
  assert (Hline : split_0 nl (String " " (s ++ nl ++ t)) = String " " (split_0 nl s)).
  { rewrite split_0_cons, startswith_nl, first_line_app. reflexivity. }
  assert (Hcut : split_0 nl (split_0 "VALUE:" (String " " (s ++ nl ++ t)))
                 = String " " (split_0 nl s)).
  { rewrite first_line_before_sep; [exact Hline | reflexivity |].
    rewrite Hline. cbn [contains startswith Ascii.eqb]. exact H. }
  unfold analysis_value, split_1.
  change ("ACTION: FILL" ++ nl ++ "VALUE: " ++ s ++ nl ++ t)
    with (String "A" (String "C" (String "T" (String "I" (String "O" (String "N"
         (String ":" (String " " (String "F" (String "I" (String "L" (String "L"
         (String "010" (String "V" (String "A" (String "L" (String "U" (String "E"
         (String ":" (String " " (s ++ nl ++ t))))))))))))))))))))).
  cbn [contains startswith Ascii.eqb Bool.eqb cut drop String.length].
  rewrite Hcut. reflexivity.
Qed.
Import Conditions.

Lemma plain_fill_read_back self field :
  field_type field <> VStr "hidden" ->
  field_type field <> VStr "file" ->
  resolvable self field = true ->
  contains "VALUE:" (split_0 nl (py_str (profile_value self field))) = false ->
  exists analysis,
    _analyze_field self field = ok analysis /\
    decision_action analysis = Some FILL /\
    analysis_value analysis = Some (strip (split_0 nl (py_str (profile_value self field)))).
Proof.
  intros Hh Hf Hv Hm. rewrite (analyze_plain_field _ _ Hh Hf), Hv.
  destruct (is_required field); eexists; (split; [reflexivity|]);
    (split; [apply fill_action | apply value_after_marker; exact Hm]).
Qed.

(** X1.  A FILL decision and [_fill_field] agree on the value up to the
    first line: when the first line of the profile value does not contain
    the marker "VALUE:", the value read back from the decision is that first
    line, stripped; anything after a line break is dropped. *)
Theorem filled_value_is_stripped_first_line self field :
  field_type field <> VStr "hidden" ->
  field_type field <> VStr "file" ->
  resolvable self field = true ->
  contains "VALUE:" (split_0 nl (py_str (profile_value self field))) = false ->
  exists analysis,
    _analyze_field self field = ok analysis /\
    decision_action analysis = Some FILL /\
    analysis_value analysis = Some (strip (split_0 nl (py_str (profile_value self field)))).
Proof. apply plain_fill_read_back. Qed.

Lemma filled_value_is_stripped_first_line_witness :
  exists analysis,
    _analyze_field Sim.ada (Sim.field (VStr "full_name") (VStr "text") true) = ok analysis /\
    analysis_value analysis = Some "Ada Lovelace".
Proof.
  destruct (filled_value_is_stripped_first_line Sim.ada
              (Sim.field (VStr "full_name") (VStr "text") true))
    as (a & H1 & _ & H3);
    [vm_compute; discriminate | vm_compute; discriminate | reflexivity | reflexivity |].
  exists a. split; [exact H1|]. rewrite H3. reflexivity.
Defined.

(** ** The generated cover letter *)

Ltac bind_ok H :=
  repeat match type of H with
         | ebind ?m _ = ok _ =>
             let E := fresh "E" in
             destruct m eqn:E; cbn [ebind] in H; [discriminate|]
         end.

Lemma cover_letter_shape self letter :
  _generate_cover_letter self = ok letter ->
  exists rest, letter = "Dear Hiring Manager," ++ nl ++ rest.
Proof.
  unfold _generate_cover_letter. intros H. bind_ok H.
  injection H as <-. eexists. reflexivity.
Qed.

Lemma lookup_cover_letter self s t letter :
  cover_letter_field (lower s) = true ->
  _generate_cover_letter self = ok letter ->
  _get_field_value_from_config self (VStr s) t = ok (VStr letter).
Proof.
  unfold cover_letter_field. intros H Hl.
  repeat (apply andb_prop in H; destruct H as [H ?]).
  repeat match goal with
         | H : negb _ = true |- _ => apply negb_true_iff in H
         end.
  unfold _get_field_value_from_config, _get_field_value_body.
  cbn [py_lower ebind ok].
  repeat match goal with
         | H : contains _ (lower s) = false |- _ => rewrite H; clear H
         end.
  cbn [orb].
  match goal with H : (_ || _)%bool = true |- _ => rewrite H end.
  rewrite Hl. reflexivity.
Qed.

(** X2.  The generated cover letter is filled in as its greeting only: for
    a field whose name asks for the cover letter, the decision is FILL and
    the value [_fill_field] reads back is "Dear Hiring Manager,", the first
    line of the letter. *)
Theorem cover_letter_fill_keeps_greeting self field s letter :
  field_name field = VStr s ->
  field_type field <> VStr "hidden" ->
  field_type field <> VStr "file" ->
  cover_letter_field (lower s) = true ->
  _generate_cover_letter self = ok letter ->
  exists analysis,
    _analyze_field self field = ok analysis /\
    decision_action analysis = Some FILL /\
    analysis_value analysis = Some "Dear Hiring Manager," /\
    (String.length "Dear Hiring Manager," < String.length letter)%nat.
Proof.
  intros Hn Hh Hf Hc Hl.
  assert (Hv : profile_value self field = VStr letter).
  { unfold profile_value. rewrite Hn, (lookup_cover_letter _ _ _ _ Hc Hl). reflexivity. }
  destruct (cover_letter_shape _ _ Hl) as [rest Hrest].
  assert (Hline : split_0 nl letter = "Dear Hiring Manager,").
  { rewrite Hrest, first_line_app. reflexivity. }
  destruct (plain_fill_read_back self field Hh Hf) as (a & H1 & H2 & H3).
  - unfold resolvable. rewrite Hv, Hrest. reflexivity.
  - rewrite Hv. cbn [py_str]. rewrite Hline. reflexivity.
  - exists a. split; [exact H1|]. split; [exact H2|]. split.
    + rewrite H3, Hv. cbn [py_str]. rewrite Hline. reflexivity.
    + rewrite Hrest. unfold nl. rewrite !app_cons, app_nil. cbn [String.length]. lia.
Qed.

Lemma cover_letter_fill_keeps_greeting_witness :
  exists analysis,
    _analyze_field Samples.grace (Sim.field (VStr "cover_letter") (VStr "text") false)
    = ok analysis /\
    analysis_value analysis = Some "Dear Hiring Manager,".
Proof.
  destruct (_generate_cover_letter Samples.grace) as [e|letter] eqn:Hl;
    [vm_compute in Hl; discriminate|].
  destruct (cover_letter_fill_keeps_greeting Samples.grace
              (Sim.field (VStr "cover_letter") (VStr "text") false)
              "cover_letter" letter)
    as (a & H1 & _ & H3 & _);
    [reflexivity | vm_compute; discriminate | vm_compute; discriminate
    | reflexivity | exact Hl |].
  exists a. split; [exact H1 | exact H3].
Defined.
Lemma as_strings_text l :
  match as_strings l with
  | inr _ => forallb is_text l = true
  | inl _ => forallb is_text l = false
  end.
Proof.
  induction l as [|v l IH]; [reflexivity|].
  destruct v; cbn [as_strings forallb is_text andb]; try reflexivity.
  destruct (as_strings l); cbn [ebind ok]; exact IH.
Qed.

(** X3.  The cover letter is generated exactly for the profiles that hold
    what it interpolates; an [experience_details] list that is present but
    empty makes it fail, while an absent one does not. *)
Theorem cover_letter_needs self :
  (exists letter, _generate_cover_letter self = ok letter) <-> letter_ready self = true.
Proof.
  destruct self as [root [pi exps sk]].
  unfold letter_ready, _generate_cover_letter, skill, personal, item, getitem.
  cbn [config personal_information experience_details skills project_root].
  assert (Hno : forall (e : PyExc) (P : Prop),
             ((exists letter : string, @inl PyExc string e = ok letter) <-> false = true)).
  { intros e _. split; [intros [l Hl]; discriminate | discriminate]. }
  destruct sk as [sk|]; cbn.
  2:{ destruct exps as [[|e exps]|]; cbn;
      try destruct (key_responsibilities e) as [[|]|]; cbn; apply Hno; exact True. }
  destruct (sk !! "programming_languages") as [langs|]; cbn.
  2:{ destruct exps as [[|e exps]|]; cbn;
      try destruct (key_responsibilities e) as [[|]|]; cbn; apply Hno; exact True. }
  pose proof (as_strings_text (firstn 3 langs)) as Hl.
  destruct (as_strings (firstn 3 langs)) as [e3|langs3]; rewrite Hl; cbn.
  { destruct exps as [[|e exps]|]; cbn;
      try destruct (key_responsibilities e) as [[|]|]; cbn; apply Hno; exact True. }
  destruct exps as [[|e exps]|]; cbn;
    [apply Hno; exact True | |].
  - destruct (key_responsibilities e) as [[|r rs]|];
      cbn; [apply Hno; exact True | |];
      (destruct (sk !! "ai_ml") as [[|a ?]|]; cbn;
       [apply Hno; exact True | | apply Hno; exact True];
       destruct (sk !! "cloud_services") as [[|c ?]|];
       cbn;
       [apply Hno; exact True | | apply Hno; exact True];
       destruct pi as [pi|]; cbn; [|apply Hno; exact True];
       destruct (pi !! "name") as [n|]; cbn;
       [|apply Hno; exact True];
       destruct (pi !! "surname") as [sn|]; cbn;
       [|apply Hno; exact True];
       (split; [reflexivity | intros _; eexists; reflexivity])).
  - cbn.
    destruct (sk !! "ai_ml") as [[|a ?]|]; cbn;
      [apply Hno; exact True | | apply Hno; exact True].
    destruct (sk !! "cloud_services") as [[|c ?]|];
      cbn;
      [apply Hno; exact True | | apply Hno; exact True].
    destruct pi as [pi|]; cbn; [|apply Hno; exact True].
    destruct (pi !! "name") as [n|]; cbn; [|apply Hno; exact True].
    destruct (pi !! "surname") as [sn|]; cbn; [|apply Hno; exact True].
    split; [reflexivity | intros _; eexists; reflexivity].
Qed.

Lemma cover_letter_needs_witness :
  exists letter, _generate_cover_letter Samples.grace = ok letter.
Proof.
  destruct (cover_letter_needs Samples.grace) as [_ H]. apply H. reflexivity.
Defined.

(** ** Decisions and the branches of the flow *)

Lemma fill_marked t : contains "ACTION: FILL" ("ACTION: FILL" ++ nl ++ t) = true.
Proof. reflexivity. Qed.

(** X4.  The branch the flow takes on an analysis, which it chooses by
    looking for "ACTION: FILL", then "ACTION: UPLOAD", then "ACTION: ALERT"
    anywhere in the text, is the branch of the action the decision reads
    back as, whatever text the profile value puts into the decision. *)
Theorem flow_branch_is_decision self field analysis :
  _analyze_field self field = ok analysis ->
  match decision_action analysis with
  | Some FILL => contains "ACTION: FILL" analysis = true
  | Some UPLOAD =>
      contains "ACTION: FILL" analysis = false /\
      contains "ACTION: UPLOAD" analysis = true
  | Some ALERT =>
      contains "ACTION: FILL" analysis = false /\
      contains "ACTION: UPLOAD" analysis = false /\
      contains "ACTION: ALERT" analysis = true
  | Some SKIP =>
      contains "ACTION: FILL" analysis = false /\
      contains "ACTION: UPLOAD" analysis = false /\
      contains "ACTION: ALERT" analysis = false
  | None => False
  end.
Proof.
  destruct (decide (field_type field = VStr "hidden")) as [Hh|Hh].
  { rewrite (analyze_hidden_field _ _ Hh). intros [= <-]. repeat split. }
  destruct (decide (field_type field = VStr "file")) as [Hf|Hf].
  { rewrite (analyze_file_field _ _ Hf).
    destruct (field_name field) as [| b | z | s];
      [intros [= <-]; repeat split .. |].
    destruct (contains "resume" (lower s) || contains "cv" (lower s))%bool;
      intros [= <-]; repeat split. }
  rewrite (analyze_plain_field _ _ Hh Hf).
  destruct (is_required field), (resolvable self field); intros [= <-];
    try (rewrite ?required_fill_action, ?optional_fill_action; apply fill_marked);
    repeat split.
Qed.

Lemma flow_branch_is_decision_witness :
  contains "ACTION: FILL" (REQUIRED_FILL (VStr "Ada Lovelace")) = true.
Proof.
  pose proof (flow_branch_is_decision Sim.ada
                (Sim.field (VStr "full_name") (VStr "text") true)
                (REQUIRED_FILL (VStr "Ada Lovelace")) eq_refl) as H.
  rewrite required_fill_action in H. exact H.
Defined.

(** X5.  A control without name attribute that is neither hidden nor a file
    never gets a value, whatever the profile holds: it is answered by ALERT
    when required and skipped otherwise. *)
Theorem unnamed_field_gets_no_value self field :
  field_name field = VNone ->
  field_type field <> VStr "hidden" ->
  field_type field <> VStr "file" ->
  _analyze_field self field
  = ok (if is_required field then REQUIRED_ALERT else OPTIONAL_SKIP).
Proof.
  intros Hn Hh Hf. rewrite (analyze_plain_field _ _ Hh Hf).
  assert (Hv : resolvable self field = false).
  { unfold resolvable, profile_value. rewrite Hn. reflexivity. }
  rewrite Hv. reflexivity.
Qed.

Lemma unnamed_field_gets_no_value_witness :
  _analyze_field Samples.grace (Sim.field VNone (VStr "text") true) = ok REQUIRED_ALERT.
Proof.
  apply (unnamed_field_gets_no_value Samples.grace (Sim.field VNone (VStr "text") true));
    [reflexivity | vm_compute; discriminate | vm_compute; discriminate].
Defined.

(** X6.  A field whose name contains "name" is filled with
    "<name> <surname>" as soon as the profile has both keys, whatever they
    hold: the value is never empty, so such a field is neither skipped nor
    answered by ALERT, and a [None] entry is filled in as the text "None". *)
Theorem name_field_is_always_filled self field s pi n sn :
  field_name field = VStr s ->
  contains "name" (lower s) = true ->
  field_type field <> VStr "hidden" ->
  field_type field <> VStr "file" ->
  personal_information (config self) = Some pi ->
  pi !! "name" = Some n ->
  pi !! "surname" = Some sn ->
  _analyze_field self field
  = ok (if is_required field
        then REQUIRED_FILL (VStr (py_str n ++ " " ++ py_str sn))
        else OPTIONAL_FILL (VStr (py_str n ++ " " ++ py_str sn))).
Proof.
  intros Hn Hc Hh Hf Hpi Hname Hsur. rewrite (analyze_plain_field _ _ Hh Hf).
  assert (Hv : profile_value self field = VStr (py_str n ++ " " ++ py_str sn)).
  { unfold profile_value, _get_field_value_from_config, _get_field_value_body.
    rewrite Hn. cbn [py_lower ebind ok]. rewrite Hc.
    unfold personal, item, getitem. rewrite Hpi. cbn [ebind ok].
    rewrite Hname, Hsur. reflexivity. }
  unfold resolvable. rewrite Hv.
  assert (Ht : truthy (VStr (py_str n ++ " " ++ py_str sn)) = true).
  { cbn [truthy]. destruct (py_str n); reflexivity. }
  rewrite Ht. reflexivity.
Qed.

Lemma name_field_is_always_filled_witness :
  _analyze_field Sim.ada
    (Sim.field (VStr "company_name") (VStr "text") false)
  = ok (OPTIONAL_FILL (VStr "Ada Lovelace")).
Proof.
  apply (name_field_is_always_filled Sim.ada
           (Sim.field (VStr "company_name") (VStr "text") false) "company_name"
           {[ "name" := VStr "Ada"; "surname" := VStr "Lovelace" ]}
           (VStr "Ada") (VStr "Lovelace"));
    try reflexivity; vm_compute; discriminate.
Defined.

(** ** Selectors of scanned controls *)

Lemma no_space_app s t : no_space (s ++ t) = (no_space s && no_space t)%bool.
Proof.
  induction s as [|c s IH]; [reflexivity|].
  change (String c s ++ t) with (String c (s ++ t)). cbn [no_space].
  rewrite IH. apply andb_assoc.
Qed.

(** The words of a text are not empty and hold no white space. *)
Lemma words_from_clean cur s :
  match cur with
  | Some w => w <> EmptyString /\ no_space w = true
  | None => True
  end ->
  Forall (fun w => w <> EmptyString /\ no_space w = true) (words_from cur s).
Proof.
  revert cur. induction s as [|c s IH]; intros cur Hcur.
  - cbn [words_from]. destruct cur; repeat constructor; tauto.
  - cbn [words_from]. destruct (is_space c) eqn:Hc.
    + destruct cur as [w|]; [constructor; [exact Hcur|] |]; apply IH; exact I.
    + apply IH. unfold snoc. split.
      * destruct cur as [[|a w]|]; discriminate.
      * rewrite no_space_app. cbn [no_space]. rewrite Hc.
        destruct cur as [w|]; cbn; [destruct Hcur as [_ ->]|]; reflexivity.
Qed.

Lemma words_from_blank s : blank s = true -> words_from None s = nil.
Proof.
  induction s as [|c s IH]; [reflexivity|].
  cbn [blank words_from]. intros H. apply andb_prop in H. destruct H as [-> H].
  apply IH. exact H.
Qed.

Lemma no_space_join ws :
  Forall (fun w => w <> EmptyString /\ no_space w = true) ws ->
  no_space (join "." ws) = true.
Proof.
  induction 1 as [|w ws [_ Hw] Hws IH]; [reflexivity|].
  cbn [join]. destruct ws as [|w' ws']; [exact Hw|].
  rewrite !no_space_app, Hw, IH. reflexivity.
Qed.

Lemma reads_attribute element names a :
  reads element names = true -> a ∈ names -> get_attribute element a = ok (attribute_value element a).
Proof.
  unfold reads, get_attribute. intros H Ha.
  apply list_elem_of_In in Ha. rewrite forallb_forall in H. specialize (H a Ha).
  destruct (read_error element (ReadAttribute a)); [discriminate | reflexivity].
Qed.

Lemma words_of_visible class : blank class = false -> words class <> nil.
Proof.
  unfold words.
  assert (G : forall t cur, blank t = false -> words_from cur t <> nil).
  { induction t as [|c s IH]; intros cur H; [discriminate|].
    cbn [blank] in H. cbn [words_from]. destruct (is_space c).
    - cbn [andb] in H. destruct cur; [intros [=] | apply IH; exact H].
    - clear H IH. generalize (snoc (default EmptyString cur) c).
      induction s as [|d s IH]; intros w.
      + intros [=].
      + cbn [words_from]. destruct (is_space d); [intros [=] | apply IH]. }
  apply G.
Qed.

(** X7.  For a control whose id, name, class and type can be read and
    which has no usable id and name, the selector built from its class
    attribute is a dot followed by the classes joined by dots and holds no
    white space, however the classes are spaced.  A class attribute of
    white space only gives the selector of the tag instead, and the
    selector "input" when reading the tag name raises. *)
Theorem class_selector_is_compact element class :
  reads element selector_attributes = true ->
  truthy (attribute_value element "id") = false ->
  truthy (attribute_value element "name") = false ->
  attributes element !! "class" = Some class ->
  class <> EmptyString ->
  (blank class = true ->
   _generate_selector element
   = match read_error element ReadTagName with
     | Some _ => "input"
     | None =>
         match attributes element !! "type" with
         | Some (String c t) =>
             lower (tag_name element) ++ "[type='" ++ String c t ++ "']"
         | _ => lower (tag_name element)
         end
     end)
  /\
  (blank class = false ->
   _generate_selector element = "." ++ join "." (words class) /\
   no_space (_generate_selector element) = true).
Proof.
  intros Hreads Hid Hname Hclass Hne.
  assert (Hg : attribute_value element "class" = VStr class).
  { unfold attribute_value. rewrite Hclass. reflexivity. }
  assert (Ht : truthy (VStr class) = true) by (destruct class; [contradiction | reflexivity]).
  unfold _generate_selector, _generate_selector_body.
  rewrite !(reads_attribute _ _ _ Hreads) by (unfold selector_attributes; set_solver).
  unfold ok, ebind. rewrite Hid, Hname, Hg, Ht. cbn [py_str]. split.
  - intros Hb. unfold words. rewrite (words_from_blank _ Hb).
    unfold evaluate_tag_name, attribute_value.
    destruct (read_error element ReadTagName); [reflexivity|].
    destruct (attributes element !! "type") as [[|c t]|]; reflexivity.
  - intros Hb. pose proof (words_of_visible _ Hb) as Hw.
    pose proof (words_from_clean None class I) as Hc. fold (words class) in Hc.
    destruct (words class) as [|w ws] eqn:E; [contradiction|].
    split; [reflexivity|].
    change ("." ++ join "." (w :: ws)) with (String "." (join "." (w :: ws))).
    cbn [no_space]. rewrite (no_space_join _ Hc). reflexivity.
Qed.

Lemma class_selector_is_compact_witness :
  _generate_selector (Samples.control "INPUT" (("class", "btn  primary") :: nil))
  = ".btn.primary"
  /\ _generate_selector (Samples.detached "INPUT" (("class", "  ") :: nil)) = "input".
Proof.
  split.
  - destruct (class_selector_is_compact
                (Samples.control "INPUT" (("class", "btn  primary") :: nil)) "btn  primary")
      as [_ H]; [reflexivity | reflexivity | reflexivity | reflexivity | discriminate |].
    destruct H as [H _]; [reflexivity|]. rewrite H. reflexivity.
  - destruct (class_selector_is_compact
                (Samples.detached "INPUT" (("class", "  ") :: nil)) "  ")
      as [H _]; [reflexivity | reflexivity | reflexivity | reflexivity | discriminate |].
    rewrite H; reflexivity.
Defined.

(** ** Scanning and filling *)

Lemma snapshot_scanned element : scanned_field (snapshot element).
Proof.
  unfold scanned_field, text_or_none, snapshot, attribute_value.
  repeat split.
  - destruct (attributes element !! "name"); [right | left]; eauto.
  - destruct (attributes element !! "type"); [right | left]; eauto.
  - destruct (attributes element !! "placeholder"); [right | left]; eauto.
  - eexists. reflexivity.
  - eexists. reflexivity.
Qed.

(** Reading a control gives its snapshot, and fails exactly when one of the
    reads of the scan raises. *)
Lemma field_info_readable element :
  readable element = true -> field_info_of element = ok (snapshot element).
Proof.
  intros H. unfold field_info_of.
  rewrite !(reads_attribute _ _ _ H) by (unfold scanned_attributes; set_solver).
  reflexivity.
Qed.

Lemma field_info_unreadable element :
  readable element = false -> exists e, field_info_of element = raise e.
Proof.
  unfold readable, reads, scanned_attributes, field_info_of, get_attribute.
  cbn [forallb]. unfold ok, raise, ebind.
  destruct (read_error element (ReadAttribute "name")); [eauto|].
  destruct (read_error element (ReadAttribute "type")); [eauto|].
  destruct (read_error element (ReadAttribute "required")); [eauto|].
  destruct (read_error element (ReadAttribute "placeholder")); [eauto|].
  discriminate.
Qed.

Lemma field_info_snapshot element field :
  field_info_of element = ok field -> readable element = true /\ field = snapshot element.
Proof.
  intros H. destruct (readable element) eqn:Hr.
  - rewrite (field_info_readable _ Hr) in H. injection H as <-. split; reflexivity.
  - destruct (field_info_unreadable _ Hr) as [e He]. rewrite He in H. discriminate.
Qed.

Lemma field_info_scanned element field :
  field_info_of element = ok field -> scanned_field field.
Proof.
  intros H. apply field_info_snapshot in H as [_ ->]. apply snapshot_scanned.
Qed.

Lemma scan_controls_readable controls :
  scan_controls controls = map snapshot (List.filter readable controls).
Proof.
  induction controls as [|c controls IH]; [reflexivity|].
  cbn [scan_controls List.filter]. destruct (readable c) eqn:Hr.
  - rewrite (field_info_readable _ Hr). unfold ok. cbn [map]. rewrite IH. reflexivity.
  - destruct (field_info_unreadable _ Hr) as [e ->]. exact IH.
Qed.

Section Execution.
Context {W : Type} {env : Env W}.
Local Open Scope flow_scope.

Ltac run_step := cbv beta iota delta [ok raise mreturn mraise lift fst snd].

(** X8.  Scanning the form never raises.  When the query for the controls
    fails the result is empty; otherwise there is one field for every
    control whose name, type, required flag and placeholder can be read,
    in the order of the page: a control on which one of these reads
    raises is left out, while a failure in building the selector does not
    leave the control out.  Every field has the five keys with an
    attribute text or [None] as name, type and placeholder, a boolean as
    required flag and a text as selector: no later access to a key of a
    scanned field can fail. *)
Theorem scan_yields_complete_fields (st : St W) :
  exists fields,
    snd (_get_form_fields st) = ok fields /\
    Forall scanned_field fields /\
    (forall w e,
        env_elements "input, select, textarea" (world st) = (w, raise e) ->
        fields = nil) /\
    (forall w controls,
        env_elements "input, select, textarea" (world st) = (w, ok controls) ->
        fields = map snapshot (List.filter readable controls)).
Proof.
  unfold _get_form_fields, mtry, mthen, query_selector_all.
  destruct (env_elements "input, select, textarea" (world st)) as [w [e|controls]];
    run_step.
  - exists nil. repeat split; [constructor | discriminate].
  - exists (map snapshot (List.filter readable controls)). repeat split.
    + rewrite scan_controls_readable. reflexivity.
    + apply Forall_forall. intros f Hf. apply list_elem_of_In, in_map_iff in Hf.
      destruct Hf as (el & <- & _). apply snapshot_scanned.
    + discriminate.
    + intros w' c' [= _ <-]. reflexivity.
Qed.

Lemma on_selector_outcome sel (call : string -> Call) (st : St W) :
  exists w,
    (exists e, on_selector (VStr sel) call st
               = (log_event (call sel) (Raised e) w st, raise e))
    \/ on_selector (VStr sel) call st = (log_event (call sel) Returned w st, ok tt).
Proof.
  unfold on_selector, mthen, lift. cbn [as_str]. run_step.
  apply do_call_outcome.
Qed.

(** X9.  A control without type attribute, as a textarea or a select
    element is, is never filled: [_fill_field] returns [False] for the
    field the scan makes of it without any call to the page, whatever the
    decision says. *)
Theorem typeless_control_is_never_filled element field analysis (st : St W) :
  field_info_of element = ok field ->
  attributes element !! "type" = None ->
  _fill_field field analysis st = (st, ok false).
Proof.
  intros Hfield Ht. apply field_info_snapshot in Hfield as [_ ->].
  assert (Hname : getitem (snapshot element) "name"
                  = ok (attribute_value element "name")) by reflexivity.
  assert (Hsel : getitem (snapshot element) "selector"
                 = ok (VStr (_generate_selector element))) by reflexivity.
  assert (Htype : dict_get (snapshot element) "type" (VStr "") = VNone).
  { change (dict_get (snapshot element) "type" (VStr ""))
      with (attribute_value element "type").
    unfold attribute_value. rewrite Ht. reflexivity. }
  unfold _fill_field, mtry, mthen, lift.
  destruct (contains "VALUE:" analysis); cbn [negb].
  - destruct (analysis_value analysis) as [value|]; run_step;
      rewrite ?Hsel, ?Htype, ?Hname; run_step; rewrite ?Hname; reflexivity.
  - rewrite Hname. reflexivity.
Qed.

Lemma mthen_lift_ok {A B} (v : A) (k : A -> M W B) : mthen (lift (ok v)) k = k v.
Proof. reflexivity. Qed.

Lemma mthen_lift_raise {A B} e (k : A -> M W B) : mthen (lift (raise e)) k = mraise e.
Proof. reflexivity. Qed.

Lemma single_call_on_selector sel call : single_call (on_selector (VStr sel) call).
Proof.
  intros st. right. exists (call sel).
  destruct (on_selector_outcome sel call st) as [w [[e He] | He]];
    exists w; [right; exists e; exact He | left; exact He].
Qed.

Lemma single_call_nothing : single_call (@mreturn W unit tt).
Proof. intros st. left. reflexivity. Qed.

(** The guarded action at the end of [_fill_field]. *)
Lemma guarded_action (act : M W unit) (field : gmap string PyVal) n (st : St W) :
  single_call act ->
  getitem field "name" = ok n ->
  exists new filled,
    mtry (run! act; do! _n <- lift (getitem field "name"); mreturn true)
         (fun _ => do! _n <- lift (getitem field "name"); mreturn false) st
    = (fst (act st), ok filled) /\
    trace (fst (act st)) = (trace st ++ new)%list /\
    (new = nil /\ filled = true \/
     exists call outcome,
       new = (call, outcome) :: nil /\ (filled = true <-> outcome = Returned)).
Proof.
  intros Hact Hname. unfold mtry, mthen. rewrite Hname.
  destruct (Hact st) as [-> | (call & w & [-> | [e ->]])]; run_step.
  - exists nil, true. rewrite app_nil_r. auto.
  - exists ((call, Returned) :: nil), true. repeat split.
    right. eexists _, _. split; [reflexivity|]. split; reflexivity.
  - exists ((call, Raised e) :: nil), false. repeat split.
    right. eexists _, _. split; [reflexivity|]. split; discriminate.
Qed.

(** X10.  On a scanned field [_fill_field] never raises and calls the page
    at most once: a failed call is not repeated.  After a call it returns
    [True] exactly when the call returned; when the decision carries no
    value it returns [False] without touching the page. *)
Theorem fill_calls_the_page_at_most_once field analysis (st : St W) :
  scanned_field field ->
  exists new filled,
    snd (_fill_field field analysis st) = ok filled /\
    trace (fst (_fill_field field analysis st)) = (trace st ++ new)%list /\
    (new = nil \/
     exists call outcome,
       new = (call, outcome) :: nil /\ (filled = true <-> outcome = Returned)) /\
    (contains "VALUE:" analysis = false -> filled = false /\ new = nil).
Proof.
  intros (Hn & Ht & _ & _ & [sel Hs]).
  assert (Hname : exists n, getitem field "name" = ok n).
  { unfold getitem. destruct Hn as [-> | [s ->]]; eauto. }
  destruct Hname as [n Hname].
  assert (Hsel : getitem field "selector" = ok (VStr sel)).
  { unfold getitem. rewrite Hs. reflexivity. }
  assert (Hfail : forall e,
             mtry (@mraise W bool e)
                  (fun _ => do! _n <- lift (getitem field "name"); mreturn false) st
             = (st, ok false)).
  { intros e. unfold mtry, mthen. rewrite Hname. reflexivity. }
  unfold _fill_field.
  destruct (contains "VALUE:" analysis) eqn:Hv; cbn [negb].
  2:{ rewrite Hname, mthen_lift_ok. exists nil, false. rewrite app_nil_r.
      repeat split; auto. }
  destruct (analysis_value analysis) as [value|].
  2:{ rewrite mthen_lift_raise, Hfail. exists nil, false. rewrite app_nil_r.
      repeat split; auto; discriminate. }
  rewrite mthen_lift_ok, Hsel, mthen_lift_ok.
  destruct (py_lower (dict_get field "type" (VStr ""))) as [e|ty].
  { rewrite mthen_lift_raise, Hfail. exists nil, false. rewrite app_nil_r.
    repeat split; auto; discriminate. }
  rewrite mthen_lift_ok.
  match goal with
  | |- context [mtry (mthen ?a _) _ st] =>
      destruct (guarded_action a field n st) as (new & filled & -> & Htr & Hnew)
  end.
  { destruct (String.eqb ty "select"); [apply single_call_on_selector|].
    destruct (String.eqb ty "checkbox").
    { destruct (existsb _ _);
        [apply single_call_on_selector | apply single_call_nothing]. }
    destruct (String.eqb ty "radio"); apply single_call_on_selector. }
  { exact Hname. }
  exists new, filled. split; [reflexivity|]. split; [exact Htr|]. split.
  - destruct Hnew as [[-> _] | Hnew]; [left; reflexivity | right; exact Hnew].
  - discriminate.
Qed.

(** X11.  A checkbox is checked only for the values "true", "yes" and "1"
    (in any letter case); for every other value [_fill_field] leaves the
    page alone and still returns [True]. *)
Theorem unchecked_checkbox_counts_as_filled field analysis value ty (st : St W) :
  scanned_field field ->
  field !! "type" = Some (VStr ty) ->
  lower ty = "checkbox" ->
  analysis_value analysis = Some value ->
  existsb (String.eqb (lower value)) ("true" :: "yes" :: "1" :: nil) = false ->
  _fill_field field analysis st = (st, ok true).
Proof.
  intros (Hn & _ & _ & _ & [sel Hs]) Hty Hl Hv Hno.
  assert (Hname : exists n, getitem field "name" = ok n).
  { unfold getitem. destruct Hn as [-> | [s ->]]; eauto. }
  destruct Hname as [n Hname].
  assert (Hc : contains "VALUE:" analysis = true).
  { unfold analysis_value in Hv. destruct (contains "VALUE:" analysis);
      [reflexivity | discriminate]. }
  unfold _fill_field. rewrite Hc, Hv. cbn [negb].
  rewrite mthen_lift_ok. unfold getitem at 1. rewrite Hs, mthen_lift_ok.
  unfold dict_get. rewrite Hty. cbn [default from_option id py_lower].
  rewrite mthen_lift_ok, Hl, Hno. cbn [String.eqb Ascii.eqb Bool.eqb].
  unfold mtry, mthen. rewrite Hname. reflexivity.
Qed.

End Execution.


(** ** Uploads *)

Section Uploads.
Context {W : Type} {env : Env W}.
Local Open Scope flow_scope.

Ltac run_step := cbv beta iota delta [ok raise mreturn mraise lift fst snd].

Lemma try_upload_returns file_path selectors file_type (st : St W) :
  exists st' uploaded,
    _try_upload_file file_path selectors file_type st = (st', ok uploaded) /\
    exists new, trace st' = (trace st ++ new)%list.
Proof.
  revert st. induction selectors as [|selector rest IH]; intros st.
  - eexists _, _. split; [reflexivity|]. exists nil. symmetry. apply app_nil_r.
  - cbn [_try_upload_file]. unfold mthen.
    destruct (upload_attempt_outcome file_path selector st)
      as (evs & Htr & _ & [[Hr _] | [Hr _]]);
      destruct (upload_attempt file_path selector st) as [st1 r];
      cbn [fst snd] in *; subst r; run_step.
    + eexists _, _. split; [reflexivity|]. exists evs. exact Htr.
    + destruct (IH st1) as (st' & u & Hrun & new & Hnew).
      exists st', u. split; [exact Hrun|]. exists (evs ++ new)%list.
      rewrite Hnew, Htr, <- app_assoc. reflexivity.
Qed.

(** A run of the upload loop on a non-empty list starts by looking its
    first selector up. *)
Lemma try_upload_starts file_path selector rest file_type (st : St W) :
  exists outcome more,
    trace (fst (_try_upload_file file_path (selector :: rest) file_type st))
    = (trace st ++ (Locate selector, outcome) :: more)%list.
Proof.
  cbn [_try_upload_file]. unfold mthen.
  destruct (upload_attempt_outcome file_path selector st)
    as (evs & Htr & _ & Hcase).
  assert (Hhead : exists outcome more, evs = (Locate selector, outcome) :: more).
  { destruct Hcase as [[_ [n ->]] | [_ Hf]]; [eauto|].
    destruct Hf; eauto. }
  destruct Hhead as (outcome & more & ->).
  destruct (upload_attempt file_path selector st) as [st1 [e|[]]]; cbn [fst] in *.
  - eauto.
  - run_step. eauto.
  - destruct (try_upload_returns file_path rest file_type st1)
      as (st' & u & Hrun & new & Hnew). rewrite Hrun. cbn [fst].
    exists outcome, (more ++ new)%list. rewrite Hnew, Htr, <- app_assoc. reflexivity.
Qed.

(** X12.  [_upload_documents] never raises and always runs both uploads,
    the cover letter after the resume whether or not the resume went
    through: its events are those of the resume upload followed by those
    of a cover-letter upload that starts with the lookup of
    [input[name='cover_letter']]; it returns [True] when one of the two
    succeeded. *)
Theorem upload_documents_runs_both self (st : St W) :
  exists st1 st2 resume_uploaded cover_letter_uploaded outcome more,
    _upload_resume self st = (st1, ok resume_uploaded) /\
    _upload_cover_letter self st1 = (st2, ok cover_letter_uploaded) /\
    _upload_documents self st
    = (st2, ok (resume_uploaded || cover_letter_uploaded)%bool) /\
    trace st2
    = (trace st1 ++ (Locate "input[name='cover_letter']", outcome) :: more)%list.
Proof.
  destruct (try_upload_returns (resume_path self) resume_selectors "resume" st)
    as (st1 & r1 & Hr1 & _).
  destruct (try_upload_returns (cover_letter_path self) cover_letter_selectors
              "cover letter" st1) as (st2 & r2 & Hr2 & _).
  destruct (try_upload_starts (cover_letter_path self) "input[name='cover_letter']"
              (tl cover_letter_selectors) "cover letter" st1)
    as (outcome & more & Hstart).
  change ("input[name='cover_letter']" :: tl cover_letter_selectors)
    with cover_letter_selectors in Hstart.
  rewrite Hr2 in Hstart. cbn [fst] in Hstart.
  exists st1, st2, r1, r2, outcome, more.
  unfold _upload_documents, _upload_resume, _upload_cover_letter, mthen.
  rewrite Hr1, Hr2. repeat split. exact Hstart.
Qed.

End Uploads.

(** ** The resume check on the scanned form *)

Lemma scanned_upload_check self field :
  scanned_field field ->
  (if py_eq (dict_get field "type" VNone) (VStr "file") then
     let! l1 := py_lower (name_or_empty field) in
     if contains "resume" l1 then ok true
     else let! l2 := py_lower (name_or_empty field) in ok (contains "cv" l2)
   else ok false)
  = ok (classified_upload self field).
Proof.
  intros (Hn & Ht & _).
  unfold classified_upload.
  destruct Ht as [Ht | [t Ht]].
  - assert (Hft : field_type field = VNone) by (unfold field_type, dict_get; rewrite Ht; reflexivity).
    unfold dict_get at 1. rewrite Ht. cbn [default from_option id py_eq].
    rewrite analyze_plain_field by (rewrite Hft; discriminate).
    destruct (is_required field), (resolvable self field); reflexivity.
  - assert (Hft : field_type field = VStr t) by (unfold field_type, dict_get; rewrite Ht; reflexivity).
    unfold dict_get at 1. rewrite Ht. cbn [default from_option id py_eq].
    destruct (String.eqb t "file") eqn:Hfile.
    + apply String.eqb_eq in Hfile. subst t.
      rewrite (analyze_file_field _ _ Hft).
      unfold name_or_empty, field_name, dict_get.
      destruct Hn as [-> | [s ->]]; cbn [default from_option id truthy py_lower ebind ok].
      * reflexivity.
      * destruct s as [|c s]; [reflexivity|].
        cbn [String.eqb negb py_lower ebind ok].
        destruct (contains "resume" (lower (String c s))); [reflexivity|].
        destruct (contains "cv" (lower (String c s))); reflexivity.
    + destruct (decide (t = "hidden")) as [-> | Hh].
      * rewrite (analyze_hidden_field _ _ Hft). reflexivity.
      * rewrite analyze_plain_field.
        -- destruct (is_required field), (resolvable self field); reflexivity.
        -- rewrite Hft. congruence.
        -- rewrite Hft. intros [= ->]. discriminate.
Qed.

(** X13.  On the fields of a scanned form [_should_upload_resume] does not
    raise and agrees with the classifier: it answers [True] exactly when
    some field is classified as the upload of the resume.  A file input
    without name counts for neither. *)
Theorem resume_check_agrees_with_classifier self fields :
  Forall scanned_field fields ->
  _should_upload_resume fields = ok (existsb (classified_upload self) fields).
Proof.
  induction 1 as [|field rest Hf _ IH]; [reflexivity|].
  cbn [_should_upload_resume existsb].
  rewrite (scanned_upload_check self field Hf). cbn [ebind ok].
  destruct (classified_upload self field); [reflexivity | exact IH].
Qed.

Lemma resume_check_agrees_with_classifier_witness :
  _should_upload_resume
    (snapshot (Samples.control "INPUT" (("type", "file") :: nil))
     :: snapshot (Samples.control "INPUT" (("type", "file") :: ("name", "CV") :: nil))
     :: nil)
  = ok true.
Proof.
  rewrite (resume_check_agrees_with_classifier Sim.ada).
  - reflexivity.
  - constructor; [apply snapshot_scanned|].
    constructor; [apply snapshot_scanned|]. constructor.
Defined.

(** ** Detection of a challenge *)

Section Detection.
Context {W : Type} {env : Env W}.
Local Open Scope flow_scope.

Ltac run_step := cbv beta iota delta [ok raise mreturn mraise lift fst snd].

Lemma manual_captcha_result (st : St W) :
  exists st' solved new,
    AntiBotHandler._handle_manual_captcha st = (st', ok solved) /\
    trace st' = (trace st ++ new)%list /\
    (solved = true -> exists line, new = resolved_by_operator line).
Proof.
  unfold AntiBotHandler._handle_manual_captcha, mtry, mthen.
  destruct (do_call_outcome (Screenshot "captcha.png") st) as [w1 [[e ->] | ->]];
    run_step.
  { eexists _, false, _. split; [reflexivity|].
    split; [apply trace_log_event | discriminate]. }
  set (st1 := log_event (Screenshot "captcha.png") Returned w1 st).
  destruct (input_outcome AntiBotHandler.MANUAL_PROMPT st1)
    as [w2 [[e ->] | [line ->]]]; run_step.
  { eexists _, false, _. split; [reflexivity|]. split; [|discriminate].
    rewrite trace_log_event. subst st1. rewrite trace_log_event, <- app_assoc.
    reflexivity. }
  set (st2 := log_event (Input AntiBotHandler.MANUAL_PROMPT) (Entered line) w2 st1).
  destruct (do_call_outcome (WaitForTimeout 2000) st2) as [w3 [[e ->] | ->]];
    run_step.
  { eexists _, false, _. split; [reflexivity|]. split; [|discriminate].
    rewrite trace_log_event. subst st2. rewrite trace_log_event. subst st1.
    rewrite trace_log_event, <- !app_assoc. reflexivity. }
  set (st3 := log_event (WaitForTimeout 2000) Returned w3 st2).
  assert (Htr : forall o w4,
             trace (log_event (Locate AntiBotHandler.GENERIC_MARKER) o w4 st3)
             = (trace st ++ (Screenshot "captcha.png", Returned)
                  :: (Input AntiBotHandler.MANUAL_PROMPT, Entered line)
                  :: (WaitForTimeout 2000, Returned)
                  :: (Locate AntiBotHandler.GENERIC_MARKER, o) :: nil)%list).
  { intros o w4. rewrite trace_log_event. subst st3. rewrite trace_log_event.
    subst st2. rewrite trace_log_event. subst st1.
    rewrite trace_log_event, <- !app_assoc. reflexivity. }
  destruct (locator_count_outcome AntiBotHandler.GENERIC_MARKER st3)
    as [w4 [[e [_ ->]] | [n [_ ->]]]]; run_step.
  { eexists _, false, _. split; [reflexivity|]. split; [apply Htr | discriminate]. }
  destruct n as [|n]; cbn [Nat.ltb Nat.leb]; run_step.
  - eexists _, true, _. split; [reflexivity|]. split; [apply Htr|].
    intros _. exists line. reflexivity.
  - eexists _, false, _. split; [reflexivity|]. split; [apply Htr | discriminate].
Qed.

(** Where a scan of selectors ends with [True]: at a selector that
    resolved and was resolved by the operator, after fruitless lookups of
    the selectors before it, or in what follows the scan, after fruitless
    lookups of all of them. *)
Lemma scan_selectors_true selectors next (st st' : St W) :
  AntiBotHandler.scan_selectors selectors next st = (st', ok true) ->
  (exists k selector n line,
      selectors !! k = Some selector /\
      trace st' = (trace st ++ unresolved (take k selectors)
                     ++ (Locate selector, Counted (S n)) :: resolved_by_operator line)%list)
  \/
  (exists st1,
      trace st1 = (trace st ++ unresolved selectors)%list /\
      next st1 = (st', ok true)).
Proof.
  revert st. induction selectors as [|selector rest IH]; intros st Hrun.
  - right. exists st. split; [symmetry; apply app_nil_r | exact Hrun].
  - cbn [AntiBotHandler.scan_selectors] in Hrun. unfold mthen in Hrun.
    destruct (locator_count_outcome selector st) as [w [[e [_ He]] | [n [_ Hn]]]].
    { rewrite He in Hrun. discriminate. }
    rewrite Hn in Hrun. revert Hrun. run_step.
    destruct n as [|n]; cbn [Nat.ltb Nat.leb].
    + intros Hrun. apply IH in Hrun.
      destruct Hrun as [(k & s & m & line & Hk & Htr) | (st1 & Htr & Hnext)].
      * left. exists (S k), s, m, line. split; [exact Hk|].
        rewrite Htr, trace_log_event, <- app_assoc. reflexivity.
      * right. exists st1. split; [|exact Hnext].
        rewrite Htr, trace_log_event, <- app_assoc. reflexivity.
    + intros Hrun.
      destruct (manual_captcha_result
                  (log_event (Locate selector) (Counted (S n)) w st))
        as (st2 & solved & new & Hm & Htr & Hsolved).
      rewrite Hm in Hrun. injection Hrun as -> ->.
      destruct (Hsolved eq_refl) as [line ->].
      left. exists 0%nat, selector, n, line. split; [reflexivity|].
      rewrite Htr, trace_log_event, <- app_assoc. reflexivity.
Qed.

Lemma scan_types_true table (st st' : St W) :
  AntiBotHandler.scan_types table st = (st', ok true) ->
  exists k selector n line,
    concat (map snd table) !! k = Some selector /\
    trace st' = (trace st ++ unresolved (take k (concat (map snd table)))
                   ++ (Locate selector, Counted (S n)) :: resolved_by_operator line)%list.
Proof.
  revert st. induction table as [|[kind selectors] rest IH]; intros st Hrun.
  - discriminate.
  - cbn [AntiBotHandler.scan_types] in Hrun.
    apply scan_selectors_true in Hrun.
    cbn [map snd concat].
    destruct Hrun as [(k & s & n & line & Hk & Htr) | (st1 & Htr & Hnext)].
    + exists k, s, n, line.
      assert (Hlt : (k < length selectors)%nat) by (eapply lookup_lt_Some; exact Hk).
      split; [rewrite lookup_app_l; assumption|].
      rewrite take_app_le by lia. exact Htr.
    + apply IH in Hnext. destruct Hnext as (k & s & n & line & Hk & Htr').
      exists (length selectors + k)%nat, s, n, line. split.
      * rewrite lookup_app_r by lia.
        replace (length selectors + k - length selectors)%nat with k by lia.
        exact Hk.
      * rewrite take_app_ge by lia.
        replace (length selectors + k - length selectors)%nat with k by lia.
        rewrite Htr', Htr. unfold unresolved. rewrite map_app, <- !app_assoc.
        reflexivity.
Qed.

(** X14.  [handle_captcha] never raises, and it answers [True] only after
    a complete manual resolution: a selector of the marker table resolved
    after fruitless lookups of the selectors before it, in the order of the
    table, the screenshot was taken, the operator gave the signal, the
    settle wait went through and the re-scan found no marker.  No selector
    after the one that resolved is looked up. *)
Theorem captcha_cleared_only_by_operator (st : St W) :
  (exists solved, snd (AntiBotHandler.handle_captcha st) = ok solved) /\
  (snd (AntiBotHandler.handle_captcha st) = ok true ->
   exists k selector n line,
     marker_selectors !! k = Some selector /\
     trace (fst (AntiBotHandler.handle_captcha st))
     = (trace st ++ unresolved (take k marker_selectors)
          ++ (Locate selector, Counted (S n)) :: resolved_by_operator line)%list).
Proof.
  unfold AntiBotHandler.handle_captcha, mtry.
  destruct (AntiBotHandler.scan_types AntiBotHandler.captcha_selectors st)
    as [st' [e|solved]] eqn:Hrun; run_step.
  - split; [eauto | discriminate].
  - split; [eauto|]. intros [= ->]. apply scan_types_true in Hrun. exact Hrun.
Qed.

End Detection.

Lemma captcha_cleared_only_by_operator_witness :
  trace (fst (AntiBotHandler.handle_captcha
                (Sim.start (Sim.page ((".h-captcha", 1%nat) :: nil) nil))))
  = (Locate "iframe[title*='checkbox']", Counted 0)
    :: (Locate "#h-captcha", Counted 0)
    :: (Locate ".h-captcha", Counted 1)
    :: resolved_by_operator EmptyString.
Proof.
  destruct (captcha_cleared_only_by_operator
              (Sim.start (Sim.page ((".h-captcha", 1%nat) :: nil) nil)))
    as [_ H].
  destruct H as (k & selector & n & line & Hk & Htr); [reflexivity|].
  vm_compute. reflexivity.
Defined.

(** ** The properties of scanning and filling on the simulated world *)

Lemma scan_yields_complete_fields_witness :
  snd (_get_form_fields
         (Sim.start (Sim.page nil
            (Samples.control "TEXTAREA" (("name", "comments") :: nil)
             :: Samples.unreadable "INPUT" (("name", "email") :: nil)
             :: Samples.detached "SELECT" (("type", "select-one") :: nil) :: nil))))
  = ok (snapshot (Samples.control "TEXTAREA" (("name", "comments") :: nil))
        :: snapshot (Samples.detached "SELECT" (("type", "select-one") :: nil)) :: nil).
Proof.
  destruct (scan_yields_complete_fields
              (Sim.start (Sim.page nil
                 (Samples.control "TEXTAREA" (("name", "comments") :: nil)
                  :: Samples.unreadable "INPUT" (("name", "email") :: nil)
                  :: Samples.detached "SELECT" (("type", "select-one") :: nil) :: nil))))
    as (fields & Hrun & _ & _ & Hmap).
  rewrite Hrun. f_equal.
  apply (Hmap (Sim.page nil
                 (Samples.control "TEXTAREA" (("name", "comments") :: nil)
                  :: Samples.unreadable "INPUT" (("name", "email") :: nil)
                  :: Samples.detached "SELECT" (("type", "select-one") :: nil) :: nil))
              (Samples.control "TEXTAREA" (("name", "comments") :: nil)
               :: Samples.unreadable "INPUT" (("name", "email") :: nil)
               :: Samples.detached "SELECT" (("type", "select-one") :: nil) :: nil)).
  reflexivity.
Defined.

Lemma typeless_control_is_never_filled_witness :
  snd (_fill_field
         (snapshot (Samples.control "TEXTAREA" (("name", "comments") :: nil)))
         (OPTIONAL_FILL (VStr "Hello")) (Sim.start (Sim.page nil nil)))
  = ok false.
Proof.
  rewrite (typeless_control_is_never_filled
             (Samples.control "TEXTAREA" (("name", "comments") :: nil))).
  - reflexivity.
  - reflexivity.
  - reflexivity.
Defined.

Lemma fill_calls_the_page_at_most_once_witness :
  exists (new : list Event) filled,
    snd (_fill_field
           (snapshot (Samples.control "INPUT"
                             (("name", "email") :: ("type", "email") :: nil)))
           (OPTIONAL_FILL (VStr "grace@example.org")) (Sim.start (Sim.page nil nil)))
    = ok filled /\
    (length new <= 1)%nat.
Proof.
  destruct (fill_calls_the_page_at_most_once
              (snapshot (Samples.control "INPUT"
                                (("name", "email") :: ("type", "email") :: nil)))
              (OPTIONAL_FILL (VStr "grace@example.org")) (Sim.start (Sim.page nil nil)))
    as (new & filled & Hrun & _ & Hnew & _); [apply snapshot_scanned|].
  exists new, filled. split; [exact Hrun|].
  destruct Hnew as [-> | (c & o & -> & _)]; cbn; lia.
Defined.

Lemma unchecked_checkbox_counts_as_filled_witness :
  _fill_field
    (snapshot (Samples.control "INPUT"
                      (("name", "newsletter_name") :: ("type", "checkbox") :: nil)))
    (OPTIONAL_FILL (VStr "Ada Lovelace")) (Sim.start (Sim.page nil nil))
  = (Sim.start (Sim.page nil nil), ok true).
Proof.
  apply (unchecked_checkbox_counts_as_filled
           (snapshot (Samples.control "INPUT"
                             (("name", "newsletter_name") :: ("type", "checkbox") :: nil)))
           (OPTIONAL_FILL (VStr "Ada Lovelace")) "Ada Lovelace" "checkbox");
    [apply snapshot_scanned | reflexivity | reflexivity | reflexivity | reflexivity].
Defined.

(** ** The reason read back from a decision *)

Lemma startswith_across sep q c t :
  occurs c sep = false ->
  startswith sep (q ++ String c t) = startswith sep q.
Proof.
  revert q. induction sep as [|a sep IH]; intros q Hc; [reflexivity|].
  cbn [occurs] in Hc. apply orb_false_elim in Hc. destruct Hc as [Hac Hc].
  destruct q as [|b q].
  - cbn [String.append startswith]. change ("" ++ String c t) with (String c t).
    cbn [startswith]. rewrite Hac. reflexivity.
  - change (String b q ++ String c t) with (String b (q ++ String c t)).
    cbn [startswith]. destruct (Ascii.eqb a b); [apply IH; exact Hc | reflexivity].
Qed.

Lemma cut_across sep p c t :
  occurs c sep = false ->
  contains sep p = false ->
  cut sep (p ++ String c t)
  = match cut sep (String c t) with
    | Some (a, b) => Some (p ++ a, b)
    | None => None
    end.
Proof.
  intros Hc. remember (cut sep (String c t)) as r eqn:Hr.
  induction p as [|d p IH]; intros Hp.
  - change ("" ++ String c t) with (String c t).
    rewrite <- Hr. destruct r as [[a b]|]; reflexivity.
  - apply contains_cons_false in Hp. destruct Hp as [Hs Hp].
    change (String d p ++ String c t) with (String d (p ++ String c t)).
    cbn [cut].
    change (String d (p ++ String c t)) with (String d p ++ String c t).
    rewrite (startswith_across _ _ _ _ Hc), Hs.
    rewrite (IH Hp). destruct r as [[a b]|]; reflexivity.
Qed.

Lemma cut_found sep s r : cut sep s = Some r -> contains sep s = true.
Proof.
  revert r. induction s as [|c s IH]; intros r; cbn [cut contains].
  - destruct (startswith sep ""); [reflexivity | discriminate].
  - destruct (startswith sep (String c s)); [reflexivity|].
    destruct (cut sep s) as [[a b]|]; [|discriminate]. intros _. eapply IH. reflexivity.
Qed.

Lemma first_line_whole s : contains nl s = false -> split_0 nl s = s.
Proof.
  induction s as [|c s IH]; intros H; [reflexivity|].
  apply contains_cons_false in H. destruct H as [Hc H].
  rewrite split_0_cons, Hc, (IH H). reflexivity.
Qed.

Lemma reason_after_value s reason :
  contains "REASON:" s = false ->
  contains "REASON:" reason = false ->
  analysis_reason ("ACTION: FILL" ++ nl ++ "VALUE: " ++ s ++ nl ++ "REASON:" ++ reason)
  = Some (strip reason).
Proof.
  intros Hs Hr.
  assert (Htail : cut "REASON:" (s ++ String "010" ("REASON:" ++ reason))
                  = Some (s ++ nl, reason)).
  { rewrite (cut_across "REASON:" s "010" _ eq_refl Hs). reflexivity. }
  assert (Hcut : cut "REASON:"
                   ("ACTION: FILL" ++ nl ++ "VALUE: " ++ s ++ nl ++ "REASON:" ++ reason)
                 = Some ("ACTION: FILL" ++ nl ++ "VALUE: " ++ s ++ nl, reason)).
  { change ("ACTION: FILL" ++ nl ++ "VALUE: " ++ s ++ nl ++ "REASON:" ++ reason)
      with (String "A" (String "C" (String "T" (String "I" (String "O" (String "N"
           (String ":" (String " " (String "F" (String "I" (String "L" (String "L"
           (String "010" (String "V" (String "A" (String "L" (String "U" (String "E"
           (String ":" (String " "
              (s ++ String "010" ("REASON:" ++ reason)))))))))))))))))))))).
    cbn [cut startswith Ascii.eqb Bool.eqb]. rewrite Htail. reflexivity. }
  unfold analysis_reason, split_1.
  rewrite (cut_found _ _ _ Hcut), Hcut.
  unfold split_0.
  destruct (cut "REASON:" reason) as [[a b]|] eqn:Hc; [|reflexivity].
  apply cut_found in Hc. congruence.
Qed.

(** X15.  [log_field_analysis] reads a FILL decision back as it was made:
    when the text of the profile value has no line break in it and contains
    neither "VALUE:" nor "REASON:", the action it logs is FILL, the value is
    the stripped text of the profile value and the reason is the reason the
    classifier gave. *)
Theorem logged_fill_decision_is_faithful self field :
  field_type field <> VStr "hidden" ->
  field_type field <> VStr "file" ->
  resolvable self field = true ->
  contains nl (py_str (profile_value self field)) = false ->
  contains "VALUE:" (py_str (profile_value self field)) = false ->
  contains "REASON:" (py_str (profile_value self field)) = false ->
  exists analysis,
    _analyze_field self field = ok analysis /\
    analysis_action analysis = Some "FILL" /\
    analysis_value analysis = Some (strip (py_str (profile_value self field))) /\
    analysis_reason analysis
    = Some (if is_required field then "Required field" else "Optional field with data").
Proof.
  intros Hh Hf Hv Hnl Hval Hre. rewrite (analyze_plain_field _ _ Hh Hf), Hv.
  assert (Hline : split_0 nl (py_str (profile_value self field))
                  = py_str (profile_value self field)) by (apply first_line_whole; exact Hnl).
  assert (Hact : forall t, analysis_action ("ACTION: FILL" ++ nl ++ t) = Some "FILL").
  { intros t. pose proof (fill_action t) as H. unfold decision_action in H.
    unfold nl. rewrite !app_cons, !app_nil.
    unfold analysis_action, split_1, split_0. cbn.
    destruct (cut "ACTION:" t) as [[a b]|]; reflexivity. }
  destruct (is_required field); eexists; (split; [reflexivity|]);
    (split; [apply Hact|]);
    (split; [etransitivity;
               [apply value_after_marker; rewrite Hline; exact Hval
               | rewrite Hline; reflexivity]|]).
  - apply (reason_after_value _ " Required field" Hre). reflexivity.
  - apply (reason_after_value _ " Optional field with data" Hre). reflexivity.
Qed.

Lemma logged_fill_decision_is_faithful_witness :
  exists analysis,
    _analyze_field Sim.ada (Sim.field (VStr "full_name") (VStr "text") false) = ok analysis /\
    analysis_reason analysis = Some "Optional field with data".
Proof.
  destruct (logged_fill_decision_is_faithful Sim.ada
              (Sim.field (VStr "full_name") (VStr "text") false))
    as (a & H1 & _ & _ & H4);
    [vm_compute; discriminate | vm_compute; discriminate
    | reflexivity | reflexivity | reflexivity | reflexivity |].
  exists a. split; [exact H1 | exact H4].
Defined.

(** ** The Lever navigator and analyzer *)

Import LeverConditions.
Import LeverJobAnalyzer.

Lemma endswith_app suffix s : LeverNavigator.endswith suffix (s ++ suffix) = true.
Proof.
  induction s as [|c s IH].
  - change ("" ++ suffix) with suffix. destruct suffix; cbn [LeverNavigator.endswith]; rewrite String.eqb_refl; reflexivity.
  - change (String c s ++ suffix) with (String c (s ++ suffix)).
    cbn [LeverNavigator.endswith]. rewrite IH.
    destruct (String.eqb suffix (String c (s ++ suffix))); reflexivity.
Qed.

Lemma apply_url_fallback urljoin job_url soup :
  has_apply_link soup = false ->
  LeverNavigator._get_apply_url urljoin job_url soup
  = if LeverNavigator.endswith "/apply" job_url then job_url else job_url ++ "/apply".
Proof.
  unfold has_apply_link, LeverNavigator._get_apply_url. intros H.
  destruct (LeverNavigator.select_one soup LeverNavigator.APPLY_BUTTON) as [button|].
  - destruct (LeverNavigator.node_attrs button !! "href") as [[|c href]|]; try discriminate;
      destruct (LeverNavigator.endswith "/apply" job_url); reflexivity.
  - destruct (LeverNavigator.endswith "/apply" job_url); reflexivity.
Qed.

(** X16.  [_get_apply_url] without an apply link: when the first node the
    selector of the apply button finds has no non-empty [href] (or there is
    no such node), the address returned ends with "/apply", and asking again
    for that address on such a page gives it back unchanged. *)
Theorem apply_url_without_link urljoin job_url soup soup' :
  has_apply_link soup = false ->
  has_apply_link soup' = false ->
  let url := LeverNavigator._get_apply_url urljoin job_url soup in
  LeverNavigator.endswith "/apply" url = true
  /\ LeverNavigator._get_apply_url urljoin url soup' = url.
Proof.
  intros H H' url.
  assert (Hend : LeverNavigator.endswith "/apply" url = true).
  { subst url. rewrite (apply_url_fallback _ _ _ H).
    destruct (LeverNavigator.endswith "/apply" job_url) eqn:E; [exact E | apply endswith_app]. }
  split; [exact Hend |].
  rewrite (apply_url_fallback _ _ _ H'), Hend. reflexivity.
Qed.

Lemma lower_all_texts items :
  Forall text_value items ->
  exists l, lower_all items = ok l
    /\ forall s, s ∈ l <-> exists t, VStr t ∈ items /\ s = lower t.
Proof.
  induction 1 as [|v items Hv _ IH].
  - exists nil. split; [reflexivity |]. intros s. split.
    + intros Hs. inversion Hs.
    + intros (t & Ht & _). inversion Ht.
  - destruct IH as (l & Hl & Hmem). destruct v as [| | |t]; try contradiction.
    exists (lower t :: l). split.
    + cbn [lower_all py_lower]. unfold ok, ebind in *. rewrite Hl. reflexivity.
    + intros s. rewrite elem_of_cons, Hmem. split.
      * intros [-> | (u & Hu & ->)].
        -- exists t. split; [left | reflexivity].
        -- exists u. split; [right; exact Hu | reflexivity].
      * intros (u & Hu & ->). apply elem_of_cons in Hu as [[= ->] | Hu].
        -- left. reflexivity.
        -- right. exists u. split; [exact Hu | reflexivity].
Qed.

Lemma collect_skills_texts groups acc :
  Forall text_value (concat (map group_items groups)) ->
  exists set, collect_skills groups acc = ok set
    /\ forall s, s ∈ set <->
         s ∈ acc \/ exists t, VStr t ∈ concat (map group_items groups) /\ s = lower t.
Proof.
  revert acc. induction groups as [|[name g] groups IH]; intros acc Hall.
  - exists acc. split; [reflexivity |]. intros s. split; [tauto |].
    intros [Hs | (t & Ht & _)]; [exact Hs | inversion Ht].
  - cbn [map concat] in Hall. apply Forall_app in Hall as [Hg Hrest].
    destruct g as [items|]; cbn [group_items snd] in Hg.
    + destruct (lower_all_texts items Hg) as (l & Hl & Hmem).
      destruct (IH (acc ∪ list_to_set l) Hrest) as (set & Hset & Hin).
      exists set. split.
      * cbn [collect_skills]. unfold ok, ebind in *. rewrite Hl. exact Hset.
      * intros s. rewrite Hin, elem_of_union, elem_of_list_to_set, Hmem.
        cbn [map concat group_items snd]. split.
        -- intros [[Hs | (t & Ht & ->)] | (t & Ht & ->)].
           ++ left. exact Hs.
           ++ right. exists t. split; [apply elem_of_app; left; exact Ht | reflexivity].
           ++ right. exists t. split; [apply elem_of_app; right; exact Ht | reflexivity].
        -- intros [Hs | (t & Ht & ->)].
           ++ left. left. exact Hs.
           ++ apply elem_of_app in Ht as [Ht | Ht].
              ** left. right. exists t. split; [exact Ht | reflexivity].
              ** right. exists t. split; [exact Ht | reflexivity].
    + destruct (IH acc Hrest) as (set & Hset & Hin).
      exists set. split; [exact Hset |]. intros s. rewrite Hin.
      cbn [map concat group_items snd app]. reflexivity.
Qed.

Lemma match_requirements_texts skills reqs :
  Forall text_value reqs ->
  exists l, match_requirements skills reqs = ok l
    /\ forall s, s ∈ l <->
         s ∈ skills /\ exists r, VStr r ∈ reqs /\ contains s (lower r) = true.
Proof.
  induction 1 as [|v reqs Hv _ IH].
  - exists nil. split; [reflexivity |]. intros s. split.
    + intros Hs. inversion Hs.
    + intros (_ & r & Hr & _). inversion Hr.
  - destruct IH as (l & Hl & Hmem). destruct v as [| | |r]; try contradiction.
    eexists. split.
    + cbn [match_requirements py_lower]. unfold ok, ebind in *. rewrite Hl. reflexivity.
    + intros s. rewrite elem_of_app, Hmem, list_elem_of_In, filter_In, <- list_elem_of_In,
        elem_of_elements. split.
      * intros [[Hs Hc] | (Hs & u & Hu & Hc)].
        -- split; [exact Hs |]. exists r. split; [left | exact Hc].
        -- split; [exact Hs |]. exists u. split; [right; exact Hu | exact Hc].
      * intros (Hs & u & Hu & Hc). apply elem_of_cons in Hu as [[= ->] | Hu].
        -- left. split; assumption.
        -- right. split; [exact Hs |]. exists u. split; assumption.
Qed.

(** X17.  [_find_matching_skills]: when the skills of the list-valued
    groups of the resume and the requirements of the posting are all texts,
    the call returns a list without repetition that holds exactly the
    lower-cased resume skills that occur in the lower-cased text of some
    requirement. *)
Theorem matching_skills_are_the_required_ones resume job_info :
  Forall text_value (listed_skills resume) ->
  Forall text_value (requirements job_info) ->
  exists l, _find_matching_skills resume job_info = ok l
    /\ NoDup l
    /\ forall skill, skill ∈ l <-> resume_skill resume skill /\ required_skill job_info skill.
Proof.
  intros Hskills Hreqs. unfold _find_matching_skills.
  destruct (collect_skills_texts (default nil (resume_skills resume)) ∅ Hskills)
    as (set & Hset & Hin).
  destruct (match_requirements_texts set _ Hreqs) as (l & Hl & Hmem).
  eexists. split; [| split].
  - unfold ok, ebind in *. rewrite Hset, Hl. reflexivity.
  - apply NoDup_elements.
  - intros skill. rewrite elem_of_elements, elem_of_list_to_set, Hmem, Hin.
    unfold resume_skill, required_skill. split.
    + intros ([Hs | Hs] & Hr); [set_solver | split; assumption].
    + intros (Hs & Hr). split; [right; exact Hs | exact Hr].
Qed.

(** X18.  [_generate_skills_paragraph] on a posting that has its analysis:
    it always returns, never failing on the index.  The paragraph is empty
    when no skill matched; otherwise it lists the first three skills and
    names as the additional one the fourth skill when there are more than
    three, and the first skill again when there are at most three. *)
Theorem skills_paragraph_is_always_written job_info a :
  analysis job_info = Some a ->
  exists paragraph, _generate_skills_paragraph job_info = ok paragraph
    /\ (matching_skills a = nil -> paragraph = "")
    /\ (matching_skills a <> nil ->
        exists additional,
          additional ∈ matching_skills a
          /\ ((length (matching_skills a) <= 3)%nat -> head (matching_skills a) = Some additional)
          /\ ((3 < length (matching_skills a))%nat -> matching_skills a !! 3%nat = Some additional)
          /\ paragraph
             = "I bring strong technical skills in " ++ join ", " (firstn 3 (matching_skills a))
               ++ ", which align perfectly with your requirements. Additionally, my experience with "
               ++ additional
               ++ " would allow me to make immediate contributions to your team.").
Proof.
  intros Ha. unfold _generate_skills_paragraph, analysis_skills. rewrite Ha.
  cbn [item]. unfold ok, ebind. destruct (matching_skills a) as [|s0 l] eqn:Hl.
  - exists "". repeat split; congruence.
  - destruct (3 <? length (s0 :: l))%nat eqn:Hlen.
    + apply Nat.ltb_lt in Hlen.
      destruct ((s0 :: l) !! 3%nat) as [s|] eqn:Hs.
      * eexists. split; [reflexivity |]. split; [discriminate |]. intros _.
        exists s. repeat split.
        -- eapply list_elem_of_lookup_2. exact Hs.
        -- lia.
      * apply lookup_ge_None in Hs. lia.
    + apply Nat.ltb_ge in Hlen. cbn [first_item]. unfold ok.
      eexists. split; [reflexivity |]. split; [discriminate |]. intros _.
      exists s0. repeat split.
      * left.
      * lia.
Qed.

(** X19.  [_generate_experience_paragraph] on a non-empty list never
    returns a paragraph.  It raises a KeyError for the first of the keys
    title, company and key_achievement, in this order, that the first entry
    lacks; only when the entry has all three does it raise the NameError
    for [job_info], which is neither a parameter nor a name of the
    module. *)
Theorem experience_paragraph_never_names_the_employer global_job_info exp rest :
  _generate_experience_paragraph global_job_info (exp :: rest)
  = raise (match first_missing (entry exp) paragraph_keys with
           | Some key => KeyError key
           | None => NameError "job_info"
           end).
Proof.
  unfold _generate_experience_paragraph, getitem, first_missing, paragraph_keys.
  cbn [List.find].
  destruct (entry exp !! "title") as [t|]; [|reflexivity].
  destruct (entry exp !! "company") as [c|]; [|reflexivity].
  destruct (entry exp !! "key_achievement") as [k|]; reflexivity.
Qed.





Lemma relevant_experience_missing extract resume job_info :
  _get_relevant_experience extract resume job_info = raise AttributeError.
Proof. reflexivity. Qed.



Lemma job_info_of_missing get_text extract_requirements get_apply_url extract_keywords
    find_missing resume job_url soup :
  job_info_of get_text extract_requirements get_apply_url extract_keywords find_missing
    resume job_url soup = raise AttributeError.
Proof. reflexivity. Qed.

Section Application.
Context {W : Type} {env : Env W} {web : Web W}.
Local Open Scope flow_scope.

Lemma analyze_job_outcome get_text extract_requirements get_apply_url extract_keywords
    find_missing resume job_url (st : St W) :
  exists e,
    analyze_job get_text extract_requirements get_apply_url extract_keywords
      find_missing resume job_url st
    = ({| world := fst (web_get job_url (world st));
          trace := trace st; globals := globals st |}, raise e)
    /\ match snd (web_get job_url (world st)) with
       | inl e' => e = e'
       | inr _ => e = AttributeError
       end.
Proof.
  unfold analyze_job, mtry, mthen, fetch, lift, mraise.
  destruct (web_get job_url (world st)) as [w [e|soup]]; cbn [fst snd].
  - exists e. split; reflexivity.
  - exists AttributeError. split; reflexivity.
Qed.

(** X21.  [analyze_job] never returns a job description.  It makes its one
    request and nothing else: no call of the page, the console or the file
    system.  When the request fails it raises the error of the request,
    and when the request succeeds it raises an AttributeError. *)
Theorem analyze_job_never_returns get_text extract_requirements get_apply_url
    extract_keywords find_missing resume job_url (st : St W) :
  exists st' e,
    analyze_job get_text extract_requirements get_apply_url extract_keywords
      find_missing resume job_url st = (st', raise e)
    /\ silent st st'
    /\ world st' = fst (web_get job_url (world st))
    /\ e = match snd (web_get job_url (world st)) with
           | inl e' => e'
           | inr _ => AttributeError
           end.
Proof.
  destruct (analyze_job_outcome get_text extract_requirements get_apply_url
              extract_keywords find_missing resume job_url st) as (e & Hrun & He).
  eexists _, e. split; [exact Hrun |]. repeat split; cbn [world trace globals].
  destruct (snd (web_get job_url (world st))); exact He.
Qed.

(** X22.  [apply_to_lever_job] always raises, and by then it has made no
    call of the page, the console or the file system: the application is
    not saved to the history and the form is never opened. *)
Theorem lever_application_never_reaches_the_form urljoin get_text extract_requirements
    get_apply_url extract_keywords find_missing company_focus global_job_info
    self resume job_url (st : St W) :
  exists st' e,
    LeverApplication.apply_to_lever_job urljoin get_text extract_requirements
      get_apply_url extract_keywords find_missing company_focus global_job_info
      self resume job_url st = (st', raise e)
    /\ silent st st'.
Proof.
  unfold LeverApplication.apply_to_lever_job.
  unfold mtry at 1. unfold mthen at 1.
  unfold get_job_details. unfold mtry at 1. unfold mthen at 1. unfold fetch at 1.
  destruct (web_get (LeverNavigator.TargetUrl job_url) (world st)) as [w [e|soup]].
  - eexists _, e. split; [reflexivity |]. split; reflexivity.
  - unfold mreturn at 1. cbn beta iota. unfold ok at 1. cbn beta iota.
    unfold mthen at 1.
    match goal with
    | |- context [analyze_job ?a ?b ?c ?d ?f ?r ?u ?s] =>
        destruct (analyze_job_outcome a b c d f r u s) as (e & Hrun & _); rewrite Hrun
    end.
    eexists _, e. split; [reflexivity |]. split; reflexivity.
Qed.
End Application.

(** ** Instances *)

Lemma apply_url_without_link_witness :
  LeverNavigator.endswith "/apply"
    (LeverNavigator._get_apply_url (fun _ href => href) "https://jobs.lever.co/acme/1"
       LeverSamples.bare_page) = true
  /\ LeverNavigator._get_apply_url (fun _ href => href)
       (LeverNavigator._get_apply_url (fun _ href => href) "https://jobs.lever.co/acme/1"
          LeverSamples.bare_page)
       LeverSamples.bare_page
     = LeverNavigator._get_apply_url (fun _ href => href) "https://jobs.lever.co/acme/1"
         LeverSamples.bare_page.
Proof.
  apply (apply_url_without_link (fun _ href => href) "https://jobs.lever.co/acme/1"
           LeverSamples.bare_page LeverSamples.bare_page); reflexivity.
Defined.

Lemma matching_skills_are_the_required_ones_witness :
  exists l, _find_matching_skills LeverSamples.resume (LeverSamples.posting None) = ok l
    /\ NoDup l
    /\ forall skill, skill ∈ l <->
         resume_skill LeverSamples.resume skill
         /\ required_skill (LeverSamples.posting None) skill.
Proof.
  apply (matching_skills_are_the_required_ones LeverSamples.resume (LeverSamples.posting None));
    repeat constructor.
Defined.

Lemma skills_paragraph_is_always_written_witness :
  exists paragraph,
    _generate_skills_paragraph (LeverSamples.posting (Some LeverSamples.one_skill))
    = ok paragraph.
Proof.
  destruct (skills_paragraph_is_always_written
              (LeverSamples.posting (Some LeverSamples.one_skill)) LeverSamples.one_skill)
    as (p & Hp & _); [reflexivity |].
  exists p. exact Hp.
Defined.
